(** * Transformers from scratch (JAX/Flax notebooks): a shallow embedding

    The repository is a set of five notebooks (bigram, scaled
    self-attention, multi-headed self-attention, transformer decoder,
    GPT-2).  This development embeds

    - the character tokenizer of the data-preparation cell
      ([chars], [stoi], [itos], [encode], [decode]),
    - the cells of a notebook as programs of a small state-and-exception
      monad over a world made of the file system, the network, the
      standard output and the notebook's global names,
    - the attention modules ([Head], [MultiHeadedAttention], [FeedForward],
      [Block], [GPT2]) over lists of real numbers, for their shapes, their
      errors and their dropout layers,
    - [Head] once more over floats, for the causal masking, which depends
      on how floats treat [-inf] and NaN,
    - the language models of the other notebooks
      ([BigramLanguageModel], [AttentionLanguageModel]) and the toy cells
      on the averaging weights.

    Python strings are lists of Unicode code points ([N]); token ids are
    [nat]; float arrays are nested lists, over [R] where only shapes, errors
    and equalities of programs are at stake (exact arithmetic, the value
    [-inf] written by [masked_fill] being explicit, see [xreal]), and over
    the carrier of a float arithmetic given by its operations and the IEEE
    laws used (see [Float]) where the values matter. *)

From Stdlib Require Import List NArith Lia Lra Reals Ascii String.
From stdpp Require Import base option list gmap sets sorting strings.

Set Default Proof Using "Type".

(** ** Python exceptions and results *)

Inductive PyExn : Type :=
| KeyError_char (c : N)            (* stoi[c] with c missing *)
| KeyError_int (i : nat)           (* itos[i] with i missing *)
| ZeroDivisionError                (* 0 ** -0.5 *)
| InvalidRngError                  (* flax: make_rng('dropout') without an rng *)
| ValueError_ (what : string)       (* jnp.concatenate of an empty list *)
| OverflowError                    (* np.array(ids, dtype=np.uint16), an id >= 2^16 *)
| OSError_ (what : string)         (* raised by open / read / write *)
| RequestException (what : string) (* raised by requests.get *).

Inductive res (A : Type) : Type :=
| Ok (a : A)
| Raise (e : PyExn).
Arguments Ok {A} a.
Arguments Raise {A} e.

Definition res_bind {A B} (r : res A) (k : A -> res B) : res B :=
  match r with
  | Ok a => k a
  | Raise e => Raise e
  end.

Definition is_ok {A} (r : res A) : Prop := exists a, r = Ok a.

(** ** The tokenizer of the data-preparation cell *)

Module Tokenizer.

(** A Python [str]: the list of its code points. *)
Definition pystr : Type := list N.

(** [enumerate(l)] *)
Definition enumerate {A} (l : list A) : list (nat * A) :=
  combine (seq 0 (length l)) l.

(** [chars = sorted(list(set(data)))] *)
Definition chars (data : pystr) : list N :=
  merge_sort N.le (elements (list_to_set data : gset N)).

(** [vocab_size = len(chars)] *)
Definition vocab_size (data : pystr) : nat := length (chars data).

(** [stoi = { ch:i for i,ch in enumerate(chars) }]: the comprehension
    inserts the pairs from left to right. *)
Definition stoi_of (cs : list N) : gmap N nat :=
  fold_left (fun m '(i, ch) => <[ch:=i]> m) (enumerate cs) ∅.

(** [itos = { i:ch for i,ch in enumerate(chars) }] *)
Definition itos_of (cs : list N) : gmap nat N :=
  fold_left (fun m '(i, ch) => <[i:=ch]> m) (enumerate cs) ∅.

Definition stoi (data : pystr) : gmap N nat := stoi_of (chars data).
Definition itos (data : pystr) : gmap nat N := itos_of (chars data).

(** [def encode(s): return [stoi[c] for c in s]]: the comprehension runs
    from left to right and the first missing key raises [KeyError]. *)
Fixpoint encode (stoi : gmap N nat) (s : pystr) : res (list nat) :=
  match s with
  | [] => Ok []
  | c :: s' =>
      match stoi !! c with
      | None => Raise (KeyError_char c)
      | Some i => res_bind (encode stoi s') (fun l => Ok (i :: l))
      end
  end.

(** [def decode(l): return ''.join([itos[i] for i in l])]
    (the later notebooks first do [l = np.array(l)], which keeps the
    integers). *)
Fixpoint decode (itos : gmap nat N) (l : list nat) : res pystr :=
  match l with
  | [] => Ok []
  | i :: l' =>
      match itos !! i with
      | None => Raise (KeyError_int i)
      | Some c => res_bind (decode itos l') (fun s => Ok (c :: s))
      end
  end.

End Tokenizer.

(** A Python string literal, code points written out. *)
Definition str (s : string) : Tokenizer.pystr :=
  map (fun a => N_of_ascii a) (String.list_ascii_of_string s).

(** ** The notebooks as programs

    A notebook is a list of cells run from top to bottom.  Its cells act on
    a world: the file system, the standard output and the sequence of calls
    made to the operating system, the network and the numerical libraries.
    What the operating system and the network answer is given by an
    environment.  The libraries (jax, flax, optax) and the helper module
    [helper_funcs] ([get_batch], [generate], [loss_fn]; its source is not
    among the sources) are a parameter: a record of pure functions. *)

(** The five notebooks. *)
Inductive stage : Type := Bigram | SingleHead | MultiHead | Decoder | GPT2.

Global Instance stage_eq_dec : EqDecision stage.
Proof. solve_decision. Defined.

Record Library : Type := {
  Key : Type;        (* a jax PRNG key *)
  Array : Type;      (* a jax/numpy array *)
  Params : Type;     (* the [variables] pytree *)
  OptState : Type;
  Grads : Type;
  Updates : Type;
  Loss : Type;
  (* jax.random.PRNGKey(seed) *)
  PRNGKey : nat -> Key;
  (* jax.random.split(key) *)
  random_split : Key -> Key * Key;
  (* helper_funcs.get_batch(ids, key, batch_size, block_size) *)
  get_batch : list nat -> Key -> nat -> nat -> Array * Array;
  (* jnp.zeros(shape=(a, b), dtype=jnp.uint16) *)
  zeros : nat -> nat -> Array;
  (* model.init(key, x), for the model class of the notebook built with
     the given vocab_size *)
  model_init : stage -> nat -> Key -> Array -> Params;
  (* model.apply(variables, x) *)
  model_apply : stage -> nat -> Params -> Array -> Array;
  (* value_and_grad(loss_fn, argnums=(0))(variables, model.apply, xb, yb) *)
  value_and_grad_loss : stage -> nat -> Params -> Array -> Array -> Loss * Grads;
  (* optax.adamw(learning_rate=1e-2): optimizer.init, optimizer.update *)
  optimizer_init : Params -> OptState;
  optimizer_update : Grads -> OptState -> Params -> Updates * OptState;
  (* optax.apply_updates(variables, updates) *)
  apply_updates : Params -> Updates -> Params;
  (* list(np.array(generate(variables, model.apply, index_seq, rng_key,
     vocab_size, 1, block_size, max_new_tokens)[0])) with
     index_seq = jnp.zeros(shape=(1,1), dtype=jnp.uint16) *)
  generate : stage -> Params -> Key -> nat -> nat -> nat -> nat -> list nat;
  (* the arrays a, b, c of the toy example of the scaled self-attention
     notebook, b drawn with random.randint(key=rng_key, ...) *)
  toy_abc : Key -> Array * Array * Array
}.

(** The lines written by [print]. The text of a formatted line is
    determined by the values it formats. *)
Inductive Line (L : Library) : Type :=
| L_text (s : Tokenizer.pystr)            (* print(<a string>) *)
| L_dataset_length (n : nat)              (* length of dataset in characters: n *)
| L_unique_chars (cs : list N)            (* all the unique characters: ... *)
| L_vocab_size (n : nat)                  (* vocab size: n *)
| L_train_tokens (n : nat)                (* train has n tokens *)
| L_val_tokens (n : nat)                  (* val has n tokens *)
| L_shape (a : Array L)                   (* print(a.shape) *)
| L_array (a : Array L)                   (* print(a) *)
| L_when_input (xb yb : Array L) (b t : nat)
                                          (* when input is xb[b,:t+1] the target: yb[b,t] *)
| L_epoch (step : nat) (loss : Loss L)    (* Epoch: step, Loss: loss *).
Arguments L_text {L} s.
Arguments L_dataset_length {L} n.
Arguments L_unique_chars {L} cs.
Arguments L_vocab_size {L} n.
Arguments L_train_tokens {L} n.
Arguments L_val_tokens {L} n.
Arguments L_shape {L} a.
Arguments L_array {L} a.
Arguments L_when_input {L} xb yb b t.
Arguments L_epoch {L} step loss.

(** Calls that leave the notebook: to the file system, to the network, and
    the calls of the model and training pipeline to the libraries. *)
Inductive Event : Type :=
| EvExists (path : string)      (* os.path.exists(path) *)
| EvOpenW (path : string)       (* open(path, 'w') *)
| EvWrite (path : string)       (* f.write(...) on a file opened for writing *)
| EvOpenR (path : string)       (* open(path, 'r') *)
| EvRead (path : string)        (* f.read() *)
| EvHttpGet (url : string)      (* requests.get(url) *)
| EvSplit                       (* jax.random.split *)
| EvGetBatch                    (* get_batch *)
| EvModelInit                   (* model.init *)
| EvModelApply                  (* model.apply *)
| EvOptInit                     (* optimizer.init *)
| EvValueAndGrad                (* value_and_grad(loss_fn, ...)(...) *)
| EvOptUpdate                   (* optimizer.update *)
| EvApplyUpdates                (* optax.apply_updates *)
| EvGenerate                    (* generate *).

Definition is_file_event (e : Event) : bool :=
  match e with
  | EvOpenW _ | EvWrite _ | EvOpenR _ | EvRead _ => true
  | _ => false
  end.

(** What the outside answers. *)
Record Env : Type := {
  (* the exception open(path, 'w') raises, if it does (missing directory,
     permissions, ...) *)
  open_w_error : string -> option PyExn;
  (* the exception f.write raises, if it does *)
  write_error : string -> option PyExn;
  (* the exception open(path, 'r') raises on an existing file, if it does *)
  open_r_error : string -> option PyExn;
  (* the exception f.read() raises, if it does (decoding, ...) *)
  read_error : string -> option PyExn;
  (* requests.get(url).text, or the exception requests.get raises *)
  http_text : string -> res Tokenizer.pystr
}.

Record World (L : Library) : Type := {
  files : gmap string Tokenizer.pystr;   (* path -> contents *)
  stdout : list (Line L);
  events : list Event
}.
Arguments files {L} w.
Arguments stdout {L} w.
Arguments events {L} w.

Declare Scope nb_scope.
Delimit Scope nb_scope with nb.

Module Notebook.
Import Tokenizer.

Section Cells.
Context (L : Library).

(** *** The monad of cells: environment, world, exceptions *)

Definition M (A : Type) : Type := Env -> World L -> res A * World L.

Definition ret {A} (a : A) : M A := fun _ w => (Ok a, w).

Definition bind {A B} (m : M A) (k : A -> M B) : M B :=
  fun env w =>
    match m env w with
    | (Ok a, w') => k a env w'
    | (Raise e, w') => (Raise e, w')
    end.

Definition raise {A} (e : PyExn) : M A := fun _ w => (Raise e, w).

Definition lift_res {A} (r : res A) : M A := fun _ w => (r, w).

Notation "x <- c1 ;; c2" := (bind c1 (fun x => c2))
  (at level 100, c1 at next level, right associativity) : nb_scope.
Notation "c1 ;; c2" := (bind c1 (fun _ => c2))
  (at level 100, right associativity) : nb_scope.
Local Open Scope nb_scope.

Definition emit (e : Event) : M unit :=
  fun _ w => (Ok tt, {| files := files w; stdout := stdout w;
                        events := events w ++ [e] |}).

(** [print(...)] *)
Definition print (l : Line L) : M unit :=
  fun _ w => (Ok tt, {| files := files w; stdout := stdout w ++ [l];
                        events := events w |}).

(** A call to a library function: the call is recorded, the library
    computes the value. *)
Definition call {A} (e : Event) (v : A) : M A := emit e ;; ret v.

(** [os.path.exists(path)] *)
Definition os_path_exists (path : string) : M bool :=
  emit (EvExists path) ;;
  fun _ w => (Ok (bool_decide (is_Some (files w !! path))), w).

(** [open(path, 'w')]: creates or truncates the file. *)
Definition open_w (path : string) : M unit :=
  emit (EvOpenW path) ;;
  fun env w =>
    match open_w_error env path with
    | Some e => (Raise e, w)
    | None => (Ok tt, {| files := <[path:=[]]> (files w); stdout := stdout w;
                         events := events w |})
    end.

(** [f.write(s)] on the file opened for writing at [path] *)
Definition f_write (path : string) (s : pystr) : M unit :=
  emit (EvWrite path) ;;
  fun env w =>
    match write_error env path with
    | Some e => (Raise e, w)
    | None => (Ok tt, {| files := <[path:=s]> (files w); stdout := stdout w;
                         events := events w |})
    end.

(** [open(path, 'r')] *)
Definition open_r (path : string) : M unit :=
  emit (EvOpenR path) ;;
  fun env w =>
    match files w !! path with
    | None => (Raise (OSError_ "FileNotFoundError"), w)
    | Some _ =>
        match open_r_error env path with
        | Some e => (Raise e, w)
        | None => (Ok tt, w)
        end
    end.

(** What a file opened with [open(path, 'r')] gives to [read]: text mode
    with universal newlines turns the line endings CR LF and CR into LF. *)
Fixpoint universal_newlines (s : pystr) : pystr :=
  match s with
  | [] => []
  | c :: s' =>
      if N.eqb c 13 then
        match s' with
        | c' :: s'' =>
            if N.eqb c' 10 then 10%N :: universal_newlines s''
            else 10%N :: universal_newlines s'
        | [] => [10%N]
        end
      else c :: universal_newlines s'
  end.

(** [f.read()] on the file opened for reading at [path] *)
Definition f_read (path : string) : M pystr :=
  emit (EvRead path) ;;
  fun env w =>
    match read_error env path with
    | Some e => (Raise e, w)
    | None =>
        match files w !! path with
        | Some s => (Ok (universal_newlines s), w)
        | None => (Raise (OSError_ "FileNotFoundError"), w)
        end
    end.

(** [requests.get(url).text] *)
Definition requests_get_text (url : string) : M pystr :=
  emit (EvHttpGet url) ;;
  fun env w => (http_text env url, w).

(** [for i in is: s = body(i, s)] *)
Fixpoint for_each {S} (body : nat -> S -> M S) (idxs : list nat) (s : S) : M S :=
  match idxs with
  | [] => ret s
  | i :: idxs' => s' <- body i s ;; for_each body idxs' s'
  end.

(** [for i in is: body(i)] *)
Fixpoint for_each_ (body : nat -> M unit) (idxs : list nat) : M unit :=
  match idxs with
  | [] => ret tt
  | i :: idxs' => body i ;; for_each_ body idxs'
  end.

(** *** The data-preparation cell *)

Definition input_file_path : string := "./data/shakespeare_char/input.txt".
Definition data_url : string :=
  "https://raw.githubusercontent.com/karpathy/char-rnn/master/data/tinyshakespeare/input.txt".

(** <<
    input_file_path = os.path.join('./data/shakespeare_char/input.txt')
    if not os.path.exists(input_file_path):
        data_url = '...'
        with open(input_file_path, 'w') as f:
            f.write(requests.get(data_url).text)
    with open(input_file_path, 'r') as f:
        data = f.read()
    print(f"length of dataset in characters: {len(data):,}")
    >> *)
Definition download_and_read : M pystr :=
  ex <- os_path_exists input_file_path ;;
  (if negb ex then
     open_w input_file_path ;;
     text <- requests_get_text data_url ;;
     f_write input_file_path text
   else ret tt) ;;
  open_r input_file_path ;;
  data <- f_read input_file_path ;;
  print (L_dataset_length (length data)) ;;
  ret data.

(** The names bound by the data-preparation cells. *)
Record Dataset : Type := {
  d_data : pystr;
  d_chars : list N;
  d_vocab_size : nat;
  d_stoi : gmap N nat;
  d_itos : gmap nat N;
  d_train_ids : list nat;
  d_val_ids : list nat
}.

(** [np.array(ids, dtype=np.uint16)] / [jnp.array(ids, dtype=jnp.uint16)]
    on a list of Python ints: an int that does not fit uint16 raises
    [OverflowError]. *)
Definition fits_uint16 (i : nat) : bool := (N.of_nat i <? 2 ^ 16)%N.

Definition as_uint16 (ids : list nat) : res (list nat) :=
  if forallb fits_uint16 ids then Ok ids else Raise OverflowError.

(** [int(n*0.9)]: the integer part of nine tenths of [n] (the float
    product has the same integer part for every length below 2^50). *)
Definition int_0_9 (n : nat) : nat := 9 * n / 10.

(** <<
    chars = sorted(list(set(data)))
    vocab_size = len(chars)
    print("all the unique characters:", ''.join(chars))
    print(f"vocab size: {vocab_size:,}")
    stoi = ...; itos = ...; def encode ...; def decode ...
    n = len(data)
    train_data = data[:int(n*0.9)]
    val_data = data[int(n*0.9):]
    train_ids = encode(train_data)
    val_ids = encode(val_data)
    print(f"train has {len(train_ids):,} tokens")
    print(f"val has {len(val_ids):,} tokens")
    train_ids = np.array(train_ids, dtype=np.uint16)
    val_ids = np.array(val_ids, dtype=np.uint16)
    >> *)
Definition tokenize_and_split (data : pystr) : M Dataset :=
  let cs := chars data in
  let vs := length cs in
  print (L_unique_chars cs) ;;
  print (L_vocab_size vs) ;;
  let st := stoi_of cs in
  let it := itos_of cs in
  let n := length data in
  let train_data := firstn (int_0_9 n) data in
  let val_data := skipn (int_0_9 n) data in
  train_ids <- lift_res (encode st train_data) ;;
  val_ids <- lift_res (encode st val_data) ;;
  print (L_train_tokens (length train_ids)) ;;
  print (L_val_tokens (length val_ids)) ;;
  train_ids <- lift_res (as_uint16 train_ids) ;;
  val_ids <- lift_res (as_uint16 val_ids) ;;
  ret {| d_data := data; d_chars := cs; d_vocab_size := vs;
         d_stoi := st; d_itos := it;
         d_train_ids := train_ids;
         d_val_ids := val_ids |}.

Definition data_cell : M Dataset :=
  data <- download_and_read ;;
  tokenize_and_split data.

(** [print(decode(train_ids[:100]))] *)
Definition show_head_cell (d : Dataset) : M unit :=
  s <- lift_res (decode (d_itos d) (firstn 100 (d_train_ids d))) ;;
  print (L_text s).

(** *** Hyperparameters of the five notebooks *)

Record Hyper : Type := {
  h_batch_size : nat;       (* batch_size of the parameter cell *)
  h_block_size : nat;
  h_max_new_tokens : nat;
  h_steps : nat;            (* steps of the training cell *)
  h_train_batch_size : nat  (* batch_size during training *)
}.

Definition hyper (s : stage) : Hyper :=
  match s with
  | Bigram =>
      {| h_batch_size := 4; h_block_size := 8; h_max_new_tokens := 100;
         h_steps := 100; h_train_batch_size := 32 |}
  | SingleHead =>
      {| h_batch_size := 32; h_block_size := 8; h_max_new_tokens := 100;
         h_steps := 100; h_train_batch_size := 32 |}
  | MultiHead =>
      {| h_batch_size := 32; h_block_size := 8; h_max_new_tokens := 100;
         h_steps := 100; h_train_batch_size := 32 |}
  | Decoder =>
      {| h_batch_size := 32; h_block_size := 8; h_max_new_tokens := 50;
         h_steps := 100; h_train_batch_size := 32 |}
  | GPT2 =>
      {| h_batch_size := 16; h_block_size := 32; h_max_new_tokens := 20;
         h_steps := 100; h_train_batch_size := 16 |}
  end.

(** *** The global names the training cell reads or binds

    A name that is not bound yet is [None]. *)
Record Globals : Type := {
  g_train_ids : list nat;
  g_vocab_size : nat;
  g_batch_size : nat;
  g_block_size : nat;
  g_rng_key : Key L;
  g_variables : Params L;
  g_opt_state : OptState L;
  g_steps : option nat;
  g_step : option nat;
  g_subkey : option (Key L);
  g_xb : option (Array L);
  g_yb : option (Array L);
  g_loss : option (Loss L);
  g_grads : option (Grads L);
  g_updates : option (Updates L)
}.

(** One iteration of the training loop, [step] being [i]:
    <<
    rng_key, subkey = jax.random.split(rng_key)
    xb, yb = get_batch(train_ids, subkey, batch_size, block_size)
    loss, grads = value_and_grad(loss_fn, argnums=(0))(
        variables, model.apply, xb, yb)
    updates, opt_state = optimizer.update(grads, opt_state, variables)
    variables = optax.apply_updates(variables, updates)
    print(f"Epoch: {step}, Loss: {loss :.4f}")
    >> *)
Definition train_body (s : stage) (i : nat) (g : Globals) : M Globals :=
  ks <- call EvSplit (random_split L (g_rng_key g)) ;;
  let rng_key := fst ks in
  let subkey := snd ks in
  b <- call EvGetBatch
         (get_batch L (g_train_ids g) subkey (g_batch_size g) (g_block_size g)) ;;
  let xb := fst b in
  let yb := snd b in
  lg <- call EvValueAndGrad
          (value_and_grad_loss L s (g_vocab_size g) (g_variables g) xb yb) ;;
  let loss := fst lg in
  let grads := snd lg in
  uo <- call EvOptUpdate (optimizer_update L grads (g_opt_state g) (g_variables g)) ;;
  let updates := fst uo in
  let opt_state := snd uo in
  variables <- call EvApplyUpdates (apply_updates L (g_variables g) updates) ;;
  print (L_epoch i loss) ;;
  ret {| g_train_ids := g_train_ids g;
         g_vocab_size := g_vocab_size g;
         g_batch_size := g_batch_size g;
         g_block_size := g_block_size g;
         g_rng_key := rng_key;
         g_variables := variables;
         g_opt_state := opt_state;
         g_steps := g_steps g;
         g_step := Some i;
         g_subkey := Some subkey;
         g_xb := Some xb;
         g_yb := Some yb;
         g_loss := Some loss;
         g_grads := Some grads;
         g_updates := Some updates |}.

(** [for step in range(steps): ...] *)
Definition train_loop (s : stage) (steps : nat) (g : Globals) : M Globals :=
  for_each (train_body s) (seq 0 steps) g.

(** The assignments that open the training cell: [steps = 100], and
    [batch_size = 32] in the bigram notebook. *)
Definition train_setup (s : stage) (g : Globals) : Globals :=
  {| g_train_ids := g_train_ids g;
     g_vocab_size := g_vocab_size g;
     g_batch_size := match s with
                     | Bigram => h_train_batch_size (hyper s)
                     | _ => g_batch_size g
                     end;
     g_block_size := g_block_size g;
     g_rng_key := g_rng_key g;
     g_variables := g_variables g;
     g_opt_state := g_opt_state g;
     g_steps := Some (h_steps (hyper s));
     g_step := g_step g;
     g_subkey := g_subkey g;
     g_xb := g_xb g;
     g_yb := g_yb g;
     g_loss := g_loss g;
     g_grads := g_grads g;
     g_updates := g_updates g |}.

Definition train_cell (s : stage) (g : Globals) : M Globals :=
  train_loop s (h_steps (hyper s)) (train_setup s g).

(** *** Text generation
    <<
    index_seq = jnp.zeros(shape=(1,1), dtype=jnp.uint16)
    max_new_tokens = ...
    generated_indices = generate(variables, model.apply, index_seq, rng_key,
                                 vocab_size, 1, block_size, max_new_tokens)
    generated_indices = list(np.array(generated_indices[0]))
    print("Generated text: ")
    print(decode(generated_indices))
    >> *)
Definition generate_cell (s : stage) (d : Dataset)
    (variables : Params L) (rng_key : Key L) : M unit :=
  ids <- call EvGenerate
           (generate L s variables rng_key (d_vocab_size d) 1
              (h_block_size (hyper s)) (h_max_new_tokens (hyper s))) ;;
  print (L_text (str "Generated text: ")) ;;
  text <- lift_res (decode (d_itos d) ids) ;;
  print (L_text text).

(** *** The cells between the data and the first generation *)

(** The names these cells leave behind. *)
Record Prelude : Type := {
  p_rng_key : Key L;
  p_subkey : option (Key L);
  p_xb : option (Array L);
  p_yb : option (Array L);
  p_variables : Params L
}.

(** Bigram notebook:
    <<
    rng_key = jax.random.PRNGKey(128)
    batch_size = 4
    block_size = 8
    xb, yb = get_batch(train_ids, rng_key, batch_size, block_size)
    print('inputs:'); print(xb.shape); print(xb)
    print('targets:'); print(yb.shape); print(yb)
    for b in range(batch_size):
        for t in range(block_size):
            context = xb[b, :t+1]
            target = yb[b,t]
            print(f"when input is {context.tolist()} the target: {target}")
    model = BigramLanguageModel(vocab_size)
    variables = model.init(rng_key, xb)
    out = model.apply(variables, xb)
    print(out.shape)
    >> *)
Definition bigram_cells (d : Dataset) : M Prelude :=
  let rng_key := PRNGKey L 128 in
  let batch_size := h_batch_size (hyper Bigram) in
  let block_size := h_block_size (hyper Bigram) in
  b <- call EvGetBatch (get_batch L (d_train_ids d) rng_key batch_size block_size) ;;
  let xb := fst b in
  let yb := snd b in
  print (L_text (str "inputs:")) ;;
  print (L_shape xb) ;;
  print (L_array xb) ;;
  print (L_text (str "targets:")) ;;
  print (L_shape yb) ;;
  print (L_array yb) ;;
  for_each_ (fun b =>
    for_each_ (fun t => print (L_when_input xb yb b t)) (seq 0 block_size))
    (seq 0 batch_size) ;;
  variables <- call EvModelInit (model_init L Bigram (d_vocab_size d) rng_key xb) ;;
  out <- call EvModelApply (model_apply L Bigram (d_vocab_size d) variables xb) ;;
  print (L_shape out) ;;
  ret {| p_rng_key := rng_key; p_subkey := None;
         p_xb := Some xb; p_yb := Some yb; p_variables := variables |}.

(** The toy cells of the scaled self-attention notebook, as far as they
    print or rebind [rng_key]: the first one prints the arrays a, b, c; the
    cell "version 4" splits [rng_key] three times, a later cell twice
    ([rng_key, subkey = jax.random.split(rng_key)]). *)
Definition single_head_toy_cells (rng_key : Key L) : M (Key L * option (Key L)) :=
  let abc := toy_abc L rng_key in
  print (L_text (str "a=")) ;;
  print (L_array (fst (fst abc))) ;;
  print (L_text (str "--")) ;;
  print (L_text (str "b=")) ;;
  print (L_array (snd (fst abc))) ;;
  print (L_text (str "--")) ;;
  print (L_text (str "c=")) ;;
  print (L_array (snd abc)) ;;
  for_each (fun _ ks => ks' <- call EvSplit (random_split L (fst ks)) ;;
                        ret (fst ks', Some (snd ks')))
    (seq 0 5) (rng_key, None).

(** The notebooks with a parameter cell:
    <<
    rng_key = jax.random.PRNGKey(128)
    ...
    model = ...(vocab_size, ...)
    dummy_x = jnp.zeros(shape=(batch_size, block_size), dtype=jnp.uint16)
    variables = model.init(rng_key, dummy_x)
    out = model.apply(variables, dummy_x)
    print(out.shape)
    >> *)
Definition attention_cells (s : stage) (d : Dataset) : M Prelude :=
  ks <- match s with
        | SingleHead => single_head_toy_cells (PRNGKey L 128)
        | _ => ret (PRNGKey L 128, None)
        end ;;
  let rng_key := fst ks in
  let dummy_x := zeros L (h_batch_size (hyper s)) (h_block_size (hyper s)) in
  variables <- call EvModelInit (model_init L s (d_vocab_size d) rng_key dummy_x) ;;
  out <- call EvModelApply (model_apply L s (d_vocab_size d) variables dummy_x) ;;
  print (L_shape out) ;;
  ret {| p_rng_key := rng_key; p_subkey := snd ks;
         p_xb := None; p_yb := None; p_variables := variables |}.

Definition model_cells (s : stage) (d : Dataset) : M Prelude :=
  match s with
  | Bigram => bigram_cells d
  | _ => attention_cells s d
  end.

(** [optimizer = optax.adamw(learning_rate=1e-2)],
    [opt_state = optimizer.init(variables)], and the namespace in which the
    training cell starts. *)
Definition optimizer_cell (s : stage) (d : Dataset) (p : Prelude) : M Globals :=
  opt_state <- call EvOptInit (optimizer_init L (p_variables p)) ;;
  ret {| g_train_ids := d_train_ids d;
         g_vocab_size := d_vocab_size d;
         g_batch_size := h_batch_size (hyper s);
         g_block_size := h_block_size (hyper s);
         g_rng_key := p_rng_key p;
         g_variables := p_variables p;
         g_opt_state := opt_state;
         g_steps := None;
         g_step := None;
         g_subkey := p_subkey p;
         g_xb := p_xb p;
         g_yb := p_yb p;
         g_loss := None;
         g_grads := None;
         g_updates := None |}.

(** *** A notebook, run from its first cell to its last *)
Definition notebook (s : stage) : M Globals :=
  d <- data_cell ;;
  show_head_cell d ;;
  p <- model_cells s d ;;
  generate_cell s d (p_variables p) (p_rng_key p) ;;
  g0 <- optimizer_cell s d p ;;
  g <- train_cell s g0 ;;
  generate_cell s d (g_variables g) (g_rng_key g) ;;
  ret g.

End Cells.

Arguments ret {L A} a.
Arguments bind {L A B} m k.
Arguments lift_res {L A} r.

End Notebook.

(** ** The attention modules

    Arrays of floats are nested lists over [R]; a module's parameters are
    explicit arguments (flax keeps them in the [variables] pytree). *)

Declare Scope res_scope.
Delimit Scope res_scope with res.
Notation "x <- c1 ;; c2" := (res_bind c1 (fun x => c2))
  (at level 100, c1 at next level, right associativity) : res_scope.

(** [[f(a) for a in l]] where [f] may raise. *)
Fixpoint res_mapM {A B} (f : A -> res B) (l : list A) : res (list B) :=
  match l with
  | [] => Ok []
  | a :: l' => res_bind (f a) (fun b => res_bind (res_mapM f l') (fun bs => Ok (b :: bs)))
  end.

Module Attention.
Local Open Scope res_scope.

Abbreviation vec := (list R).
Abbreviation matrix := (list (list R)).
Abbreviation tensor3 := (list (list (list R))).

(** [x.shape == (B, T, C)] *)
Definition shape3 {A} (B T C : nat) (x : list (list (list A))) : Prop :=
  length x = B
  /\ Forall (fun m => length m = T /\ Forall (fun r => length r = C) m) x.

(** [M.shape == (n, m)] *)
Definition shape2 {A} (n m : nat) (M : list (list A)) : Prop :=
  length M = n /\ Forall (fun r => length r = m) M.

Definition dot (a b : vec) : R := foldr Rplus 0%R (zip_with Rmult a b).

(** Column [j] of a matrix, and the length of its rows. *)
Definition col (j : nat) (M : matrix) : vec := (fun r => nth j r 0%R) <$> M.
Definition width (M : matrix) : nat := length (hd [] M).

(** [A @ B] on matrices, and on arrays with a leading batch axis. *)
Definition matmul (A B : matrix) : matrix :=
  (fun a => (fun j => dot a (col j B)) <$> seq 0 (width B)) <$> A.
Definition bmm (A B : tensor3) : tensor3 := zip_with matmul A B.

(** [k.transpose((0, -1, -2))] *)
Definition transpose (M : matrix) : matrix := (fun j => col j M) <$> seq 0 (width M).
Definition transpose_last2 (x : tensor3) : tensor3 := transpose <$> x.

(** [nn.Dense(features, use_bias=False)] with kernel of shape
    (C, features): [x @ kernel] on the last axis. *)
Definition Dense_nobias (features : nat) (kernel : matrix) (x : tensor3) : tensor3 :=
  (fun m : matrix =>
     (fun row : vec => (fun j => dot row (col j kernel)) <$> seq 0 features) <$> m)
    <$> x.

(** [nn.Dense(features)]: [x @ kernel + bias]. *)
Record DenseParams : Type := { kernel : matrix; bias : vec }.

Definition Dense (features : nat) (p : DenseParams) (x : tensor3) : tensor3 :=
  (fun m : matrix =>
     (fun row : vec =>
        zip_with Rplus ((fun j => dot row (col j (kernel p))) <$> seq 0 features) (bias p))
       <$> m) <$> x.

(** [jax.nn.relu] *)
Definition relu (x : tensor3) : tensor3 :=
  (fun m : matrix => (fun r : vec => Rmax 0 <$> r) <$> m) <$> x.

(** [x + y] on arrays of the same shape. *)
Definition add3 (x y : tensor3) : tensor3 := zip_with (zip_with (zip_with Rplus)) x y.

(** A float that may be [-inf]. *)
Inductive xreal : Type := Fin (r : R) | NegInf.

Definition exp_x (e : xreal) : R :=
  match e with
  | Fin r => exp r
  | NegInf => 0%R
  end.

(** [jax.nn.softmax(row)]: [exp(row) / sum(exp(row))]. *)
Definition softmax (row : list xreal) : vec :=
  let total := foldr Rplus 0%R (exp_x <$> row) in
  (fun e => (exp_x e / total)%R) <$> row.

(** [jnp.tril(jnp.ones(shape=(T, T), dtype=bool))]: entry (i, j) is true
    when j <= i. *)
Definition tril (T : nat) : list (list bool) :=
  (fun i => (fun j => bool_decide (j <= i)) <$> seq 0 T) <$> seq 0 T.

(** Modelled from the spec: [helper_funcs.masked_fill(mask, a, fill)];
    the module [helper_funcs] is not among the sources.  The spec does not
    describe it.  Its call sites pass a boolean mask, an array of the same
    shape and the fill value [-jnp.inf], and the recorded output of the
    cell [weights[0]] of the scaled self-attention notebook shows, after
    the softmax, zeros exactly above the diagonal: [a] is kept where [mask]
    is true and replaced by [fill] elsewhere. *)
Definition masked_fill {A} (mask : list (list (list bool)))
    (a : list (list (list A))) (fill : A) : list (list (list A)) :=
  zip_with (zip_with (zip_with (fun (m : bool) v => if m then v else fill))) mask a.

(** [n ** -0.5] for a Python int [n]: [0 ** -0.5] raises. *)
Definition pow_neg_half (n : nat) : res R :=
  match n with
  | 0 => Raise ZeroDivisionError
  | S _ => Ok (/ sqrt (INR n))%R
  end.

(** The parameters of a [Head]: the kernels of [key], [query], [value]. *)
Record HeadParams : Type := {
  key_kernel : matrix;
  query_kernel : matrix;
  value_kernel : matrix
}.

(** The kernels flax creates for a head of size [head_size] on inputs of
    [C] channels have shape (C, head_size). *)
Definition head_params_shape (C head_size : nat) (p : HeadParams) : Prop :=
  shape2 C head_size (key_kernel p)
  /\ shape2 C head_size (query_kernel p)
  /\ shape2 C head_size (value_kernel p).

(** The attention weights of [Head.__call__], [scale] being the value of
    [self.head_size**-0.5]:
    <<
    B,T,C = x.shape
    k = key(x); q = query(x)
    weights = q @ k.transpose((0, -1, -2)) * self.head_size**-0.5
    tril = jnp.tril(jnp.ones(shape=(T, T), dtype=bool))
    tril = jnp.repeat(tril[None, ...], repeats=B, axis=0)
    weights = masked_fill(tril, weights, -jnp.inf)
    weights = jax.nn.softmax(weights, axis=-1)
    >> *)
Definition attention_weights (head_size : nat) (p : HeadParams) (scale : R)
    (x : tensor3) : tensor3 :=
  let B := length x in
  let T := length (hd [] x) in
  let k := Dense_nobias head_size (key_kernel p) x in
  let q := Dense_nobias head_size (query_kernel p) x in
  let weights :=
    (fun m : matrix => (fun r : vec => (fun v => v * scale)%R <$> r) <$> m)
      <$> bmm q (transpose_last2 k) in
  let mask := replicate B (tril T) in
  let weights :=
    masked_fill mask
      ((fun m : matrix => (fun r : vec => Fin <$> r) <$> m) <$> weights) NegInf in
  (fun m : list (list xreal) => softmax <$> m) <$> weights.

(** [Head.__call__] of the scaled self-attention, multi-headed
    self-attention and transformer decoder notebooks:
    <<
    ... weights as above ...
    v = value(x)
    out = weights @ v
    return out
    >> *)
Definition Head_call (head_size : nat) (p : HeadParams) (x : tensor3) : res tensor3 :=
  scale <- pow_neg_half head_size ;;
  let weights := attention_weights head_size p scale x in
  let v := Dense_nobias head_size (value_kernel p) x in
  Ok (bmm weights v).

(** [jnp.concatenate(arrays, axis=-1)] on arrays of three axes. *)
Definition concat_last2 (a b : tensor3) : tensor3 := zip_with (zip_with app) a b.

Definition concatenate_last (arrays : list tensor3) : res tensor3 :=
  match arrays with
  | [] => Raise (ValueError_ "Need at least one array to concatenate.")
  | a :: rest => Ok (foldl concat_last2 a rest)
  end.

(** [MultiHeadedAttention.__call__] of the multi-headed self-attention
    notebook; [p i] are the parameters of the head number [i]:
    <<
    heads = [Head(self.head_size) for _ in range(self.num_heads)]
    heads_out = [h(x) for h in heads]
    combined_logits = jnp.concatenate(heads_out, axis=-1)
    return combined_logits
    >> *)
Definition MultiHeadedAttention_call (num_heads head_size : nat)
    (p : nat -> HeadParams) (x : tensor3) : res tensor3 :=
  heads_out <- res_mapM (fun i => Head_call head_size (p i) x) (seq 0 num_heads) ;;
  concatenate_last heads_out.


(** *** The layers of the transformer decoder and GPT-2 notebooks *)

(** [a // b] on Python ints. *)
Definition floordiv (a b : nat) : res nat :=
  match b with
  | 0 => Raise ZeroDivisionError
  | S _ => Ok (a / b)
  end.

(** The flax layers whose arithmetic plays no role here:
    [nn.LayerNorm()] and [nn.Embed(num_embeddings, features)]. *)
Record Layers : Type := {
  LNParams : Type;
  LayerNorm : LNParams -> tensor3 -> tensor3;
  EmbedParams : Type;
  Embed : nat -> nat -> EmbedParams -> list nat -> matrix
}.

(** The random bits offered to the dropout layers: [None] when
    [model.apply] is given no [rngs] (as in every call of the notebooks);
    otherwise a mask for each module, a module being named by its path. *)
Definition Rngs : Type := option (list nat -> list (list (list bool))).

Definition sub (rngs : Rngs) (k : nat) : Rngs :=
  (fun f path => f (k :: path)) <$> rngs.

Definition here (rngs : Rngs) : option (list (list (list bool))) :=
  (fun f => f []) <$> rngs.

(** [nn.Dropout(rate, deterministic)(x)]:
    <<
    if (self.rate == 0.0) or deterministic: return inputs
    if self.rate == 1.0: return jnp.zeros_like(inputs)
    keep_prob = 1.0 - self.rate
    rng = self.make_rng('dropout')
    mask = random.bernoulli(rng, p=keep_prob, shape=inputs.shape)
    return lax.select(mask, inputs / keep_prob, jnp.zeros_like(inputs))
    >> *)
Definition Dropout (rate : R) (deterministic : bool)
    (rng : option (list (list (list bool)))) (x : tensor3) : res tensor3 :=
  if deterministic then Ok x
  else if Req_EM_T rate 0 then Ok x
  else if Req_EM_T rate 1 then
    Ok ((fun m : matrix => (fun r : vec => (fun _ => 0%R) <$> r) <$> m) <$> x)
  else
    match rng with
    | None => Raise InvalidRngError
    | Some mask =>
        Ok (zip_with (zip_with (zip_with
              (fun (keep : bool) v => if keep then (v / (1 - rate))%R else 0%R))) mask x)
    end.

Record FeedForwardParams : Type := { ff_dense_0 : DenseParams; ff_dense_1 : DenseParams }.

Record MHAParams : Type := { mha_heads : nat -> HeadParams; mha_proj : DenseParams }.

Record BlockParams (Ls : Layers) : Type := {
  blk_ln_0 : LNParams Ls;
  blk_mha : MHAParams;
  blk_ln_1 : LNParams Ls;
  blk_ffwd : FeedForwardParams
}.
Arguments blk_ln_0 {Ls} b.
Arguments blk_mha {Ls} b.
Arguments blk_ln_1 {Ls} b.
Arguments blk_ffwd {Ls} b.

Record ModelParams (Ls : Layers) : Type := {
  token_embedding_table : EmbedParams Ls;
  position_embedding_table : EmbedParams Ls;
  decoder_blocks : nat -> BlockParams Ls;
  ln_f : LNParams Ls;
  lm_head : DenseParams
}.
Arguments token_embedding_table {Ls} m.
Arguments position_embedding_table {Ls} m.
Arguments decoder_blocks {Ls} m.
Arguments ln_f {Ls} m.
Arguments lm_head {Ls} m.

(** The modules of the transformer decoder notebook. *)
Module Decoder.

(** <<
    net = nn.Sequential([nn.Dense(4 * self.n_embed), jax.nn.relu,
                         nn.Dense(self.n_embed)])
    >> *)
Definition FeedForward_call (n_embed : nat) (p : FeedForwardParams) (x : tensor3) : tensor3 :=
  Dense n_embed (ff_dense_1 p) (relu (Dense (4 * n_embed) (ff_dense_0 p) x)).

(** <<
    heads = [Head(self.head_size) for _ in range(self.num_heads)]
    heads_out = [h(x) for h in heads]
    combined_logits = jnp.concatenate(heads_out, axis=-1)
    proj = nn.Dense(self.n_embed)
    logits = proj(combined_logits)
    >> *)
Definition MultiHeadedAttention_call (num_heads head_size n_embed : nat)
    (p : MHAParams) (x : tensor3) : res tensor3 :=
  heads_out <- res_mapM (fun i => Head_call head_size (mha_heads p i) x)
                 (seq 0 num_heads) ;;
  combined_logits <- concatenate_last heads_out ;;
  Ok (Dense n_embed (mha_proj p) combined_logits).

(** <<
    head_size = self.n_embed // self.num_heads
    sa_heads = MultiHeadedAttention(self.num_heads, head_size, self.n_embed)
    x = x + sa_heads(nn.LayerNorm()(x))
    ffwd = FeedForward(self.n_embed)
    x = x + ffwd(nn.LayerNorm()(x))
    >> *)
Definition Block_call (Ls : Layers) (n_embed num_heads : nat)
    (p : BlockParams Ls) (x : tensor3) : res tensor3 :=
  head_size <- floordiv n_embed num_heads ;;
  a <- MultiHeadedAttention_call num_heads head_size n_embed (blk_mha p)
         (LayerNorm Ls (blk_ln_0 p) x) ;;
  let x := add3 x a in
  Ok (add3 x (FeedForward_call n_embed (blk_ffwd p) (LayerNorm Ls (blk_ln_1 p) x))).

End Decoder.

(** The modules of the GPT-2 notebook. *)
Module Gpt2.

Record Config : Type := {
  vocab_size : nat;
  n_embed : nat;
  block_size : nat;
  num_heads : nat;
  num_layers : nat;
  drop_rate : R
}.

(** <<
    net = nn.Sequential([nn.Dense(4 * self.n_embed), jax.nn.relu,
                         nn.Dense(self.n_embed),
                         nn.Dropout(rate=self.drop_rate, deterministic=True)])
    >> *)
Definition FeedForward_call (n_embed : nat) (drop_rate : R) (p : FeedForwardParams)
    (rngs : Rngs) (x : tensor3) : res tensor3 :=
  Dropout drop_rate true (here rngs)
    (Dense n_embed (ff_dense_1 p) (relu (Dense (4 * n_embed) (ff_dense_0 p) x))).

(** [Head.__call__] of the GPT-2 notebook: as [Attention.Head_call], with
    <<
    drop = nn.Dropout(rate=self.drop_rate, deterministic=True)
    weights = drop(weights)
    >>
    between the softmax and [weights @ v]. *)
Definition Head_call (head_size : nat) (drop_rate : R) (p : HeadParams)
    (rngs : Rngs) (x : tensor3) : res tensor3 :=
  scale <- pow_neg_half head_size ;;
  let weights := attention_weights head_size p scale x in
  weights <- Dropout drop_rate true (here rngs) weights ;;
  let v := Dense_nobias head_size (value_kernel p) x in
  Ok (bmm weights v).

(** <<
    heads = [Head(self.head_size, self.drop_rate) for _ in range(self.num_heads)]
    heads_out = [h(x) for h in heads]
    combined_logits = jnp.concatenate(heads_out, axis=-1)
    proj = nn.Dense(self.n_embed)
    logits = proj(combined_logits)
    drop = nn.Dropout(rate=self.drop_rate, deterministic=True)
    logits = drop(logits)
    >> *)
Definition MultiHeadedAttention_call (num_heads head_size n_embed : nat) (drop_rate : R)
    (p : MHAParams) (rngs : Rngs) (x : tensor3) : res tensor3 :=
  heads_out <- res_mapM (fun i => Head_call head_size drop_rate (mha_heads p i)
                                    (sub rngs i) x)
                 (seq 0 num_heads) ;;
  combined_logits <- concatenate_last heads_out ;;
  Dropout drop_rate true (here rngs) (Dense n_embed (mha_proj p) combined_logits).

(** <<
    head_size = self.n_embed // self.num_heads
    sa_heads = MultiHeadedAttention(self.num_heads, head_size, self.n_embed,
                                    self.drop_rate)
    x = x + sa_heads(nn.LayerNorm()(x))
    ffwd = FeedForward(self.n_embed, self.drop_rate)
    x = x + ffwd(nn.LayerNorm()(x))
    >> *)
Definition Block_call (Ls : Layers) (n_embed num_heads : nat) (drop_rate : R)
    (p : BlockParams Ls) (rngs : Rngs) (x : tensor3) : res tensor3 :=
  head_size <- floordiv n_embed num_heads ;;
  a <- MultiHeadedAttention_call num_heads head_size n_embed drop_rate (blk_mha p)
         (sub rngs 0) (LayerNorm Ls (blk_ln_0 p) x) ;;
  let x := add3 x a in
  f <- FeedForward_call n_embed drop_rate (blk_ffwd p) (sub rngs 1)
         (LayerNorm Ls (blk_ln_1 p) x) ;;
  Ok (add3 x f).

(** The embeddings that open [GPT2.__call__]:
    <<
    B, T = index_seq.shape
    token_emb = token_embedding_table(index_seq)
    pos_emb = position_embedding_table(jnp.arange(T))
    x = token_emb + pos_emb
    >> *)
Definition embed (Ls : Layers) (cfg : Config) (p : ModelParams Ls)
    (index_seq : list (list nat)) : tensor3 :=
  let T := length (hd [] index_seq) in
  let token_emb :=
    Embed Ls (vocab_size cfg) (n_embed cfg) (token_embedding_table p) <$> index_seq in
  let pos_emb :=
    Embed Ls (block_size cfg) (n_embed cfg) (position_embedding_table p) (seq 0 T) in
  (fun m : matrix => zip_with (zip_with Rplus) m pos_emb) <$> token_emb.

(** [GPT2.__call__]:
    <<
    ... x as above ...
    decoder_blocks = [Block(self.n_embed, num_heads=self.num_heads,
                            drop_rate=self.drop_rate)
                      for _ in range(self.num_layers)]
    decoder_blocks.append(nn.LayerNorm())
    blocks = nn.Sequential(decoder_blocks)
    x = blocks(x)
    lm_head = nn.Dense(self.vocab_size)
    logits = lm_head(x)
    >> *)
Definition GPT2_call (Ls : Layers) (cfg : Config) (p : ModelParams Ls)
    (rngs : Rngs) (index_seq : list (list nat)) : res tensor3 :=
  x <- foldl (fun acc i =>
                x <- acc ;;
                Block_call Ls (n_embed cfg) (num_heads cfg) (drop_rate cfg)
                  (decoder_blocks p i) (sub rngs i) x)
         (Ok (embed Ls cfg p index_seq)) (seq 0 (num_layers cfg)) ;;
  Ok (Dense (vocab_size cfg) (lm_head p) (LayerNorm Ls (ln_f p) x)).

(** The same network with the dropout layers removed: its blocks are the
    blocks of the transformer decoder notebook. *)
Definition GPT2_without_dropout (Ls : Layers) (cfg : Config) (p : ModelParams Ls)
    (index_seq : list (list nat)) : res tensor3 :=
  x <- foldl (fun acc i =>
                x <- acc ;;
                Decoder.Block_call Ls (n_embed cfg) (num_heads cfg)
                  (decoder_blocks p i) x)
         (Ok (embed Ls cfg p index_seq)) (seq 0 (num_layers cfg)) ;;
  Ok (Dense (vocab_size cfg) (lm_head p) (LayerNorm Ls (ln_f p) x)).

End Gpt2.

End Attention.

(** ** Float arithmetic

    What [Head.__call__] computes depends on how floats treat [-inf] and
    NaN: the weight zero that the mask leaves on a later position
    multiplies the value at that position, and [0 * inf] is NaN.  The
    arithmetic is a parameter: a carrier with the operations the head uses.
    The carrier stands for the float32 values as [==] and [isnan] tell them
    apart (0.0 and -0.0 are one value, and so are all NaNs); the divisors of
    the head are sums of exponentials, never -0.0. *)

Module Float.

Record Ops : Type := {
  F : Type;
  zero : F;                        (* 0.0 *)
  neg_inf : F;                     (* -jnp.inf *)
  nan : F;                         (* jnp.nan *)
  is_finite : F -> bool;           (* jnp.isfinite *)
  add : F -> F -> F;
  sub : F -> F -> F;
  mul : F -> F -> F;
  div : F -> F -> F;
  exp : F -> F;                    (* jnp.exp *)
  max : F -> F -> F;               (* jnp.maximum *)
  sum : list F -> F;               (* the sum of the terms, in the order XLA adds them *)
  of_pyfloat : R -> F              (* a Python float as a float32 *)
}.

(** The laws of IEEE 754 arithmetic that the masking rests on. *)
Record Laws (O : Ops) : Prop := {
  mul_zero_finite : forall v, is_finite O v = true -> mul O (zero O) v = zero O;
  sub_neg_inf : forall m, sub O (neg_inf O) m = neg_inf O \/ sub O (neg_inf O) m = nan O;
  exp_neg_inf : exp O (neg_inf O) = zero O;
  exp_nan : exp O (nan O) = nan O;
  div_nan : forall s, div O (nan O) s = nan O;
  div_zero : forall s, div O (zero O) s = zero O \/ div O (zero O) s = nan O
}.

End Float.

(** ** [Head] over floats *)

Module FloatHead.
Import Float.
Local Open Scope res_scope.

Section WithOps.
Context {O : Ops}.

Abbreviation vec := (list (F O)).
Abbreviation matrix := (list (list (F O))).
Abbreviation tensor3 := (list (list (list (F O)))).

(** A contraction: the sum of the products. *)
Definition dot (a b : vec) : F O := sum O (zip_with (mul O) a b).

Definition col (j : nat) (M : matrix) : vec := (fun r => nth j r (zero O)) <$> M.
Definition width (M : matrix) : nat := length (hd [] M).

(** [A @ B] on matrices, and on arrays with a leading batch axis. *)
Definition matmul (A B : matrix) : matrix :=
  (fun a => (fun j => dot a (col j B)) <$> seq 0 (width B)) <$> A.
Definition bmm (A B : tensor3) : tensor3 := zip_with matmul A B.

(** [k.transpose((0, -1, -2))] *)
Definition transpose (M : matrix) : matrix := (fun j => col j M) <$> seq 0 (width M).
Definition transpose_last2 (x : tensor3) : tensor3 := transpose <$> x.

(** [nn.Dense(features, use_bias=False)(x)], the kernel having the shape
    (C, features) for the C channels of [x] (flax raises
    [ScopeParamShapeError] on another shape).  For the check of the shape
    flax evaluates the initializer of the kernel, [lecun_normal], which
    divides by the sizes of the axes: an axis of size zero raises
    [ZeroDivisionError]. *)
Definition Dense_nobias (features : nat) (kernel : matrix) (x : tensor3) : res tensor3 :=
  if (length kernel =? 0) || (features =? 0) then Raise ZeroDivisionError
  else
    Ok ((fun m : matrix =>
           (fun row : vec => (fun j => dot row (col j kernel)) <$> seq 0 features) <$> m)
          <$> x).

(** [jax.nn.softmax(row)]:
    <<
    x_max = jnp.max(x, axis, initial=-jnp.inf, keepdims=True)
    unnormalized = jnp.exp(x - x_max)
    result = unnormalized / jnp.sum(unnormalized, axis, keepdims=True)
    >> *)
Definition softmax (row : vec) : vec :=
  let x_max := foldr (max O) (neg_inf O) row in
  let unnormalized := (fun v => exp O (sub O v x_max)) <$> row in
  let total := sum O unnormalized in
  (fun u => div O u total) <$> unnormalized.

(** [n ** -0.5] for a Python int [n]: [0 ** -0.5] raises. *)
Definition pow_neg_half (n : nat) : res (F O) :=
  match n with
  | 0 => Raise ZeroDivisionError
  | S _ => Ok (of_pyfloat O (/ sqrt (INR n)))
  end.

(** The parameters of a [Head]: the kernels of [key], [query], [value]. *)
Record HeadParams : Type := {
  key_kernel : matrix;
  query_kernel : matrix;
  value_kernel : matrix
}.

Definition head_params_shape (C head_size : nat) (p : HeadParams) : Prop :=
  Attention.shape2 C head_size (key_kernel p)
  /\ Attention.shape2 C head_size (query_kernel p)
  /\ Attention.shape2 C head_size (value_kernel p).

(** The attention weights of [Head.__call__]:
    <<
    B,T,C = x.shape
    key = nn.Dense(self.head_size, use_bias=False)
    k = key(x)
    query = nn.Dense(self.head_size, use_bias=False)
    q = query(x)
    weights = q @ k.transpose((0, -1, -2)) * self.head_size**-0.5
    tril = jnp.tril(jnp.ones(shape=(T, T), dtype=bool))
    tril = jnp.repeat(tril[None, ...], repeats=B, axis=0)
    weights = masked_fill(tril, weights, -jnp.inf)
    weights = jax.nn.softmax(weights, axis=-1)
    >> *)
Definition attention_weights (head_size : nat) (p : HeadParams) (x : tensor3) : res tensor3 :=
  let B := length x in
  let T := length (hd [] x) in
  k <- Dense_nobias head_size (key_kernel p) x ;;
  q <- Dense_nobias head_size (query_kernel p) x ;;
  let qk := bmm q (transpose_last2 k) in
  scale <- pow_neg_half head_size ;;
  let weights :=
    (fun m : matrix => (fun r : vec => (fun v => mul O v scale) <$> r) <$> m) <$> qk in
  let tril := replicate B (Attention.tril T) in
  let weights := Attention.masked_fill tril weights (neg_inf O) in
  Ok ((fun m : matrix => softmax <$> m) <$> weights).

(** [Head.__call__] of the scaled self-attention, multi-headed
    self-attention and transformer decoder notebooks:
    <<
    ... weights as above ...
    value = nn.Dense(self.head_size, use_bias=False)
    v = value(x)
    out = weights @ v
    return out
    >> *)
Definition Head_call (head_size : nat) (p : HeadParams) (x : tensor3) : res tensor3 :=
  weights <- attention_weights head_size p x ;;
  v <- Dense_nobias head_size (value_kernel p) x ;;
  Ok (bmm weights v).

(** [nn.Dropout(rate, deterministic)(x)]:
    <<
    if (self.rate == 0.0) or deterministic: return inputs
    if self.rate == 1.0: return jnp.zeros_like(inputs)
    keep_prob = 1.0 - self.rate
    rng = self.make_rng('dropout')
    mask = random.bernoulli(rng, p=keep_prob, shape=inputs.shape)
    return lax.select(mask, inputs / keep_prob, jnp.zeros_like(inputs))
    >> *)
Definition Dropout (rate : R) (deterministic : bool)
    (rng : option (list (list (list bool)))) (x : tensor3) : res tensor3 :=
  if deterministic then Ok x
  else if Req_EM_T rate 0 then Ok x
  else if Req_EM_T rate 1 then
    Ok ((fun m : matrix => (fun r : vec => (fun _ => zero O) <$> r) <$> m) <$> x)
  else
    match rng with
    | None => Raise InvalidRngError
    | Some mask =>
        Ok (zip_with (zip_with (zip_with
              (fun (keep : bool) v =>
                 if keep then div O v (of_pyfloat O (1 - rate)) else zero O))) mask x)
    end.

(** [Head.__call__] of the GPT-2 notebook: as [Head_call], with
    <<
    drop = nn.Dropout(rate=self.drop_rate, deterministic=True)
    weights = drop(weights)
    >>
    between the softmax and [value = nn.Dense(...)]. *)
Definition Gpt2_Head_call (head_size : nat) (drop_rate : R) (p : HeadParams)
    (rngs : Attention.Rngs) (x : tensor3) : res tensor3 :=
  weights <- attention_weights head_size p x ;;
  weights <- Dropout drop_rate true (Attention.here rngs) weights ;;
  v <- Dense_nobias head_size (value_kernel p) x ;;
  Ok (bmm weights v).

End WithOps.

Arguments HeadParams O : clear implicits.

End FloatHead.

(** An arithmetic to compute with: the real numbers with [inf], [-inf] and
    NaN, and no rounding. *)
Module XFloat.

Inductive xfloat : Type := Fin (r : R) | PosInf | NegInf | NaN.

Definition is_finite (a : xfloat) : bool :=
  match a with Fin _ => true | _ => false end.

Definition neg (a : xfloat) : xfloat :=
  match a with
  | Fin r => Fin (- r)
  | PosInf => NegInf
  | NegInf => PosInf
  | NaN => NaN
  end.

Definition add (a b : xfloat) : xfloat :=
  match a, b with
  | NaN, _ | _, NaN => NaN
  | Fin r, Fin r' => Fin (r + r')
  | PosInf, NegInf | NegInf, PosInf => NaN
  | PosInf, _ | _, PosInf => PosInf
  | NegInf, _ | _, NegInf => NegInf
  end.

Definition sub (a b : xfloat) : xfloat := add a (neg b).

(** [inf] or [-inf], by the sign of a real that is not zero. *)
Definition signed_inf (r : R) (flip : bool) : xfloat :=
  if Rlt_dec 0 r then (if flip then NegInf else PosInf)
  else (if flip then PosInf else NegInf).

Definition mul (a b : xfloat) : xfloat :=
  match a, b with
  | NaN, _ | _, NaN => NaN
  | Fin r, Fin r' => Fin (r * r')
  | Fin r, PosInf | PosInf, Fin r => if Req_EM_T r 0 then NaN else signed_inf r false
  | Fin r, NegInf | NegInf, Fin r => if Req_EM_T r 0 then NaN else signed_inf r true
  | PosInf, PosInf | NegInf, NegInf => PosInf
  | PosInf, NegInf | NegInf, PosInf => NegInf
  end.

Definition div (a b : xfloat) : xfloat :=
  match a, b with
  | NaN, _ | _, NaN => NaN
  | Fin r, Fin r' =>
      if Req_EM_T r' 0 then (if Req_EM_T r 0 then NaN else signed_inf r false)
      else Fin (r / r')
  | Fin _, _ => Fin 0
  | PosInf, Fin r' => if Rlt_dec r' 0 then NegInf else PosInf
  | NegInf, Fin r' => if Rlt_dec r' 0 then PosInf else NegInf
  | _, _ => NaN
  end.

Definition exp (a : xfloat) : xfloat :=
  match a with
  | Fin r => Fin (Rtrigo_def.exp r)
  | PosInf => PosInf
  | NegInf => Fin 0
  | NaN => NaN
  end.

Definition max (a b : xfloat) : xfloat :=
  match a, b with
  | NaN, _ | _, NaN => NaN
  | PosInf, _ | _, PosInf => PosInf
  | NegInf, c | c, NegInf => c
  | Fin r, Fin r' => Fin (Rmax r r')
  end.

Definition ops : Float.Ops :=
  {| Float.F := xfloat;
     Float.zero := Fin 0;
     Float.neg_inf := NegInf;
     Float.nan := NaN;
     Float.is_finite := is_finite;
     Float.add := add;
     Float.sub := sub;
     Float.mul := mul;
     Float.div := div;
     Float.exp := exp;
     Float.max := max;
     Float.sum := foldr add (Fin 0);
     Float.of_pyfloat := Fin |}.

End XFloat.

(** ** The language models of the notebooks *)

Module Models.
Import Attention.
Local Open Scope res_scope.

(** [BigramLanguageModel.__call__] of the bigram notebook:
    <<
    token_embedding_table = nn.Embed(num_embeddings=self.vocab_size,
                                     features=self.vocab_size)
    logits = token_embedding_table(x)
    return logits
    >> *)
Definition BigramLanguageModel_call (Ls : Layers) (vocab_size : nat)
    (p : EmbedParams Ls) (x : list (list nat)) : tensor3 :=
  Embed Ls vocab_size vocab_size p <$> x.

(** The lines that open [AttentionLanguageModel.__call__] in the three
    attention notebooks:
    <<
    B, T = index_seq.shape
    token_embedding_table = nn.Embed(num_embeddings=self.vocab_size,
                                     features=self.n_embed)
    token_emb = token_embedding_table(index_seq)
    position_embedding_table = nn.Embed(num_embeddings=self.block_size,
                                        features=self.n_embed)
    pos_emb = position_embedding_table(jnp.arange(T))
    x = token_emb + pos_emb
    >> *)
Definition embeddings (Ls : Layers) (vocab_size n_embed block_size : nat)
    (tok pos : EmbedParams Ls) (index_seq : list (list nat)) : tensor3 :=
  let T := length (hd [] index_seq) in
  let token_emb := Embed Ls vocab_size n_embed tok <$> index_seq in
  let pos_emb := Embed Ls block_size n_embed pos (seq 0 T) in
  (fun m : matrix => zip_with (zip_with Rplus) m pos_emb) <$> token_emb.

(** The scaled self-attention notebook. *)
Module SingleHead.

Record Params (Ls : Layers) : Type := {
  token_embedding_table : EmbedParams Ls;
  position_embedding_table : EmbedParams Ls;
  sa_head : HeadParams;
  lm_head : DenseParams
}.
Arguments token_embedding_table {Ls} p.
Arguments position_embedding_table {Ls} p.
Arguments sa_head {Ls} p.
Arguments lm_head {Ls} p.

(** [AttentionLanguageModel.__call__]:
    <<
    ... x as above ...
    sa_head = Head(self.head_size)
    x = sa_head(x)
    lm_head = nn.Dense(self.vocab_size)
    logits = lm_head(x)
    return logits
    >> *)
Definition AttentionLanguageModel_call (Ls : Layers)
    (vocab_size n_embed block_size head_size : nat) (p : Params Ls)
    (index_seq : list (list nat)) : res tensor3 :=
  let x := embeddings Ls vocab_size n_embed block_size
             (token_embedding_table p) (position_embedding_table p) index_seq in
  x <- Head_call head_size (sa_head p) x ;;
  Ok (Dense vocab_size (lm_head p) x).

End SingleHead.

(** The multi-headed self-attention notebook. *)
Module MultiHead.

Record Params (Ls : Layers) : Type := {
  token_embedding_table : EmbedParams Ls;
  position_embedding_table : EmbedParams Ls;
  sa_heads : nat -> HeadParams;
  lm_head : DenseParams
}.
Arguments token_embedding_table {Ls} p.
Arguments position_embedding_table {Ls} p.
Arguments sa_heads {Ls} p.
Arguments lm_head {Ls} p.

(** [AttentionLanguageModel.__call__]:
    <<
    ... x as above ...
    head_size = self.n_embed // self.num_heads
    sa_heads = MultiHeadedAttention(self.num_heads, head_size)
    x = sa_heads(x)
    lm_head = nn.Dense(self.vocab_size)
    logits = lm_head(x)
    return logits
    >> *)
Definition AttentionLanguageModel_call (Ls : Layers)
    (vocab_size n_embed block_size num_heads : nat) (p : Params Ls)
    (index_seq : list (list nat)) : res tensor3 :=
  let x := embeddings Ls vocab_size n_embed block_size
             (token_embedding_table p) (position_embedding_table p) index_seq in
  head_size <- floordiv n_embed num_heads ;;
  x <- MultiHeadedAttention_call num_heads head_size (sa_heads p) x ;;
  Ok (Dense vocab_size (lm_head p) x).

End MultiHead.

(** The transformer decoder notebook. *)
Module TransformerDecoder.

(** [AttentionLanguageModel.__call__]:
    <<
    ... x as above ...
    blocks = nn.Sequential([
        Block(self.n_embed, num_heads=self.num_heads),
        Block(self.n_embed, num_heads=self.num_heads),
        Block(self.n_embed, num_heads=self.num_heads),
        nn.LayerNorm()
    ])
    x = blocks(x)
    lm_head = nn.Dense(self.vocab_size)
    logits = lm_head(x)
    return logits
    >> *)
Definition AttentionLanguageModel_call (Ls : Layers)
    (vocab_size n_embed block_size num_heads : nat) (p : ModelParams Ls)
    (index_seq : list (list nat)) : res tensor3 :=
  let x := embeddings Ls vocab_size n_embed block_size
             (token_embedding_table p) (position_embedding_table p) index_seq in
  x <- Decoder.Block_call Ls n_embed num_heads (decoder_blocks p 0) x ;;
  x <- Decoder.Block_call Ls n_embed num_heads (decoder_blocks p 1) x ;;
  x <- Decoder.Block_call Ls n_embed num_heads (decoder_blocks p 2) x ;;
  let x := LayerNorm Ls (ln_f p) x in
  Ok (Dense vocab_size (lm_head p) x).

End TransformerDecoder.

End Models.

(** ** The toy cells of the scaled self-attention notebook *)

Module Trick.
Import Attention.

(** [jnp.tril(jnp.ones(shape=(T, T)))]: entry (i, j) is 1 when j <= i and
    0 otherwise. *)
Definition tril_ones (T : nat) : matrix :=
  (fun i => (fun j => if bool_decide (j <= i) then 1%R else 0%R) <$> seq 0 T) <$> seq 0 T.

(** [a / jnp.sum(a, axis=1, keepdims=1)] *)
Definition normalize_rows (a : matrix) : matrix :=
  (fun row : vec => (fun v => (v / foldr Rplus 0 row)%R) <$> row) <$> a.

(** "version 2":
    <<
    weights = jnp.tril(jnp.ones(shape=(T, T)))
    weights = weights / jnp.sum(weights, axis=1, keepdims=1)
    >> *)
Definition weights_version_2 (T : nat) : matrix := normalize_rows (tril_ones T).

(** Modelled from the spec: [helper_funcs.masked_fill] on arrays of two
    axes; see [Attention.masked_fill], of which this is the same elementwise
    selection. *)
Definition masked_fill_2d {A} (mask : list (list bool)) (a : list (list A)) (fill : A)
    : list (list A) :=
  zip_with (zip_with (fun (m : bool) v => if m then v else fill)) mask a.

(** "version 3":
    <<
    tril = jnp.tril(jnp.ones(shape=(T, T), dtype=bool))
    weights = jnp.zeros(shape=(T, T))
    weights = masked_fill(tril, weights, -jnp.inf)
    weights = jax.nn.softmax(weights, axis=-1)
    >> *)
Definition weights_version_3 (T : nat) : matrix :=
  let zeros := replicate T (replicate T (Fin 0%R)) in
  softmax <$> masked_fill_2d (tril T) zeros NegInf.

(** [weights @ x] for weights of shape (T, T) and x of shape (B, T, C). *)
Definition aggregate (weights : matrix) (x : tensor3) : tensor3 :=
  (fun m : matrix => matmul weights m) <$> x.

End Trick.

(** ** Properties of the tokenizer *)

Section TokenizerFacts.
Import Tokenizer.

Lemma stoi_fold_keep (l : list N) (k : nat) (m : gmap N nat) (c : N) :
  c ∉ l ->
  fold_left (fun m '(i, ch) => <[ch:=i]> m) (combine (seq k (length l)) l) m !! c
  = m !! c.
Proof.
  revert k m. induction l as [|b l IH]; intros k m Hc; [done|]. simpl.
  rewrite IH by set_solver. apply lookup_insert_ne. set_solver.
Qed.

Lemma stoi_fold_lookup (l : list N) (k : nat) (m : gmap N nat) (c : N) (i : nat) :
  NoDup l -> l !! i = Some c ->
  fold_left (fun m '(i, ch) => <[ch:=i]> m) (combine (seq k (length l)) l) m !! c
  = Some (k + i).
Proof.
  revert k m i. induction l as [|a l IH]; intros k m i Hnd Hi; [done|].
  apply NoDup_cons in Hnd as [Ha Hnd]. destruct i as [|i]; simpl in *.
  - injection Hi as ->.
    rewrite stoi_fold_keep by done. rewrite lookup_insert_eq. f_equal. lia.
  - rewrite (IH (S k) _ i) by done. f_equal. lia.
Qed.

Lemma itos_fold_lookup (l : list N) (k : nat) (m : gmap nat N) (j : nat) :
  fold_left (fun m '(i, ch) => <[i:=ch]> m) (combine (seq k (length l)) l) m !! j
  = if decide (k <= j < k + length l) then l !! (j - k) else m !! j.
Proof.
  revert k m. induction l as [|a l IH]; intros k m; simpl.
  - case_decide; [lia|done].
  - rewrite IH. repeat case_decide; try lia.
    + destruct (decide (j = k)) as [->|]; [lia|].
      replace (j - k) with (S (j - S k)) by lia. done.
    + assert (j = k) as -> by lia. rewrite lookup_insert_eq.
      by replace (k - k) with 0 by lia.
    + apply lookup_insert_ne. lia.
Qed.

Lemma chars_perm (data : pystr) :
  chars data ≡ₚ elements (list_to_set data : gset N).
Proof. apply merge_sort_Permutation. Qed.

Lemma chars_NoDup (data : pystr) : NoDup (chars data).
Proof. rewrite chars_perm. apply NoDup_elements. Qed.

Lemma elem_of_chars (data : pystr) (c : N) : c ∈ chars data <-> c ∈ data.
Proof. rewrite chars_perm, elem_of_elements. set_solver. Qed.

Lemma chars_sorted (data : pystr) : StronglySorted N.lt (chars data).
Proof.
  assert (Hle : StronglySorted N.le (chars data)).
  { apply (StronglySorted_merge_sort N.le). }
  pose proof (chars_NoDup data) as Hnd.
  induction Hle as [|a l Hl IH Hall]; constructor.
  - apply IH. by apply NoDup_cons in Hnd as [_ ?].
  - apply NoDup_cons in Hnd as [Ha _].
    rewrite Forall_forall in Hall |- *. intros x Hx.
    assert (a <> x) by (intros ->; done).
    specialize (Hall x Hx). lia.
Qed.

Lemma stoi_lookup_index (data : pystr) (c : N) (i : nat) :
  chars data !! i = Some c -> stoi data !! c = Some i.
Proof.
  intros Hi. unfold stoi, stoi_of, enumerate.
  by rewrite (stoi_fold_lookup _ 0 ∅ c i (chars_NoDup data) Hi).
Qed.

Lemma stoi_lookup_None (data : pystr) (c : N) :
  c ∉ data -> stoi data !! c = None.
Proof.
  intros Hc. unfold stoi, stoi_of, enumerate.
  rewrite stoi_fold_keep; [done|]. by rewrite elem_of_chars.
Qed.

Lemma itos_of_lookup (cs : list N) (i : nat) :
  itos_of cs !! i = cs !! i.
Proof.
  unfold itos_of, enumerate. rewrite itos_fold_lookup.
  case_decide as Hi.
  - by replace (i - 0) with i by lia.
  - rewrite lookup_empty. symmetry. apply lookup_ge_None. lia.
Qed.

Lemma itos_lookup (data : pystr) (i : nat) :
  itos data !! i = chars data !! i.
Proof. apply itos_of_lookup. Qed.

Lemma decode_in_range (cs : list N) (l : list nat) :
  Forall (fun i => i < length cs) l -> exists s, decode (itos_of cs) l = Ok s.
Proof.
  induction 1 as [|i l Hi _ [s IH]]; [by exists []|].
  apply lookup_lt_is_Some in Hi as [c Hc].
  exists (c :: s). simpl. by rewrite itos_of_lookup, Hc, IH.
Qed.

Lemma encode_range (data s : pystr) (l : list nat) :
  encode (stoi data) s = Ok l -> Forall (fun i => i < vocab_size data) l.
Proof.
  revert l. induction s as [|c s IH]; intros l; simpl.
  - intros [= <-]. constructor.
  - destruct (stoi data !! c) as [i|] eqn:Hc; [|done].
    destruct (encode (stoi data) s) as [l'|e]; simpl; [|done].
    intros [= <-]. constructor; [|by apply IH].
    destruct (decide (c ∈ data)) as [Hin|Hout].
    + apply elem_of_chars, list_elem_of_lookup in Hin as [j Hj].
      rewrite (stoi_lookup_index _ _ _ Hj) in Hc. injection Hc as <-.
      by apply lookup_lt_Some in Hj.
    + by rewrite (stoi_lookup_None _ _ Hout) in Hc.
Qed.

Lemma encode_in_vocab (data s : pystr) :
  (forall c, c ∈ s -> c ∈ data) ->
  exists l, encode (stoi data) s = Ok l
            /\ Forall2 (fun c i => chars data !! i = Some c) s l.
Proof.
  induction s as [|c s IH]; intros Hs.
  - exists []. split; [done|constructor].
  - destruct IH as (l & Hl & Hidx); [set_solver|].
    assert (Hc : c ∈ chars data) by (apply elem_of_chars; set_solver).
    apply list_elem_of_lookup in Hc as [i Hi].
    exists (i :: l). simpl. rewrite (stoi_lookup_index _ _ _ Hi), Hl.
    split; [done|by constructor].
Qed.

Lemma decode_indices (data s : pystr) (l : list nat) :
  Forall2 (fun c i => chars data !! i = Some c) s l ->
  decode (itos data) l = Ok s.
Proof.
  induction 1 as [|c i s l Hi _ IH]; [done|].
  simpl. by rewrite itos_lookup, Hi, IH.
Qed.

Lemma encode_KeyError (data s : pystr) :
  (exists c, c ∈ s /\ c ∉ data) ->
  exists c, encode (stoi data) s = Raise (KeyError_char c) /\ c ∈ s /\ c ∉ data.
Proof.
  induction s as [|a s IH]; intros (c & Hin & Hout).
  - by apply elem_of_nil in Hin.
  - simpl. destruct (stoi data !! a) as [i|] eqn:Ha.
    + assert (a ∈ data) as Hadata.
      { destruct (decide (a ∈ data)) as [|Hn]; [done|].
        rewrite (stoi_lookup_None _ _ Hn) in Ha. done. }
      destruct IH as (c' & Hr & Hin' & Hout').
      { exists c. split; [|done].
        apply elem_of_cons in Hin as [->|]; [done|assumption]. }
      exists c'. rewrite Hr. simpl. split; [done|].
      split; [by apply list_elem_of_further|done].
    + exists a. split; [done|]. split; [apply list_elem_of_here|].
      intros Hadata. apply elem_of_chars in Hadata.
      apply list_elem_of_lookup in Hadata as [i Hi].
      rewrite (stoi_lookup_index _ _ _ Hi) in Ha. done.
Qed.

End TokenizerFacts.

(** Worked examples on the dataset [hello world]. *)
Example chars_hello :
  Tokenizer.chars (str "hello world") = str " dehlorw".
Proof. vm_compute. reflexivity. Qed.

Example encode_hello :
  Tokenizer.encode (Tokenizer.stoi (str "hello world")) (str "low") = Ok [4; 5; 7].
Proof. vm_compute. reflexivity. Qed.

Example decode_hello :
  Tokenizer.decode (Tokenizer.itos (str "hello world")) [4; 5; 7] = Ok (str "low").
Proof. vm_compute. reflexivity. Qed.

Example encode_missing :
  Tokenizer.encode (Tokenizer.stoi (str "hello world")) (str "lax")
  = Raise (KeyError_char 97).
Proof. vm_compute. reflexivity. Qed.

(** ** Traces of cells *)

Section Traces.
Import Notebook.
Context {L : Library}.
Local Open Scope nb_scope.

Notation "x <- c1 ;; c2" := (bind c1 (fun x => c2))
  (at level 100, c1 at next level, right associativity) : nb_scope.
Notation "c1 ;; c2" := (bind c1 (fun _ => c2))
  (at level 100, right associativity) : nb_scope.

(** The world after some more lines and calls. *)
Definition extend (w : World L) (lines : list (Line L)) (evs : list Event) : World L :=
  {| files := files w; stdout := stdout w ++ lines; events := events w ++ evs |}.

Lemma extend_nil (w : World L) : extend w [] [] = w.
Proof. destruct w. unfold extend. simpl. by rewrite !app_nil_r. Qed.

Lemma extend_extend (w : World L) l1 e1 l2 e2 :
  extend (extend w l1 e1) l2 e2 = extend w (l1 ++ l2) (e1 ++ e2).
Proof. unfold extend. simpl. by rewrite !app_assoc. Qed.

(** [traced m r lines evs]: in every environment and world, [m] ends with
    [r], having printed [lines] and made the calls [evs], and leaves the
    files alone. *)
Definition traced {A} (m : M L A) (r : res A)
    (lines : list (Line L)) (evs : list Event) : Prop :=
  forall env w, m env w = (r, extend w lines evs).

Lemma traced_ret {A} (a : A) : traced (ret a) (Ok a) [] [].
Proof. intros env w. by rewrite extend_nil. Qed.

Lemma traced_print (l : Line L) : traced (print L l) (Ok tt) [l] [].
Proof. intros env w. unfold print, extend. simpl. by rewrite app_nil_r. Qed.

Lemma traced_emit (e : Event) : traced (emit L e) (Ok tt) [] [e].
Proof. intros env w. unfold emit, extend. simpl. by rewrite app_nil_r. Qed.

Lemma traced_lift_res {A} (r : res A) : traced (lift_res r) r [] [].
Proof. intros env w. by rewrite extend_nil. Qed.

Lemma traced_bind {A B} (m : M L A) (k : A -> M L B) a r l1 e1 l2 e2 :
  traced m (Ok a) l1 e1 -> traced (k a) r l2 e2 ->
  traced (bind m k) r (l1 ++ l2) (e1 ++ e2).
Proof.
  intros Hm Hk env w. unfold bind. rewrite Hm, Hk. by rewrite extend_extend.
Qed.

Lemma traced_bind_raise {A B} (m : M L A) (k : A -> M L B) e l1 e1 :
  traced m (Raise e) l1 e1 -> traced (bind m k) (Raise e) l1 e1.
Proof. intros Hm env w. unfold bind. by rewrite Hm. Qed.

Lemma traced_call {A} (e : Event) (v : A) : traced (call L e v) (Ok v) [] [e].
Proof.
  unfold call. apply (traced_bind _ _ tt (Ok v) [] [e] [] []).
  - apply traced_emit.
  - apply traced_ret.
Qed.

(** [quiet m]: whatever its outcome, [m] only prints and calls the
    libraries: it opens, reads and writes no file. *)
Definition no_file_event (evs : list Event) : Prop :=
  List.filter is_file_event evs = [].

Definition quiet {A} (m : M L A) : Prop :=
  forall env w, exists r lines evs,
    m env w = (r, extend w lines evs) /\ no_file_event evs.

Lemma no_file_event_app e1 e2 :
  no_file_event e1 -> no_file_event e2 -> no_file_event (e1 ++ e2).
Proof. unfold no_file_event. intros H1 H2. by rewrite List.filter_app, H1, H2. Qed.

Lemma traced_quiet {A} (m : M L A) r lines evs :
  traced m r lines evs -> no_file_event evs -> quiet m.
Proof. intros Hm Hevs env w. exists r, lines, evs. by rewrite Hm. Qed.

Lemma quiet_bind {A B} (m : M L A) (k : A -> M L B) :
  quiet m -> (forall a, quiet (k a)) -> quiet (bind m k).
Proof.
  intros Hm Hk env w. unfold bind.
  destruct (Hm env w) as (r & l1 & e1 & -> & Hq1). destruct r as [a|e].
  - destruct (Hk a env (extend w l1 e1)) as (r & l2 & e2 & -> & Hq2).
    exists r, (l1 ++ l2), (e1 ++ e2). rewrite extend_extend.
    split; [done|by apply no_file_event_app].
  - by exists (Raise e), l1, e1.
Qed.

Lemma quiet_ret {A} (a : A) : quiet (ret (L:=L) a).
Proof. by apply (traced_quiet _ _ _ _ (traced_ret a)). Qed.

Lemma quiet_print (l : Line L) : quiet (print L l).
Proof. by apply (traced_quiet _ _ _ _ (traced_print l)). Qed.

Lemma quiet_lift_res {A} (r : res A) : quiet (lift_res (L:=L) r).
Proof. by apply (traced_quiet _ _ _ _ (traced_lift_res r)). Qed.

Lemma quiet_call {A} (e : Event) (v : A) :
  is_file_event e = false -> quiet (call L e v).
Proof.
  intros He. apply (traced_quiet _ _ _ _ (traced_call e v)).
  unfold no_file_event. simpl. by rewrite He.
Qed.

Lemma quiet_for_each {S} (body : nat -> S -> M L S) idxs s :
  (forall i s, quiet (body i s)) -> quiet (for_each L body idxs s).
Proof.
  intros Hb. revert s. induction idxs as [|i idxs IH]; intros s; simpl.
  - apply quiet_ret.
  - apply quiet_bind; [apply Hb|apply IH].
Qed.

Lemma quiet_for_each_ (body : nat -> M L unit) idxs :
  (forall i, quiet (body i)) -> quiet (for_each_ L body idxs).
Proof.
  intros Hb. induction idxs as [|i idxs IH]; simpl.
  - apply quiet_ret.
  - apply quiet_bind; [apply Hb|intros _; apply IH].
Qed.

End Traces.

(** Cells built from [bind], [print], library calls and loops are quiet. *)
Ltac quiet_cell :=
  repeat first [ apply quiet_bind; [|intros ?]
               | apply quiet_for_each; intros ? ?
               | apply quiet_for_each_; intros ?
               | apply quiet_print | apply quiet_lift_res | apply quiet_ret
               | by apply quiet_call ].

(** ** The training loop *)

Section Training.
Import Notebook.
Context {L : Library}.

(** The library calls of one iteration, in order. *)
Definition iteration_calls : list Event :=
  [EvSplit; EvGetBatch; EvValueAndGrad; EvOptUpdate; EvApplyUpdates].

(** The names the loop only reads. *)
Definition training_inputs (g : Globals L) : list nat * nat * nat * nat :=
  (g_train_ids L g, g_vocab_size L g, g_batch_size L g, g_block_size L g).

(** The namespace after the iteration [step = i], and the loss it prints. *)
Definition iteration_loss (s : stage) (g : Globals L) : Loss L :=
  let ks := random_split L (g_rng_key L g) in
  let b := get_batch L (g_train_ids L g) (snd ks) (g_batch_size L g) (g_block_size L g) in
  fst (value_and_grad_loss L s (g_vocab_size L g) (g_variables L g) (fst b) (snd b)).

Definition after_iteration (s : stage) (i : nat) (g : Globals L) : Globals L :=
  let ks := random_split L (g_rng_key L g) in
  let b := get_batch L (g_train_ids L g) (snd ks) (g_batch_size L g) (g_block_size L g) in
  let lg := value_and_grad_loss L s (g_vocab_size L g) (g_variables L g) (fst b) (snd b) in
  let uo := optimizer_update L (snd lg) (g_opt_state L g) (g_variables L g) in
  {| g_train_ids := g_train_ids L g;
     g_vocab_size := g_vocab_size L g;
     g_batch_size := g_batch_size L g;
     g_block_size := g_block_size L g;
     g_rng_key := fst ks;
     g_variables := apply_updates L (g_variables L g) (fst uo);
     g_opt_state := snd uo;
     g_steps := g_steps L g;
     g_step := Some i;
     g_subkey := Some (snd ks);
     g_xb := Some (fst b);
     g_yb := Some (snd b);
     g_loss := Some (fst lg);
     g_grads := Some (snd lg);
     g_updates := Some (fst uo) |}.

Fixpoint after_iterations (s : stage) (idxs : list nat) (g : Globals L) : Globals L :=
  match idxs with
  | [] => g
  | i :: idxs' => after_iterations s idxs' (after_iteration s i g)
  end.

Fixpoint epoch_lines (s : stage) (idxs : list nat) (g : Globals L) : list (Line L) :=
  match idxs with
  | [] => []
  | i :: idxs' =>
      L_epoch i (iteration_loss s g) :: epoch_lines s idxs' (after_iteration s i g)
  end.

Lemma train_body_traced (s : stage) (i : nat) (g : Globals L) :
  traced (train_body L s i g) (Ok (after_iteration s i g))
    [L_epoch i (iteration_loss s g)] iteration_calls.
Proof.
  intros env w. unfold train_body, call, bind, emit, print, ret, extend. simpl.
  by rewrite <- !app_assoc.
Qed.

Lemma for_each_train_traced (s : stage) (idxs : list nat) (g : Globals L) :
  traced (for_each L (train_body L s) idxs g) (Ok (after_iterations s idxs g))
    (epoch_lines s idxs g) (concat (map (fun _ => iteration_calls) idxs)).
Proof.
  revert g. induction idxs as [|i idxs IH]; intros g.
  - apply traced_ret.
  - cbn [for_each after_iterations epoch_lines map concat].
    apply (traced_bind _ _ (after_iteration s i g) _ [_] iteration_calls).
    + apply train_body_traced.
    + apply IH.
Qed.

Lemma epoch_lines_length s idxs g : length (epoch_lines s idxs g) = length idxs.
Proof. revert g. induction idxs; intros g; simpl; [done|by rewrite IHidxs]. Qed.

Lemma after_iterations_inputs s idxs g :
  training_inputs (after_iterations s idxs g) = training_inputs g
  /\ g_steps L (after_iterations s idxs g) = g_steps L g.
Proof.
  revert g. induction idxs as [|i idxs IH]; intros g; [done|].
  simpl. destruct (IH (after_iteration s i g)) as [-> ->]. done.
Qed.

Lemma after_iterations_app s l1 l2 g :
  after_iterations s (l1 ++ l2) g = after_iterations s l2 (after_iterations s l1 g).
Proof. revert g. induction l1 as [|i l1 IH]; intros g; [done|]. simpl. apply IH. Qed.

Lemma epoch_lines_app s l1 l2 g :
  epoch_lines s (l1 ++ l2) g
  = epoch_lines s l1 g ++ epoch_lines s l2 (after_iterations s l1 g).
Proof.
  revert g. induction l1 as [|i l1 IH]; intros g; [done|].
  cbn [app epoch_lines after_iterations]. by rewrite IH.
Qed.

(** The namespace after the iterations 0..i is the namespace after the
    iterations 0..i-1, followed by the iteration [i]. *)
Lemma after_iterations_seq_S s i g :
  after_iterations s (seq 0 (S i)) g = after_iteration s i (after_iterations s (seq 0 i) g).
Proof. by rewrite seq_S, after_iterations_app. Qed.

(** The line printed by the iteration [i]. *)
Lemma epoch_lines_seq_lookup s n i g :
  i < n ->
  epoch_lines s (seq 0 n) g !! i
  = Some (L_epoch i (iteration_loss s (after_iterations s (seq 0 i) g))).
Proof.
  intros Hi. replace n with (i + S (n - S i)) by lia.
  rewrite seq_app, epoch_lines_app. cbn [seq epoch_lines].
  rewrite lookup_app_r by (rewrite epoch_lines_length, length_seq; lia).
  rewrite epoch_lines_length, length_seq, Nat.sub_diag. reflexivity.
Qed.

Lemma concat_map_const {A B} (l : list A) (x : list B) :
  concat (map (fun _ => x) l) = concat (repeat x (length l)).
Proof. induction l; simpl; [done|by rewrite IHl]. Qed.

Lemma hyper_steps (s : stage) : h_steps (hyper s) = 100.
Proof. by destruct s. Qed.

(** The frame the loop would have if it rebound nothing but [rng_key],
    [variables] and [opt_state]. *)
Definition only_training_state_rebound (g g' : Globals L) : Prop :=
  training_inputs g' = training_inputs g
  /\ g_steps L g' = g_steps L g
  /\ g_step L g' = g_step L g
  /\ g_subkey L g' = g_subkey L g
  /\ g_xb L g' = g_xb L g
  /\ g_yb L g' = g_yb L g
  /\ g_loss L g' = g_loss L g
  /\ g_grads L g' = g_grads L g
  /\ g_updates L g' = g_updates L g.

End Training.

(** ** A small library instance, for running the cells *)

Definition toy : Library :=
  {| Key := nat; Array := list (list nat); Params := nat; OptState := nat;
     Grads := nat; Updates := nat; Loss := nat;
     PRNGKey := fun seed => seed;
     random_split := fun k => (S k, k);
     get_batch := fun ids k bs bl => (repeat (firstn bl ids) bs, repeat (firstn bl (tl ids)) bs);
     zeros := fun a b => repeat (repeat 0 b) a;
     model_init := fun _ _ _ _ => 0;
     model_apply := fun _ _ _ x => x;
     value_and_grad_loss := fun _ _ p _ _ => (p, 1);
     optimizer_init := fun _ => 0;
     optimizer_update := fun g o _ => (g, S o);
     apply_updates := fun p u => p + u;
     generate := fun _ _ _ _ _ _ n => repeat 0 (S n);
     toy_abc := fun _ => ([], [], []) |}.

(** Every call succeeds and the network serves the text [abab]. *)
Definition env_ok : Env :=
  {| open_w_error := fun _ => None;
     write_error := fun _ => None;
     open_r_error := fun _ => None;
     read_error := fun _ => None;
     http_text := fun _ => Ok (str "abab") |}.

(** The network is down. *)
Definition env_offline : Env :=
  {| open_w_error := fun _ => None;
     write_error := fun _ => None;
     open_r_error := fun _ => None;
     read_error := fun _ => None;
     http_text := fun _ => Raise (RequestException "ConnectionError") |}.

Definition world0 : World toy := {| files := ∅; stdout := []; events := [] |}.

(** The namespace of the bigram notebook when its training cell starts,
    the dataset being [abab]. *)
Definition bigram_globals0 : Notebook.Globals toy :=
  Notebook.Build_Globals toy
    [0; 1; 0] (* train_ids *) 2 (* vocab_size *)
    4 (* batch_size *) 8 (* block_size *)
    128 (* rng_key *) 0 (* variables *) 0 (* opt_state *)
    None (* steps *) None (* step *) None (* subkey *)
    (Some (repeat [0; 1; 0] 4)) (* xb *) (Some (repeat [1; 0] 4)) (* yb *)
    None None None (* loss, grads, updates *).

(** [bigram_globals0] is what the cells of the bigram notebook before the
    training cell leave behind. *)
Example bigram_globals0_reached :
  fst (Notebook.bind (Notebook.data_cell toy) (fun d =>
       Notebook.bind (Notebook.show_head_cell toy d) (fun _ =>
       Notebook.bind (Notebook.model_cells toy Bigram d) (fun p =>
       Notebook.bind (Notebook.generate_cell toy Bigram d (Notebook.p_variables toy p)
                        (Notebook.p_rng_key toy p)) (fun _ =>
       Notebook.optimizer_cell toy Bigram d p)))) env_ok world0)
  = Ok bigram_globals0.
Proof. vm_compute. reflexivity. Qed.

(** ** C2: the training loop *)

(** C2, as stated, fails: the training loop of a notebook rebinds more
    than [rng_key], [variables] and [opt_state].  In the bigram notebook,
    run on a small dataset, the loop ends normally, and afterwards [step]
    is bound (to 99) and [xb], bound by an earlier cell to a batch of 4
    rows, is a batch of 32 rows. *)
Lemma C2_counterexample :
  exists g',
    fst (Notebook.train_cell toy Bigram bigram_globals0 env_ok world0) = Ok g'
    /\ Notebook.g_step toy g' = Some 99
    /\ Notebook.g_step toy bigram_globals0 = None
    /\ (length <$> Notebook.g_xb toy g') = Some 32
    /\ (length <$> Notebook.g_xb toy bigram_globals0) = Some 4
    /\ ~ only_training_state_rebound bigram_globals0 g'.
Proof.
  eexists. split; [vm_compute; reflexivity|].
  repeat split.
  intros (_ & _ & Hstep & _). vm_compute in Hstep. discriminate Hstep.
Qed.

(** C2 (amended): in every notebook the training cell sets [steps = 100]
    (and [batch_size = 32] in the bigram notebook) and its loop ends
    normally after exactly [steps] iterations, whatever the namespace it
    starts from (the calls into jax, optax and [helper_funcs] are taken to
    return).  Iteration i calls, in this order, [jax.random.split] on
    [rng_key], [get_batch] on [train_ids] with the second key,
    [value_and_grad(loss_fn)] on [variables] and the batch,
    [optimizer.update] on the gradients, [opt_state] and [variables], and
    [optax.apply_updates] on [variables] and the updates; it binds
    [rng_key] to the first key, [variables] to the updated parameters and
    [opt_state] to the new optimizer state, and prints the line
    [Epoch: i, Loss: loss] with the loss just computed.  It also binds
    [step], [subkey], [xb], [yb], [loss], [grads] and [updates], and leaves
    [train_ids], [vocab_size], [batch_size], [block_size] and [steps] as they
    are.  No file is touched. *)
Theorem C2_training_loop (L : Library) (s : stage) (g : Notebook.Globals L)
    (env : Env) (w : World L) :
  Notebook.h_steps (Notebook.hyper s) = 100
  /\ exists (gs : nat -> Notebook.Globals L) (lines : list (Line L)),
      Notebook.train_cell L s g env w
      = (Ok (gs 100),
         {| files := files w;
            stdout := stdout w ++ lines;
            events := events w
                      ++ concat (repeat [EvSplit; EvGetBatch; EvValueAndGrad;
                                         EvOptUpdate; EvApplyUpdates] 100) |})
      /\ length lines = 100
      /\ gs 0 = {| Notebook.g_train_ids := Notebook.g_train_ids L g;
                   Notebook.g_vocab_size := Notebook.g_vocab_size L g;
                   Notebook.g_batch_size := match s with
                                            | Bigram => 32
                                            | _ => Notebook.g_batch_size L g
                                            end;
                   Notebook.g_block_size := Notebook.g_block_size L g;
                   Notebook.g_rng_key := Notebook.g_rng_key L g;
                   Notebook.g_variables := Notebook.g_variables L g;
                   Notebook.g_opt_state := Notebook.g_opt_state L g;
                   Notebook.g_steps := Some 100;
                   Notebook.g_step := Notebook.g_step L g;
                   Notebook.g_subkey := Notebook.g_subkey L g;
                   Notebook.g_xb := Notebook.g_xb L g;
                   Notebook.g_yb := Notebook.g_yb L g;
                   Notebook.g_loss := Notebook.g_loss L g;
                   Notebook.g_grads := Notebook.g_grads L g;
                   Notebook.g_updates := Notebook.g_updates L g |}
      /\ forall i, i < 100 ->
          let ks := random_split L (Notebook.g_rng_key L (gs i)) in
          let b := get_batch L (Notebook.g_train_ids L (gs i)) (snd ks)
                     (Notebook.g_batch_size L (gs i)) (Notebook.g_block_size L (gs i)) in
          let lg := value_and_grad_loss L s (Notebook.g_vocab_size L (gs i))
                      (Notebook.g_variables L (gs i)) (fst b) (snd b) in
          let uo := optimizer_update L (snd lg) (Notebook.g_opt_state L (gs i))
                      (Notebook.g_variables L (gs i)) in
          lines !! i = Some (L_epoch i (fst lg))
          /\ gs (S i)
             = {| Notebook.g_train_ids := Notebook.g_train_ids L (gs i);
                  Notebook.g_vocab_size := Notebook.g_vocab_size L (gs i);
                  Notebook.g_batch_size := Notebook.g_batch_size L (gs i);
                  Notebook.g_block_size := Notebook.g_block_size L (gs i);
                  Notebook.g_rng_key := fst ks;
                  Notebook.g_variables :=
                    apply_updates L (Notebook.g_variables L (gs i)) (fst uo);
                  Notebook.g_opt_state := snd uo;
                  Notebook.g_steps := Notebook.g_steps L (gs i);
                  Notebook.g_step := Some i;
                  Notebook.g_subkey := Some (snd ks);
                  Notebook.g_xb := Some (fst b);
                  Notebook.g_yb := Some (snd b);
                  Notebook.g_loss := Some (fst lg);
                  Notebook.g_grads := Some (snd lg);
                  Notebook.g_updates := Some (fst uo) |}.
Proof.
  split; [apply hyper_steps|].
  exists (fun i => after_iterations s (seq 0 i) (Notebook.train_setup L s g)),
    (epoch_lines s (seq 0 100) (Notebook.train_setup L s g)).
  split.
  { pose proof (for_each_train_traced s (seq 0 100) (Notebook.train_setup L s g)) as Hrun.
    rewrite concat_map_const, length_seq in Hrun.
    unfold Notebook.train_cell, Notebook.train_loop. rewrite hyper_steps. apply Hrun. }
  split; [by rewrite epoch_lines_length, length_seq|].
  split; [by destruct s|].
  intros i Hi. cbv zeta. split.
  - apply (epoch_lines_seq_lookup s 100 i _ Hi).
  - apply after_iterations_seq_S.
Qed.

(** ** The data cell and the files *)

Section DataCell.
Import Notebook.
Context {L : Library}.

(** The file calls of a run: the file is opened for writing and written
    only when it did not exist, then opened for reading and read. *)
Definition file_calls (existed : bool) : list Event :=
  if existed then [EvOpenR input_file_path; EvRead input_file_path]
  else [EvOpenW input_file_path; EvWrite input_file_path;
        EvOpenR input_file_path; EvRead input_file_path].

Definition existed (w : World L) : bool :=
  bool_decide (is_Some (files w !! input_file_path)).

(** What a run may do to the files, [w] being the world before, [w'] the
    world after and [r] the outcome. *)
Definition file_io_spec {A} (env : Env) (w : World L) (r : res A) (w' : World L) : Prop :=
  exists evs,
    events w' = events w ++ evs
    /\ List.filter is_file_event evs `prefix_of` file_calls (existed w)
    /\ (is_ok r -> List.filter is_file_event evs = file_calls (existed w))
    /\ (forall path, path <> input_file_path -> files w' !! path = files w !! path)
    /\ (is_Some (files w !! input_file_path) -> files w' = files w)
    /\ (is_ok r -> files w !! input_file_path = None ->
        exists text, http_text env data_url = Ok text
                     /\ files w' !! input_file_path = Some text).

Local Ltac file_io_case :=
  eexists; split; [by rewrite <- !app_assoc|]; simpl;
  split; [first [by exists [] | by eexists]|];
  split; [first [done | by intros [? ?]]|];
  split; [first [done | intros path Hp; by rewrite ?lookup_insert_ne]|];
  split; [first [done | by intros [? ?]]|];
  first [ by intros [? ?]
        | by intros _ ?
        | intros _ _; eexists; split; [done|]; by rewrite ?lookup_insert_eq ].

Lemma download_and_read_file_io (env : Env) (w : World L) :
  file_io_spec env w (download_and_read L env w).1 (download_and_read L env w).2.
Proof.
  unfold file_io_spec, existed, file_calls.
  unfold download_and_read, os_path_exists, open_w, requests_get_text, f_write,
    open_r, f_read, print, bind, emit, ret. simpl.
  destruct (files w !! input_file_path) as [s|] eqn:Hf; simpl.
  - rewrite Hf.
    destruct (open_r_error env input_file_path) as [e|]; simpl; [file_io_case|].
    destruct (read_error env input_file_path) as [e|]; simpl; [file_io_case|].
    rewrite Hf. simpl. file_io_case.
  - destruct (open_w_error env input_file_path) as [e|]; simpl; [file_io_case|].
    destruct (http_text env data_url) as [t|e]; simpl; [|file_io_case].
    destruct (write_error env input_file_path) as [e|]; simpl; [file_io_case|].
    rewrite lookup_insert_eq.
    destruct (open_r_error env input_file_path) as [e|]; simpl; [file_io_case|].
    destruct (read_error env input_file_path) as [e|]; simpl; [file_io_case|].
    rewrite lookup_insert_eq. simpl. file_io_case.
Qed.

Lemma file_io_bind {A B} (m : M L A) (k : A -> M L B) env w :
  file_io_spec env w (m env w).1 (m env w).2 ->
  (forall a, quiet (k a)) ->
  file_io_spec env w (bind m k env w).1 (bind m k env w).2.
Proof.
  unfold bind. destruct (m env w) as [r w1]. simpl.
  intros (evs & Hev & Hpre & Hfull & Hframe & Hkeep & Htext) Hk.
  destruct r as [a|e]; simpl.
  2:{ exists evs. repeat (split; [done|]). split; [by intros [? ?]|].
      split; [done|]. split; [done|by intros [? ?]]. }
  destruct (Hk a env w1) as (r2 & l2 & e2 & -> & Hq). simpl.
  exists (evs ++ e2). unfold extend; simpl.
  rewrite Hev, List.filter_app, Hq, app_nil_r.
  split; [by rewrite app_assoc|]. split; [done|].
  split; [intros _; apply Hfull; by eexists|].
  split; [done|]. split; [done|].
  intros _. apply Htext. by eexists.
Qed.

Lemma quiet_tokenize_and_split data : quiet (tokenize_and_split L data).
Proof.
  unfold tokenize_and_split.
  quiet_cell.
Qed.

Lemma quiet_show_head_cell d : quiet (show_head_cell L d).
Proof.
  unfold show_head_cell.
  quiet_cell.
Qed.

Lemma quiet_generate_cell s d v k : quiet (generate_cell L s d v k).
Proof.
  unfold generate_cell.
  quiet_cell.
Qed.

Lemma quiet_model_cells s d : quiet (model_cells L s d).
Proof.
  unfold model_cells, bigram_cells, attention_cells, single_head_toy_cells.
  destruct s; quiet_cell.
Qed.

Lemma quiet_optimizer_cell s d p : quiet (optimizer_cell L s d p).
Proof.
  unfold optimizer_cell.
  quiet_cell.
Qed.

Lemma quiet_train_cell s g : quiet (train_cell L s g).
Proof.
  unfold train_cell, train_loop. apply quiet_for_each. intros i g'.
  by apply (traced_quiet _ _ _ _ (train_body_traced s i g')).
Qed.

Lemma notebook_file_io (s : stage) (env : Env) (w : World L) :
  file_io_spec env w (notebook L s env w).1 (notebook L s env w).2.
Proof.
  unfold notebook, data_cell.
  apply file_io_bind.
  - apply file_io_bind; [apply download_and_read_file_io|].
    apply quiet_tokenize_and_split.
  - intros d. apply quiet_bind; [apply quiet_show_head_cell|intros _].
    apply quiet_bind; [apply quiet_model_cells|intros p].
    apply quiet_bind; [apply quiet_generate_cell|intros _].
    apply quiet_bind; [apply quiet_optimizer_cell|intros g0].
    apply quiet_bind; [apply quiet_train_cell|intros g].
    apply quiet_bind; [apply quiet_generate_cell|intros _].
    apply quiet_ret.
Qed.

End DataCell.

(** ** C5: the files a notebook touches *)

(** C5: for every notebook, environment and initial world, the file calls
    of a whole run are, in order: [open(input_file_path, 'w')] and one
    [write], made only when the file did not exist, then
    [open(input_file_path, 'r')] and one [read] (a run stopped by an
    exception makes a prefix of these calls).  No other path is read or
    written, an existing file keeps its contents, and what is written to a
    missing file is the downloaded text: nothing computed by the notebook,
    the trained parameters included, reaches the disk. *)
Theorem C5_file_io (L : Library) (s : stage) (env : Env) (w : World L) :
  exists r w' evs,
    Notebook.notebook L s env w = (r, w')
    /\ events w' = events w ++ evs
    /\ List.filter is_file_event evs `prefix_of` file_calls (existed w)
    /\ (is_ok r -> List.filter is_file_event evs = file_calls (existed w))
    /\ (forall path, path <> Notebook.input_file_path ->
                     files w' !! path = files w !! path)
    /\ (is_Some (files w !! Notebook.input_file_path) -> files w' = files w)
    /\ (is_ok r -> files w !! Notebook.input_file_path = None ->
        exists text, http_text env Notebook.data_url = Ok text
                     /\ files w' !! Notebook.input_file_path = Some text).
Proof.
  destruct (notebook_file_io s env w) as (evs & H).
  exists (Notebook.notebook L s env w).1, (Notebook.notebook L s env w).2, evs.
  split; [by destruct (Notebook.notebook L s env w)|exact H].
Qed.

(** ** C4: exceptions *)

(** The calls of the download-and-read statements that can fail, each with
    the condition under which the run reaches it. *)
Inductive io_failure {L : Library} (env : Env) (w : World L) : PyExn -> Prop :=
| fail_open_w e :
    files w !! Notebook.input_file_path = None ->
    open_w_error env Notebook.input_file_path = Some e ->
    io_failure env w e
| fail_requests_get e :
    files w !! Notebook.input_file_path = None ->
    open_w_error env Notebook.input_file_path = None ->
    http_text env Notebook.data_url = Raise e ->
    io_failure env w e
| fail_write e text :
    files w !! Notebook.input_file_path = None ->
    open_w_error env Notebook.input_file_path = None ->
    http_text env Notebook.data_url = Ok text ->
    write_error env Notebook.input_file_path = Some e ->
    io_failure env w e
| fail_open_r e :
    (is_Some (files w !! Notebook.input_file_path)
     \/ (open_w_error env Notebook.input_file_path = None
         /\ is_ok (http_text env Notebook.data_url)
         /\ write_error env Notebook.input_file_path = None)) ->
    open_r_error env Notebook.input_file_path = Some e ->
    io_failure env w e
| fail_read e :
    (is_Some (files w !! Notebook.input_file_path)
     \/ (open_w_error env Notebook.input_file_path = None
         /\ is_ok (http_text env Notebook.data_url)
         /\ write_error env Notebook.input_file_path = None)) ->
    open_r_error env Notebook.input_file_path = None ->
    read_error env Notebook.input_file_path = Some e ->
    io_failure env w e.

Lemma bind_raise {L : Library} {A B} (m : Notebook.M L A) (k : A -> Notebook.M L B)
    env w e :
  (m env w).1 = Raise e -> (Notebook.bind m k env w).1 = Raise e.
Proof. unfold Notebook.bind. destruct (m env w) as [[a|e'] w']; simpl; congruence. Qed.

Lemma download_and_read_raises {L : Library} (env : Env) (w : World L) e :
  io_failure env w e -> (Notebook.download_and_read L env w).1 = Raise e.
Proof.
  unfold Notebook.download_and_read, Notebook.os_path_exists, Notebook.open_w,
    Notebook.requests_get_text, Notebook.f_write, Notebook.open_r, Notebook.f_read,
    Notebook.print, Notebook.bind, Notebook.emit, Notebook.ret.
  intros [e' Hf Hw|e' Hf Hw Hh|e' t Hf Hw Hh Hwr|e' Hre Hr|e' Hre Hr Hrd]; simpl.
  - rewrite Hf. simpl. by rewrite Hw.
  - rewrite Hf. simpl. rewrite Hw. simpl. by rewrite Hh.
  - rewrite Hf. simpl. rewrite Hw. simpl. rewrite Hh. simpl. by rewrite Hwr.
  - destruct Hre as [[s Hf]|(Hw & [t Hh] & Hwr)].
    + rewrite Hf. simpl. by rewrite Hf, Hr.
    + destruct (files w !! Notebook.input_file_path) as [s|] eqn:Hf; simpl.
      * by rewrite Hf, Hr.
      * rewrite Hw. simpl. rewrite Hh. simpl. rewrite Hwr. simpl.
        by rewrite lookup_insert_eq, Hr.
  - destruct Hre as [[s Hf]|(Hw & [t Hh] & Hwr)].
    + rewrite Hf. simpl. rewrite Hf, Hr. simpl. by rewrite Hrd.
    + destruct (files w !! Notebook.input_file_path) as [s|] eqn:Hf; simpl.
      * rewrite Hf, Hr. simpl. by rewrite Hrd.
      * rewrite Hw. simpl. rewrite Hh. simpl. rewrite Hwr. simpl.
        rewrite lookup_insert_eq, Hr. simpl. by rewrite Hrd.
Qed.

(** C4: nothing catches an exception.  [encode], applied to a string with
    a character that is not in the dataset, raises [KeyError] (for the first
    such character).  In the download-and-read cell, the exception raised by
    [open], [requests.get], [write] or [read] is the outcome of the cell and
    of the whole notebook.  In general the exception raised by a part of a
    cell is the outcome of all that follows it. *)
Theorem C4_exceptions_propagate :
  (forall (data s : Tokenizer.pystr),
      (exists c, c ∈ s /\ c ∉ data) ->
      exists c, Tokenizer.encode (Tokenizer.stoi data) s = Raise (KeyError_char c)
                /\ c ∈ s /\ c ∉ data)
  /\ (forall (L : Library) (env : Env) (w : World L) (e : PyExn),
        io_failure env w e ->
        (Notebook.download_and_read L env w).1 = Raise e
        /\ (Notebook.data_cell L env w).1 = Raise e
        /\ forall s, (Notebook.notebook L s env w).1 = Raise e)
  /\ (forall (L : Library) A B (m : Notebook.M L A) (k : A -> Notebook.M L B)
             env w e,
        (m env w).1 = Raise e -> (Notebook.bind m k env w).1 = Raise e).
Proof.
  split; [apply encode_KeyError|]. split; [|intros; by apply bind_raise].
  intros L env w e Hfail.
  pose proof (download_and_read_raises env w e Hfail) as Hd.
  assert (Hc : (Notebook.data_cell L env w).1 = Raise e) by by apply bind_raise.
  repeat split; [done..|]. intros s. by apply bind_raise.
Qed.

(** C4 at concrete inputs: [encode("lax")] over the dataset [hello world],
    and the bigram notebook run offline on an empty file system. *)
Lemma C4_witness :
  (exists c, Tokenizer.encode (Tokenizer.stoi (str "hello world")) (str "lax")
             = Raise (KeyError_char c)
             /\ c ∈ str "lax" /\ c ∉ str "hello world")
  /\ (Notebook.notebook toy Bigram env_offline world0).1
     = Raise (RequestException "ConnectionError").
Proof.
  destruct C4_exceptions_propagate as (Henc & Hio & _). split.
  - apply Henc. exists 97%N.
    split; [apply (bool_decide_unpack _); vm_compute; reflexivity|].
    apply (bool_decide_unpack _). vm_compute. reflexivity.
  - apply (Hio toy env_offline world0). apply fail_requests_get; reflexivity.
Defined.

(** ** A whole run that ends normally *)

Section Run.
Import Notebook Tokenizer.
Context {L : Library}.

(** The text the notebooks work on: the contents of the dataset file, or,
    when there is none, the text served at [data_url]. *)
Definition corpus (env : Env) (w : World L) : option pystr :=
  match files w !! input_file_path with
  | Some s => Some s
  | None => match http_text env data_url with
            | Ok text => Some text
            | Raise _ => None
            end
  end.

(** No call to the file system or to the network fails. *)
Definition no_io_error (env : Env) (w : World L) : Prop :=
  (files w !! input_file_path = None ->
     open_w_error env input_file_path = None
     /\ is_ok (http_text env data_url)
     /\ write_error env input_file_path = None)
  /\ open_r_error env input_file_path = None
  /\ read_error env input_file_path = None.

Definition runs_ok {A} (m : M L A) : Prop :=
  exists a lines evs, traced m (Ok a) lines evs.

Lemma runs_ok_bind {A B} (m : M L A) (k : A -> M L B) :
  runs_ok m -> (forall a, runs_ok (k a)) -> runs_ok (bind m k).
Proof.
  intros (a & l1 & e1 & Hm) Hk. destruct (Hk a) as (b & l2 & e2 & Hka).
  exists b, (l1 ++ l2), (e1 ++ e2). by apply (traced_bind _ _ a).
Qed.

Lemma runs_ok_ret {A} (a : A) : runs_ok (ret (L:=L) a).
Proof. exists a, [], []. apply traced_ret. Qed.

Lemma runs_ok_print (l : Line L) : runs_ok (print L l).
Proof. exists tt, [l], []. apply traced_print. Qed.

Lemma runs_ok_call {A} (e : Event) (v : A) : runs_ok (call L e v).
Proof. exists v, [], [e]. apply traced_call. Qed.

Lemma runs_ok_for_each {S} (body : nat -> S -> M L S) idxs s :
  (forall i s, runs_ok (body i s)) -> runs_ok (for_each L body idxs s).
Proof.
  intros Hb. revert s. induction idxs as [|i idxs IH]; intros s; simpl.
  - apply runs_ok_ret.
  - apply runs_ok_bind; [apply Hb|apply IH].
Qed.

Lemma runs_ok_for_each_ (body : nat -> M L unit) idxs :
  (forall i, runs_ok (body i)) -> runs_ok (for_each_ L body idxs).
Proof.
  intros Hb. induction idxs as [|i idxs IH]; simpl.
  - apply runs_ok_ret.
  - apply runs_ok_bind; [apply Hb|intros _; apply IH].
Qed.

Lemma runs_ok_model_cells s d : runs_ok (model_cells L s d).
Proof.
  unfold model_cells, bigram_cells, attention_cells, single_head_toy_cells.
  destruct s;
    repeat first [ apply runs_ok_bind; [|intros ?]
                 | apply runs_ok_for_each; intros ? ?
                 | apply runs_ok_for_each_; intros ?
                 | apply runs_ok_print | apply runs_ok_ret | apply runs_ok_call ].
Qed.

(** The dataset built from [data]. *)
Definition dataset_of (data : pystr) (ids vids : list nat) : Dataset :=
  {| d_data := data; d_chars := chars data; d_vocab_size := vocab_size data;
     d_stoi := stoi data; d_itos := itos data;
     d_train_ids := ids; d_val_ids := vids |}.

Lemma fits_uint16_lt (i : nat) : i < 2 ^ 16 -> fits_uint16 i = true.
Proof.
  intros Hi. unfold fits_uint16. apply N.ltb_lt.
  change (2 ^ 16)%N with (N.of_nat 2 ^ N.of_nat 16)%N.
  rewrite <- Nat2N.inj_pow. lia.
Qed.

(** Ids that fit uint16 are converted as they are. *)
Lemma as_uint16_small (ids : list nat) :
  Forall (fun i => i < 2 ^ 16) ids -> as_uint16 ids = Ok ids.
Proof.
  intros H. unfold as_uint16.
  assert (Hall : forallb fits_uint16 ids = true).
  { apply forallb_forall. intros i Hi. apply fits_uint16_lt.
    rewrite Forall_forall in H. by apply H, list_elem_of_In. }
  by rewrite Hall.
Qed.

(** The tokenizer and split cells on a dataset of at most 2^16 distinct
    characters. *)
Lemma tokenize_and_split_traced (data : pystr) :
  vocab_size data <= 2 ^ 16 ->
  exists ids vids,
    encode (stoi data) (take (int_0_9 (length data)) data) = Ok ids
    /\ encode (stoi data) (drop (int_0_9 (length data)) data) = Ok vids
    /\ traced (tokenize_and_split L data) (Ok (dataset_of data ids vids))
         [L_unique_chars (chars data); L_vocab_size (vocab_size data);
          L_train_tokens (length ids); L_val_tokens (length vids)] [].
Proof.
  intros Hv.
  destruct (encode_in_vocab data (take (int_0_9 (length data)) data)) as (ids & Hids & _).
  { intros c Hc. by apply (subseteq_take (int_0_9 (length data)) data). }
  destruct (encode_in_vocab data (drop (int_0_9 (length data)) data)) as (vids & Hvids & _).
  { intros c Hc. by apply (subseteq_drop (int_0_9 (length data)) data). }
  assert (Hfit : forall s l, encode (stoi data) s = Ok l -> as_uint16 l = Ok l).
  { intros s l Hl. apply as_uint16_small.
    eapply Forall_impl; [exact (encode_range data s l Hl)|].
    intros i Hi. simpl in Hi. lia. }
  exists ids, vids. split; [done|]. split; [done|].
  intros env w. unfold tokenize_and_split, bind, print, lift_res, ret.
  unfold stoi in Hids, Hvids. cbn beta iota zeta. rewrite Hids, Hvids.
  cbn beta iota zeta. rewrite (Hfit _ _ Hids), (Hfit _ _ Hvids).
  unfold extend, dataset_of. cbn [files stdout events].
  by rewrite <- !app_assoc, app_nil_r.
Qed.

Lemma show_head_cell_run (d : Dataset) (text : pystr) :
  decode (d_itos d) (take 100 (d_train_ids d)) = Ok text ->
  traced (show_head_cell L d) (Ok tt) [L_text text] [].
Proof.
  intros Ht env w. unfold show_head_cell, bind, lift_res. rewrite Ht.
  apply traced_print.
Qed.

Lemma show_head_cell_traced (data : pystr) (ids vids : list nat) :
  encode (stoi data) (take (int_0_9 (length data)) data) = Ok ids ->
  exists s, traced (show_head_cell L (dataset_of data ids vids)) (Ok tt) [L_text s] [].
Proof.
  intros Hids.
  destruct (decode_in_range (chars data) (take 100 ids)) as [s Hs].
  { apply Forall_take. exact (encode_range data _ ids Hids). }
  exists s. by apply show_head_cell_run.
Qed.

Lemma generate_cell_run (s : stage) (d : Dataset)
    (variables : Params L) (rng_key : Key L) (text : pystr) :
  decode (d_itos d)
    (generate L s variables rng_key (d_vocab_size d) 1
       (h_block_size (hyper s)) (h_max_new_tokens (hyper s))) = Ok text ->
  traced (generate_cell L s d variables rng_key) (Ok tt)
    [L_text (str "Generated text: "); L_text text] [EvGenerate].
Proof.
  intros Ht. unfold generate_cell.
  eapply (traced_bind _ _ _ _ [] [EvGenerate]
            [L_text (str "Generated text: "); L_text text] []); [apply traced_call|].
  apply (traced_bind _ _ tt _ [L_text (str "Generated text: ")] [] [L_text text] []);
    [apply traced_print|].
  apply (traced_bind _ _ text _ [] [] [L_text text] []); [|apply traced_print].
  rewrite Ht. apply traced_lift_res.
Qed.

Lemma generate_cell_traced (s : stage) (data : pystr) ids vids
    (variables : Params L) (rng_key : Key L) :
  Forall (fun i => i < vocab_size data)
    (generate L s variables rng_key (vocab_size data) 1
       (h_block_size (hyper s)) (h_max_new_tokens (hyper s))) ->
  exists text,
    decode (itos data)
      (generate L s variables rng_key (vocab_size data) 1
         (h_block_size (hyper s)) (h_max_new_tokens (hyper s))) = Ok text
    /\ traced (generate_cell L s (dataset_of data ids vids) variables rng_key) (Ok tt)
         [L_text (str "Generated text: "); L_text text] [EvGenerate].
Proof.
  intros Hgen.
  destruct (decode_in_range (chars data) _ Hgen) as [text Ht].
  exists text. split; [done|]. by apply generate_cell_run.
Qed.

(** When no call fails, the download cell returns the text of the corpus,
    its line endings translated, and the file holds the corpus. *)
Lemma download_and_read_ok (env : Env) (w : World L) :
  no_io_error env w ->
  exists raw fs evs,
    corpus env w = Some raw
    /\ fs !! input_file_path = Some raw
    /\ download_and_read L env w
       = (Ok (universal_newlines raw),
          {| files := fs;
             stdout := stdout w ++ [L_dataset_length (length (universal_newlines raw))];
             events := events w ++ evs |}).
Proof.
  intros (Hw & Hr & Hrd). unfold corpus.
  unfold download_and_read, os_path_exists, open_w, requests_get_text, f_write,
    open_r, f_read, print, bind, emit, ret. simpl.
  destruct (files w !! input_file_path) as [s|] eqn:Hf; simpl.
  - rewrite Hf, Hr. simpl. rewrite Hrd, Hf.
    eexists s, (files w), _. split; [done|]. split; [done|].
    by rewrite <- !app_assoc.
  - destruct Hw as (Hw & [text Ht] & Hwr); [done|].
    rewrite Hw, Ht. simpl. rewrite Hwr. simpl.
    rewrite lookup_insert_eq, Hr. simpl. rewrite Hrd, lookup_insert_eq.
    eexists text, _, _. split; [done|]. split; [apply lookup_insert_eq|].
    by rewrite <- !app_assoc.
Qed.

(** The key and the input with which a notebook creates its model, and
    what the cells before the first generation leave behind. *)
Definition init_key (s : stage) : Key L :=
  match s with
  | SingleHead => Nat.iter 5 (fun k => fst (random_split L k)) (PRNGKey L 128)
  | _ => PRNGKey L 128
  end.

Definition init_input (s : stage) (train_ids : list nat) : Array L :=
  match s with
  | Bigram => fst (get_batch L train_ids (init_key s)
                     (h_batch_size (hyper s)) (h_block_size (hyper s)))
  | _ => zeros L (h_batch_size (hyper s)) (h_block_size (hyper s))
  end.

Lemma model_cells_result (s : stage) (d : Dataset) (env : Env) (w : World L) :
  exists p,
    fst (model_cells L s d env w) = Ok p
    /\ p_rng_key L p = init_key s
    /\ p_variables L p
       = model_init L s (d_vocab_size d) (init_key s) (init_input s (d_train_ids d)).
Proof. destruct s; eexists; (split; [reflexivity|]); split; reflexivity. Qed.

Lemma model_cells_traced (s : stage) (d : Dataset) :
  exists p lines evs,
    traced (model_cells L s d) (Ok p) lines evs
    /\ p_rng_key L p = init_key s
    /\ p_variables L p
       = model_init L s (d_vocab_size d) (init_key s) (init_input s (d_train_ids d)).
Proof.
  destruct (runs_ok_model_cells s d) as (p & lines & evs & Hrun).
  exists p, lines, evs. split; [exact Hrun|].
  set (env := {| open_w_error := fun _ => None; write_error := fun _ => None;
                 open_r_error := fun _ => None; read_error := fun _ => None;
                 http_text := fun _ => Ok [] |}).
  set (w := {| files := ∅; stdout := []; events := [] |} : World L).
  destruct (model_cells_result s d env w) as (p' & Hp' & Hkey & Hvar).
  rewrite (Hrun env w) in Hp'. injection Hp' as <-. by split.
Qed.

End Run.

(** ** C6: every notebook trains and then samples *)

Lemma optimizer_cell_traced {L : Library} s d (p : Notebook.Prelude L) :
  traced (Notebook.optimizer_cell L s d p)
    (Ok {| Notebook.g_train_ids := Notebook.d_train_ids d;
           Notebook.g_vocab_size := Notebook.d_vocab_size d;
           Notebook.g_batch_size := Notebook.h_batch_size (Notebook.hyper s);
           Notebook.g_block_size := Notebook.h_block_size (Notebook.hyper s);
           Notebook.g_rng_key := Notebook.p_rng_key L p;
           Notebook.g_variables := Notebook.p_variables L p;
           Notebook.g_opt_state := optimizer_init L (Notebook.p_variables L p);
           Notebook.g_steps := None;
           Notebook.g_step := None;
           Notebook.g_subkey := Notebook.p_subkey L p;
           Notebook.g_xb := Notebook.p_xb L p;
           Notebook.g_yb := Notebook.p_yb L p;
           Notebook.g_loss := None;
           Notebook.g_grads := None;
           Notebook.g_updates := None |}) [] [EvOptInit].
Proof.
  unfold Notebook.optimizer_cell.
  eapply (traced_bind _ _ _ _ [] [EvOptInit] [] []);
    [apply traced_call|apply traced_ret].
Qed.

(** C6: every notebook (bigram, single-head attention, multi-head
    attention, transformer decoder, GPT-2) trains its model for 100 steps
    on the corpus and then prints a sample.  Let the corpus be the contents
    of the dataset file or, when the file is missing, the text served at
    the one [data_url]; the dataset is the corpus as [read] returns it (line
    endings translated).  The calls into [helper_funcs], flax and optax are
    taken to return.  When no call to the file system or to the network
    fails, the dataset has between 1 and 2^16 distinct characters, its
    training part is longer than one block and [generate] returns ids of its
    vocabulary, the notebook runs to its end:
    the file holds the corpus; the model is created by [model.init] and the
    optimizer state by [optimizer.init] on its parameters; the training cell
    makes exactly 100 iterations on the ids of the first nine tenths of the
    dataset, each applying to the parameters the updates that
    [optimizer.update] computes from the gradients of the loss on a fresh
    batch, and printing the loss; and the last thing the notebook does is to
    call [generate] with the trained parameters and to print
    [Generated text: ] and the decoded sample. *)
Theorem C6_notebooks_train_and_sample (L : Library) (s : stage) (env : Env)
    (w : World L) (raw : Tokenizer.pystr) :
  let data := Notebook.universal_newlines raw in
  let vocab_size := Tokenizer.vocab_size data in
  let batch_size := Notebook.h_train_batch_size (Notebook.hyper s) in
  let block_size := Notebook.h_block_size (Notebook.hyper s) in
  let max_new_tokens := Notebook.h_max_new_tokens (Notebook.hyper s) in
  no_io_error env w ->
  corpus env w = Some raw ->
  1 <= vocab_size <= 2 ^ 16 ->
  block_size < Notebook.int_0_9 (length data) ->
  (forall params key,
      Forall (fun i => i < vocab_size)
        (generate L s params key vocab_size 1 block_size max_new_tokens)) ->
  exists ids (gs : nat -> Notebook.Globals L) w' before training text,
    Tokenizer.encode (Tokenizer.stoi data)
      (take (Notebook.int_0_9 (length data)) data) = Ok ids
    /\ Notebook.notebook L s env w = (Ok (gs 100), w')
    /\ files w' !! Notebook.input_file_path = Some raw
    /\ (let key0 :=
          match s with
          | SingleHead => Nat.iter 5 (fun k => fst (random_split L k)) (PRNGKey L 128)
          | _ => PRNGKey L 128
          end in
        let x0 :=
          match s with
          | Bigram => fst (get_batch L ids key0
                             (Notebook.h_batch_size (Notebook.hyper s)) block_size)
          | _ => zeros L (Notebook.h_batch_size (Notebook.hyper s)) block_size
          end in
        Notebook.g_rng_key L (gs 0) = key0
        /\ Notebook.g_variables L (gs 0) = model_init L s vocab_size key0 x0
        /\ Notebook.g_opt_state L (gs 0)
           = optimizer_init L (model_init L s vocab_size key0 x0))
    /\ (forall i, i <= 100 ->
          Notebook.g_train_ids L (gs i) = ids
          /\ Notebook.g_vocab_size L (gs i) = vocab_size
          /\ Notebook.g_batch_size L (gs i) = batch_size
          /\ Notebook.g_block_size L (gs i) = block_size)
    /\ length training = 100
    /\ (forall i, i < 100 ->
          let ks := random_split L (Notebook.g_rng_key L (gs i)) in
          let b := get_batch L ids (snd ks) batch_size block_size in
          let lg := value_and_grad_loss L s vocab_size
                      (Notebook.g_variables L (gs i)) (fst b) (snd b) in
          let uo := optimizer_update L (snd lg) (Notebook.g_opt_state L (gs i))
                      (Notebook.g_variables L (gs i)) in
          training !! i = Some (L_epoch i (fst lg))
          /\ Notebook.g_rng_key L (gs (S i)) = fst ks
          /\ Notebook.g_variables L (gs (S i))
             = apply_updates L (Notebook.g_variables L (gs i)) (fst uo)
          /\ Notebook.g_opt_state L (gs (S i)) = snd uo)
    /\ stdout w' = stdout w ++ before ++ training
                    ++ [L_text (str "Generated text: "); L_text text]
    /\ Tokenizer.decode (Tokenizer.itos data)
         (generate L s (Notebook.g_variables L (gs 100)) (Notebook.g_rng_key L (gs 100))
            vocab_size 1 block_size max_new_tokens) = Ok text
    /\ exists evs,
        events w' = events w ++ evs
                    ++ concat (repeat [EvSplit; EvGetBatch; EvValueAndGrad;
                                       EvOptUpdate; EvApplyUpdates] 100)
                    ++ [EvGenerate].
Proof.
  intros data vocab_size batch_size block_size max_new_tokens Hio Hcorpus [Hv1 Hv2] _ Hgen.
  destruct (download_and_read_ok env w Hio) as (raw' & fs & evs0 & Hcorpus' & Hfs & Hdl).
  rewrite Hcorpus in Hcorpus'. injection Hcorpus' as <-. fold data in Hdl.
  destruct (tokenize_and_split_traced (L:=L) data Hv2) as (ids & vids & Hids & _ & Htok).
  destruct (show_head_cell_traced (L:=L) data ids vids Hids) as (shead & Hshow).
  set (d := dataset_of data ids vids) in *.
  destruct (model_cells_traced (L:=L) s d) as (p & lm & em & Hmodel & Hkey & Hvar).
  destruct (generate_cell_traced s data ids vids (Notebook.p_variables L p)
              (Notebook.p_rng_key L p) (Hgen _ _)) as (text0 & _ & Hgen0).
  pose proof (optimizer_cell_traced s d p) as Hopt.
  match type of Hopt with traced _ (Ok ?g) _ _ => set (gopt := g) in * end.
  set (gs := fun i => after_iterations s (seq 0 i) (Notebook.train_setup L s gopt)).
  pose proof (for_each_train_traced s (seq 0 100) (Notebook.train_setup L s gopt)) as Htrain.
  rewrite concat_map_const, length_seq in Htrain.
  fold (gs 100) in Htrain.
  assert (Hlen : length (epoch_lines s (seq 0 100) (Notebook.train_setup L s gopt)) = 100).
  { by rewrite epoch_lines_length, length_seq. }
  assert (Hin : forall i, Notebook.g_train_ids L (gs i) = ids
                          /\ Notebook.g_vocab_size L (gs i) = vocab_size
                          /\ Notebook.g_batch_size L (gs i) = batch_size
                          /\ Notebook.g_block_size L (gs i) = block_size).
  { intros i. unfold gs.
    destruct (after_iterations_inputs s (seq 0 i) (Notebook.train_setup L s gopt))
      as [Hinp _].
    unfold training_inputs in Hinp. injection Hinp as -> -> -> ->.
    unfold batch_size. by destruct s. }
  assert (Hstep : forall i, i < 100 ->
            epoch_lines s (seq 0 100) (Notebook.train_setup L s gopt) !! i
            = Some (L_epoch i (iteration_loss s (gs i)))
            /\ gs (S i) = after_iteration s i (gs i)).
  { intros i Hi. split; [by apply epoch_lines_seq_lookup|apply after_iterations_seq_S]. }
  assert (H0 : Notebook.g_rng_key L (gs 0) = Notebook.p_rng_key L p
               /\ Notebook.g_variables L (gs 0) = Notebook.p_variables L p
               /\ Notebook.g_opt_state L (gs 0)
                  = optimizer_init L (Notebook.p_variables L p)).
  { by destruct s. }
  set (training := epoch_lines s (seq 0 100) (Notebook.train_setup L s gopt)) in *.
  clearbody training. clearbody gs.
  destruct (generate_cell_traced s data ids vids (Notebook.g_variables L (gs 100))
              (Notebook.g_rng_key L (gs 100)) (Hgen _ _)) as (text & Htext & Hgen1).
  assert (Hrest : traced
    (Notebook.bind (Notebook.tokenize_and_split L data) (fun d =>
     Notebook.bind (Notebook.show_head_cell L d) (fun _ =>
     Notebook.bind (Notebook.model_cells L s d) (fun p =>
     Notebook.bind (Notebook.generate_cell L s d (Notebook.p_variables L p)
                      (Notebook.p_rng_key L p)) (fun _ =>
     Notebook.bind (Notebook.optimizer_cell L s d p) (fun g0 =>
     Notebook.bind (Notebook.train_cell L s g0) (fun g =>
     Notebook.bind (Notebook.generate_cell L s d (Notebook.g_variables L g)
                      (Notebook.g_rng_key L g)) (fun _ =>
     Notebook.ret g))))))))
    (Ok (gs 100))
    ([L_unique_chars (Tokenizer.chars data); L_vocab_size (Tokenizer.vocab_size data);
      L_train_tokens (length ids); L_val_tokens (length vids)]
     ++ [L_text shead] ++ lm
     ++ [L_text (str "Generated text: "); L_text text0]
     ++ [] ++ training
     ++ [L_text (str "Generated text: "); L_text text] ++ [])
    ([] ++ [] ++ em ++ [EvGenerate] ++ [EvOptInit]
     ++ concat (repeat iteration_calls 100) ++ [EvGenerate] ++ [])).
  { eapply traced_bind; [exact Htok|].
    eapply traced_bind; [exact Hshow|].
    eapply traced_bind; [exact Hmodel|].
    eapply traced_bind; [exact Hgen0|].
    eapply traced_bind; [exact Hopt|].
    eapply traced_bind.
    { unfold Notebook.train_cell, Notebook.train_loop. rewrite hyper_steps. exact Htrain. }
    eapply traced_bind; [exact Hgen1|].
    apply traced_ret. }
  exists ids, gs. eexists.
  exists ([L_dataset_length (length data);
           L_unique_chars (Tokenizer.chars data);
           L_vocab_size (Tokenizer.vocab_size data);
           L_train_tokens (length ids); L_val_tokens (length vids);
           L_text shead] ++ lm ++ [L_text (str "Generated text: "); L_text text0]).
  exists training, text.
  split; [done|].
  split.
  { unfold Notebook.notebook, Notebook.data_cell.
    unfold Notebook.bind at 1 2. rewrite Hdl. apply Hrest. }
  unfold extend. cbn [files stdout events].
  split; [done|].
  split.
  { destruct H0 as (Hk0 & Hv0 & Ho0). rewrite Hk0, Hv0, Ho0, Hvar, Hkey.
    cbv zeta. unfold init_key, init_input. by destruct s. }
  split; [intros i _; apply Hin|].
  split; [done|].
  split.
  { intros i Hi. cbv zeta. destruct (Hstep i Hi) as [Hline ->].
    destruct (Hin i) as (Ht & Hvs & Hb & Hbl).
    rewrite Hline. unfold iteration_loss, after_iteration.
    cbn [Notebook.g_rng_key Notebook.g_variables Notebook.g_opt_state].
    by rewrite Ht, Hvs, Hb, Hbl. }
  split.
  { rewrite !app_nil_r, !app_nil_l. rewrite <- !app_assoc. reflexivity. }
  split; [done|].
  exists (evs0 ++ em ++ [EvGenerate; EvOptInit]).
  rewrite !app_nil_r, !app_nil_l. rewrite <- !app_assoc. reflexivity.
Qed.

(** C6 at a concrete input: the bigram notebook when the file is there
    and holds a text of twelve characters, one line ending among them. *)
Lemma C6_witness :
  let raw : Tokenizer.pystr := [97; 98; 97; 98; 13; 10; 97; 98; 97; 98; 97; 98; 97]%N in
  let w := {| files := <[Notebook.input_file_path := raw]> ∅;
              stdout := []; events := [] |} : World toy in
  exists gs w' text,
    Notebook.notebook toy Bigram env_offline w = (Ok (gs 100), w')
    /\ files w' !! Notebook.input_file_path = Some raw
    /\ Notebook.g_variables toy (gs 0) = 0
    /\ Notebook.g_variables toy (gs 1) = 0 + 1
    /\ last (stdout w') = Some (L_text text).
Proof.
  intros raw w.
  assert (Hf : files w !! Notebook.input_file_path = Some raw)
    by apply (lookup_insert_eq (M:=gmap string)).
  assert (Hio : no_io_error env_offline w).
  { split; [|split; reflexivity]. intros Hn. rewrite Hf in Hn. discriminate. }
  assert (Hc : corpus env_offline w = Some raw).
  { unfold corpus. by rewrite Hf. }
  assert (Hv : Tokenizer.vocab_size (Notebook.universal_newlines raw) = 3)
    by (vm_compute; reflexivity).
  destruct (C6_notebooks_train_and_sample toy Bigram env_offline w raw Hio Hc)
    as (ids & gs & w' & before & training & text
        & _ & Hrun & Hfile & (_ & Hv0 & _) & _ & _ & Hstep & Hout & _).
  - rewrite Hv. split; [lia|]. apply (Nat.le_trans _ (2 ^ 2)); [simpl; lia|].
    apply Nat.pow_le_mono_r; lia.
  - vm_compute. lia.
  - intros params key. rewrite Hv. apply Forall_forall. intros x Hx.
    apply list_elem_of_In, (repeat_spec _ 0) in Hx. lia.
  - exists gs, w', text. split; [exact Hrun|]. split; [exact Hfile|].
    split; [exact Hv0|]. split.
    + destruct (Hstep 0 ltac:(lia)) as (_ & _ & Hv1 & _). rewrite Hv1, Hv0. reflexivity.
    + rewrite Hout, !app_assoc.
      change [L_text (str "Generated text: "); L_text text]
        with ([@L_text toy (str "Generated text: ")] ++ [@L_text toy text]).
      rewrite app_assoc. apply last_snoc.
Defined.

(** ** C3: the encoding round trip *)

(** C3: [chars] is the strictly increasing list of the distinct characters
    of the dataset; for a string [s] whose characters all occur in the
    dataset, [encode(s)] returns, for each character of [s], its index in
    [chars], and [decode(encode(s))] is [s]. *)
Theorem C3_encode_decode_roundtrip (data s : Tokenizer.pystr) :
  (forall c, c ∈ s -> c ∈ data) ->
  StronglySorted N.lt (Tokenizer.chars data)
  /\ (forall c, c ∈ Tokenizer.chars data <-> c ∈ data)
  /\ exists l,
      Tokenizer.encode (Tokenizer.stoi data) s = Ok l
      /\ Forall2 (fun c i => Tokenizer.chars data !! i = Some c) s l
      /\ Tokenizer.decode (Tokenizer.itos data) l = Ok s.
Proof.
  intros Hs. split; [apply chars_sorted|]. split; [apply elem_of_chars|].
  destruct (encode_in_vocab data s Hs) as (l & Hl & Hidx).
  exists l. split; [done|]. split; [done|]. by apply decode_indices.
Qed.

(** C3 at a concrete input: the dataset [hello world] and the string [low]. *)
Lemma C3_witness :
  (forall c, c ∈ str "low" -> c ∈ str "hello world")
  /\ exists l,
      Tokenizer.encode (Tokenizer.stoi (str "hello world")) (str "low") = Ok l
      /\ Tokenizer.decode (Tokenizer.itos (str "hello world")) l = Ok (str "low").
Proof.
  assert (H : forall c, c ∈ str "low" -> c ∈ str "hello world").
  { apply Forall_forall. apply (bool_decide_unpack _). vm_compute. reflexivity. }
  split; [exact H|].
  destruct (C3_encode_decode_roundtrip (str "hello world") (str "low") H)
    as (_ & _ & l & Henc & _ & Hdec).
  exists l. split; [exact Henc|exact Hdec].
Defined.

(** ** Facts about the array operations *)

Section ArrayFacts.
Import Attention.

(** One row through a dense layer without bias. *)
Definition dense_row (features : nat) (K : matrix) (row : vec) : vec :=
  (fun j => dot row (col j K)) <$> seq 0 features.

Lemma Dense_nobias_rows features K (x : tensor3) :
  Dense_nobias features K x = (fun m : matrix => dense_row features K <$> m) <$> x.
Proof. reflexivity. Qed.

Lemma length_dense_row features K row : length (dense_row features K row) = features.
Proof. unfold dense_row. by rewrite length_fmap, length_seq. Qed.

Lemma nth_nil_R (i : nat) : nth i ([] : vec) 0%R = 0%R.
Proof. by destruct i. Qed.

Lemma nth_col (j i : nat) (M : matrix) :
  nth j (col i M) 0%R = nth i (nth j M []) 0%R.
Proof.
  unfold col. destruct (M !! j) as [r|] eqn:E.
  - rewrite (nth_lookup_Some M j [] r E).
    apply nth_lookup_Some. by rewrite list_lookup_fmap, E.
  - apply lookup_ge_None in E.
    rewrite (nth_overflow M) by done. rewrite nth_nil_R.
    apply nth_overflow. by rewrite length_fmap.
Qed.

Lemma width_cons (r : vec) (M : matrix) : width (r :: M) = length r.
Proof. reflexivity. Qed.

Lemma width_dense features K (m : matrix) :
  m <> [] -> width (dense_row features K <$> m) = features.
Proof. destruct m as [|r m]; [done|]. intros _. apply length_dense_row. Qed.

Lemma length_col j (M : matrix) : length (col j M) = length M.
Proof. apply length_fmap. Qed.

Lemma length_transpose (M : matrix) : length (transpose M) = width M.
Proof. unfold transpose. by rewrite length_fmap, length_seq. Qed.

Lemma width_transpose (M : matrix) :
  width M <> 0 -> width (transpose M) = length M.
Proof.
  unfold transpose. destruct (width M) as [|n]; [done|]. intros _.
  simpl. apply length_col.
Qed.

(** Column [j] of the transpose is row [j], cut or padded to the width. *)
Lemma col_transpose (j : nat) (M : matrix) :
  col j (transpose M) = (fun i => nth i (nth j M []) 0%R) <$> seq 0 (width M).
Proof.
  unfold transpose. unfold col at 1. rewrite <- list_fmap_compose.
  apply list_fmap_ext. intros _ i _. simpl. apply nth_col.
Qed.

(** A dot product only sees the entries whose weight is not zero. *)
Lemma dot_agree (w c c' : vec) :
  length c = length c' ->
  (forall s ws a a', w !! s = Some ws -> c !! s = Some a -> c' !! s = Some a' ->
                     ws = 0%R \/ a = a') ->
  dot w c = dot w c'.
Proof.
  revert c c'. induction w as [|ws w IH]; intros c c' Hlen Hag; [done|].
  destruct c as [|a c], c' as [|a' c']; try discriminate; [done|].
  unfold dot. simpl. fold (dot w c) (dot w c').
  rewrite (IH c c').
  - destruct (Hag 0 ws a a') as [->| ->]; try done. by rewrite !Rmult_0_l.
  - simpl in Hlen. lia.
  - intros s ws' b b' H1 H2 H3. by apply (Hag (S s)).
Qed.

Lemma lookup_tril (T i : nat) :
  i < T -> tril T !! i = Some ((fun j => bool_decide (j <= i)) <$> seq 0 T).
Proof.
  intros Hi. unfold tril. by rewrite list_lookup_fmap, lookup_seq_lt.
Qed.

Lemma length_tril (T : nat) : length (tril T) = T.
Proof. unfold tril. by rewrite length_fmap, length_seq. Qed.

Lemma softmax_lookup (row : list xreal) (s : nat) :
  softmax row !! s
  = (fun e => (exp_x e / foldr Rplus 0 (exp_x <$> row))%R) <$> row !! s.
Proof. unfold softmax. by rewrite list_lookup_fmap. Qed.

End ArrayFacts.

(** ** One example of the batch through a head *)

Section HeadFacts.
Import Attention.
Context (head_size : nat) (p : HeadParams) (scale : R).

(** [masked_fill] at one entry. *)
Definition sel (b : bool) (v : xreal) : xreal := if b then v else NegInf.

(** The keys of an example, and the scaled scores of one query row
    against all the keys. *)
Definition keys (m : matrix) : matrix := dense_row head_size (key_kernel p) <$> m.

Definition score_row (m : matrix) (xt : vec) : vec :=
  (fun v => (v * scale)%R)
    <$> ((fun j => dot (dense_row head_size (query_kernel p) xt) (col j (transpose (keys m))))
           <$> seq 0 (width (transpose (keys m)))).

(** Row [t] of the scores after [masked_fill]. *)
Definition masked_row (T : nat) (m : matrix) (t : nat) (xt : vec) : list xreal :=
  zip_with sel ((fun j => bool_decide (j <= t)) <$> seq 0 T) (Fin <$> score_row m xt).

(** The attention weights of one example. *)
Definition example_weights (T : nat) (m : matrix) : matrix :=
  softmax <$> zip_with (zip_with sel) (tril T)
                ((fun r : vec => Fin <$> r) <$> (score_row m <$> m)).

Definition example_out (T : nat) (m : matrix) : matrix :=
  matmul (example_weights T m) (dense_row head_size (value_kernel p) <$> m).

Lemma attention_weights_batch (x : tensor3) :
  attention_weights head_size p scale x = example_weights (length (hd [] x)) <$> x.
Proof.
  unfold attention_weights, masked_fill, bmm, transpose_last2.
  rewrite !Dense_nobias_rows.
  rewrite zip_with_fmap_l, !zip_with_fmap_r, zip_with_diag, zip_with_fmap_r.
  rewrite zip_with_replicate_l by done.
  rewrite <- !list_fmap_compose.
  apply list_fmap_ext. intros _ m _. simpl.
  unfold example_weights, matmul, score_row, keys.
  by rewrite <- !list_fmap_compose.
Qed.

Lemma example_weights_lookup (T : nat) (m : matrix) (t : nat) (xt : vec) :
  t < T -> m !! t = Some xt ->
  example_weights T m !! t = Some (softmax (masked_row T m t xt)).
Proof.
  intros Ht Hm. unfold example_weights, masked_row.
  rewrite list_lookup_fmap, lookup_zip_with, (lookup_tril T t Ht).
  by rewrite !list_lookup_fmap, Hm.
Qed.

Lemma length_example_weights (T : nat) (m : matrix) :
  length m = T -> length (example_weights T m) = T.
Proof.
  intros Hm. unfold example_weights.
  rewrite length_fmap, length_zip_with, length_tril, !length_fmap. lia.
Qed.

(** Above the diagonal the weights are zero. *)
Lemma masked_row_zero (T : nat) (m : matrix) (t s : nat) (xt : vec) (v : R) :
  softmax (masked_row T m t xt) !! s = Some v -> t < s -> v = 0%R.
Proof.
  intros Hv Hts. rewrite softmax_lookup in Hv.
  destruct (masked_row T m t xt !! s) as [e|] eqn:He; [|done].
  simpl in Hv. injection Hv as <-.
  assert (e = NegInf) as ->.
  { unfold masked_row in He. rewrite lookup_zip_with, !list_lookup_fmap in He.
    destruct (seq 0 T !! s) as [j|] eqn:Hj; [|done].
    apply lookup_seq in Hj as [-> _]. simpl in He.
    destruct (score_row m xt !! s) as [e'|]; [|done]. simpl in He.
    rewrite bool_decide_eq_false_2 in He by lia. simpl in He. congruence. }
  simpl. unfold Rdiv. apply Rmult_0_l.
Qed.

Lemma width_keys (m : matrix) : m <> [] -> width (keys m) = head_size.
Proof. apply width_dense. Qed.

Lemma width_transpose_keys (m m' : matrix) :
  length m = length m' -> width (transpose (keys m)) = width (transpose (keys m')).
Proof.
  intros Hlen. destruct m as [|r m], m' as [|r' m']; try discriminate; [done|].
  destruct head_size as [|n] eqn:Hn.
  - unfold transpose, keys. rewrite !width_dense by done. by rewrite Hn.
  - rewrite !width_transpose by (rewrite width_keys; [lia|done]).
    unfold keys. by rewrite !length_fmap.
Qed.

(** A row of the masked scores depends on the rows of the input up to its
    own position only. *)
Lemma masked_row_agree (T : nat) (m m' : matrix) (t : nat) (xt : vec) :
  length m = length m' ->
  (forall j, j <= t -> m !! j = m' !! j) ->
  masked_row T m t xt = masked_row T m' t xt.
Proof.
  intros Hlen Hag. apply list_eq. intros i. unfold masked_row.
  rewrite !lookup_zip_with, !list_lookup_fmap.
  destruct (seq 0 T !! i) as [j|] eqn:Hj; [|done].
  apply lookup_seq in Hj as [-> _]. simpl.
  unfold score_row. rewrite !list_lookup_fmap.
  rewrite (width_transpose_keys m m' Hlen).
  destruct (seq 0 (width (transpose (keys m'))) !! i) as [j|] eqn:Hj; [|done].
  apply lookup_seq in Hj as [-> _]. simpl.
  destruct (decide (i <= t)) as [Hi|Hi].
  - rewrite !bool_decide_eq_true_2 by done. simpl. do 4 f_equal.
    rewrite !col_transpose.
    assert (Hw : width (keys m) = width (keys m')).
    { destruct m as [|r m], m' as [|r' m']; try discriminate; [done|].
      by rewrite !width_keys. }
    rewrite Hw. apply list_fmap_ext. intros _ i0 _. f_equal.
    unfold keys. rewrite !nth_lookup, !list_lookup_fmap. by rewrite (Hag i Hi).
  - by rewrite !bool_decide_eq_false_2 by done.
Qed.

(** The rows of the output up to position [t] depend on the rows of the
    input up to [t] only. *)
Lemma example_out_agree (T : nat) (m m' : matrix) (t t' : nat) :
  length m = T -> length m' = T ->
  (forall j, j <= t -> m !! j = m' !! j) ->
  t' <= t ->
  example_out T m !! t' = example_out T m' !! t'.
Proof.
  intros Hm Hm' Hag Ht'. unfold example_out, matmul.
  rewrite !list_lookup_fmap.
  destruct (decide (t' < T)) as [HtT|HtT].
  2:{ assert (H1 : example_weights T m !! t' = None).
      { apply lookup_ge_None. rewrite length_example_weights by done. lia. }
      assert (H2 : example_weights T m' !! t' = None).
      { apply lookup_ge_None. rewrite length_example_weights by done. lia. }
      by rewrite H1, H2. }
  destruct (lookup_lt_is_Some_2 m t') as [xt Hxt]; [lia|].
  assert (Hxt' : m' !! t' = Some xt) by (by rewrite <- Hag).
  rewrite (example_weights_lookup T m t' xt HtT Hxt).
  rewrite (example_weights_lookup T m' t' xt HtT Hxt').
  rewrite <- (masked_row_agree T m m' t' xt).
  2:{ congruence. }
  2:{ intros j Hj. apply Hag. lia. }
  simpl. f_equal.
  assert (Hw : width (dense_row head_size (value_kernel p) <$> m)
               = width (dense_row head_size (value_kernel p) <$> m')).
  { destruct m as [|r m], m' as [|r' m']; simpl in *; try lia.
    by rewrite !width_cons, !length_dense_row. }
  rewrite Hw. apply list_fmap_ext. intros _ j _.
  apply dot_agree.
  - rewrite !length_col, !length_fmap. congruence.
  - intros s ws a a' Hws Ha Ha'.
    destruct (decide (s <= t)) as [Hs|Hs].
    + right. unfold col in Ha, Ha'. rewrite !list_lookup_fmap in Ha, Ha'.
      rewrite <- (Hag s Hs) in Ha'. rewrite Ha in Ha'. by injection Ha'.
    + left. apply (masked_row_zero T m t' s xt ws Hws). lia.
Qed.

End HeadFacts.

(** ** Heads on a batch *)

Section BatchFacts.
Import Attention.

Lemma shape3_lookup {A} (B T C : nat) (x : list (list (list A))) b m :
  shape3 B T C x -> x !! b = Some m ->
  length m = T /\ Forall (fun r => length r = C) m.
Proof. intros [_ Hall] Hm. exact (Forall_lookup_1 _ _ _ _ Hall Hm). Qed.

Lemma shape3_hd {A} (B T C : nat) (x : list (list (list A))) :
  shape3 B T C x -> 0 < B -> length (hd [] x) = T.
Proof.
  intros [Hlen Hall] HB. destruct x as [|m x]; simpl in *; [lia|].
  by apply Forall_cons in Hall as [[? _] _].
Qed.

Lemma Head_call_batch (head_size : nat) (p : HeadParams) (x : tensor3) :
  head_size <> 0 ->
  Head_call head_size p x
  = Ok (example_out head_size p (/ sqrt (INR head_size)) (length (hd [] x)) <$> x).
Proof.
  intros Hhs. unfold Head_call, pow_neg_half.
  destruct head_size as [|n]; [done|]. cbn [res_bind].
  rewrite attention_weights_batch, Dense_nobias_rows. unfold bmm.
  by rewrite zip_with_fmap_l, zip_with_fmap_r, zip_with_diag.
Qed.

Lemma Head_call_inv (head_size : nat) (p : HeadParams) (x out : tensor3) :
  Head_call head_size p x = Ok out ->
  head_size <> 0
  /\ out = example_out head_size p (/ sqrt (INR head_size)) (length (hd [] x)) <$> x.
Proof.
  destruct head_size as [|n]; [done|]. intros H.
  rewrite Head_call_batch in H by done. split; [done|congruence].
Qed.

Lemma Dropout_deterministic rate rng (x : tensor3) : Dropout rate true rng x = Ok x.
Proof. reflexivity. Qed.

Lemma Gpt2_Head_call_eq head_size drop_rate p rngs (x : tensor3) :
  Gpt2.Head_call head_size drop_rate p rngs x = Head_call head_size p x.
Proof.
  unfold Gpt2.Head_call, Head_call. by destruct (pow_neg_half head_size).
Qed.

End BatchFacts.

(** ** Facts about the head over floats *)

Section FloatArrayFacts.
Import Float FloatHead.
Context {O : Ops}.

Abbreviation fvec := (list (F O)).
Abbreviation fmatrix := (list (list (F O))).
Abbreviation ftensor3 := (list (list (list (F O)))).

(** One row through a dense layer without bias. *)
Definition fdense_row (features : nat) (K : fmatrix) (row : fvec) : fvec :=
  (fun j => dot row (col j K)) <$> seq 0 features.

Lemma fDense_nobias_ok features K (x : ftensor3) :
  length K <> 0 -> features <> 0 ->
  Dense_nobias features K x = Ok ((fun m : fmatrix => fdense_row features K <$> m) <$> x).
Proof.
  intros HK Hf. unfold Dense_nobias.
  destruct (length K); [done|]. destruct features; [done|]. reflexivity.
Qed.

Lemma flength_dense_row features K (row : fvec) :
  length (fdense_row features K row) = features.
Proof. unfold fdense_row. by rewrite length_fmap, length_seq. Qed.

Lemma fnth_nil (i : nat) : nth i ([] : fvec) (zero O) = zero O.
Proof. by destruct i. Qed.

Lemma fnth_col (j i : nat) (M : fmatrix) :
  nth j (col i M) (zero O) = nth i (nth j M []) (zero O).
Proof.
  unfold col. destruct (M !! j) as [r|] eqn:E.
  - rewrite (nth_lookup_Some M j [] r E).
    apply nth_lookup_Some. by rewrite list_lookup_fmap, E.
  - apply lookup_ge_None in E.
    rewrite (nth_overflow M) by done. rewrite fnth_nil.
    apply nth_overflow. by rewrite length_fmap.
Qed.

Lemma fwidth_dense features K (m : fmatrix) :
  m <> [] -> width (fdense_row features K <$> m) = features.
Proof. destruct m as [|r m]; [done|]. intros _. apply flength_dense_row. Qed.

Lemma flength_col j (M : fmatrix) : length (col j M) = length M.
Proof. apply length_fmap. Qed.

Lemma fwidth_transpose (M : fmatrix) :
  width M <> 0 -> width (transpose M) = length M.
Proof.
  unfold transpose. destruct (width M) as [|n]; [done|]. intros _.
  simpl. apply flength_col.
Qed.

(** Column [j] of the transpose is row [j], cut or padded to the width. *)
Lemma fcol_transpose (j : nat) (M : fmatrix) :
  col j (transpose M) = (fun i => nth i (nth j M []) (zero O)) <$> seq 0 (width M).
Proof.
  unfold transpose. unfold col at 1. rewrite <- list_fmap_compose.
  apply list_fmap_ext. intros _ i _. simpl. apply fnth_col.
Qed.

(** A contraction does not see the entries of finite value whose weight
    is zero. *)
Lemma fdot_agree (HL : Laws O) (w c c' : fvec) :
  length c = length c' ->
  (forall s ws a a', w !! s = Some ws -> c !! s = Some a -> c' !! s = Some a' ->
     (ws = zero O /\ is_finite O a = true /\ is_finite O a' = true) \/ a = a') ->
  dot w c = dot w c'.
Proof.
  intros Hlen Hag. unfold dot. f_equal.
  revert c c' Hlen Hag. induction w as [|ws w IH]; intros c c' Hlen Hag; [done|].
  destruct c as [|a c], c' as [|a' c']; try discriminate; [done|].
  simpl. f_equal.
  - destruct (Hag 0 ws a a' eq_refl eq_refl eq_refl) as [(-> & Ha & Ha')| ->]; [|done].
    by rewrite !(mul_zero_finite O HL).
  - apply IH; [simpl in Hlen; lia|].
    intros s ws' b b' H1 H2 H3. by apply (Hag (S s)).
Qed.

(** The softmax of a row at an entry [-inf]: zero, unless it is NaN. *)
Lemma fsoftmax_neg_inf (HL : Laws O) (row : fvec) (s : nat) (w : F O) :
  row !! s = Some (neg_inf O) -> softmax row !! s = Some w ->
  w <> nan O -> w = zero O.
Proof.
  intros Hs Hw Hn. unfold softmax in Hw.
  rewrite !list_lookup_fmap, Hs in Hw. simpl in Hw. injection Hw as <-.
  destruct (sub_neg_inf O HL (foldr (max O) (neg_inf O) row)) as [E|E];
    rewrite E in *.
  - rewrite (exp_neg_inf O HL) in *.
    match goal with |- div O _ ?s = _ => destruct (div_zero O HL s) as [E'|E'] end;
      [done|by rewrite E' in Hn].
  - by rewrite (exp_nan O HL), (div_nan O HL) in Hn.
Qed.

Lemma flength_softmax (row : fvec) : length (softmax row) = length row.
Proof. unfold softmax. by rewrite !length_fmap. Qed.

End FloatArrayFacts.

Section FloatHeadFacts.
Import Float FloatHead.
Context {O : Ops} (head_size : nat) (p : HeadParams O) (scale : F O).

Abbreviation fvec := (list (F O)).
Abbreviation fmatrix := (list (list (F O))).
Abbreviation ftensor3 := (list (list (list (F O)))).

(** [masked_fill] at one entry. *)
Definition fsel (b : bool) (v : F O) : F O := if b then v else neg_inf O.

(** The keys of an example, and the scaled scores of one query row
    against all the keys. *)
Definition fkeys (m : fmatrix) : fmatrix := fdense_row head_size (key_kernel p) <$> m.

Definition fscore_row (m : fmatrix) (xt : fvec) : fvec :=
  (fun v => mul O v scale)
    <$> ((fun j => dot (fdense_row head_size (query_kernel p) xt)
                     (col j (transpose (fkeys m))))
           <$> seq 0 (width (transpose (fkeys m)))).

(** Row [t] of the scores after [masked_fill]. *)
Definition fmasked_row (T : nat) (m : fmatrix) (t : nat) (xt : fvec) : fvec :=
  zip_with fsel ((fun j => bool_decide (j <= t)) <$> seq 0 T) (fscore_row m xt).

(** The attention weights and the output of one example. *)
Definition fexample_weights (T : nat) (m : fmatrix) : fmatrix :=
  softmax <$> zip_with (zip_with fsel) (Attention.tril T) (fscore_row m <$> m).

Definition fexample_out (T : nat) (m : fmatrix) : fmatrix :=
  matmul (fexample_weights T m) (fdense_row head_size (value_kernel p) <$> m).

Lemma fexample_weights_lookup (T : nat) (m : fmatrix) (t : nat) (xt : fvec) :
  t < T -> m !! t = Some xt ->
  fexample_weights T m !! t = Some (softmax (fmasked_row T m t xt)).
Proof.
  intros Ht Hm. unfold fexample_weights, fmasked_row.
  rewrite list_lookup_fmap, lookup_zip_with, (lookup_tril T t Ht).
  by rewrite !list_lookup_fmap, Hm.
Qed.

Lemma flength_example_weights (T : nat) (m : fmatrix) :
  length m = T -> length (fexample_weights T m) = T.
Proof.
  intros Hm. unfold fexample_weights.
  rewrite length_fmap, length_zip_with, length_tril, !length_fmap. lia.
Qed.

(** Above the diagonal the masked scores are [-inf]. *)
Lemma fmasked_row_neg_inf (T : nat) (m : fmatrix) (t s : nat) (xt : fvec) :
  t < s -> s < length (fmasked_row T m t xt) ->
  fmasked_row T m t xt !! s = Some (neg_inf O).
Proof.
  intros Hts Hs. destruct (lookup_lt_is_Some_2 _ _ Hs) as [e He]. rewrite He.
  unfold fmasked_row in He. rewrite lookup_zip_with, !list_lookup_fmap in He.
  destruct (seq 0 T !! s) as [j|] eqn:Hj; [|done].
  apply lookup_seq in Hj as [-> _]. simpl in He.
  destruct (fscore_row m xt !! s) as [e'|]; [|done]. simpl in He.
  rewrite bool_decide_eq_false_2 in He by lia. simpl in He. congruence.
Qed.

(** Above the diagonal the weights are zero, unless they are NaN. *)
Lemma fmasked_row_zero (HL : Laws O) (T : nat) (m : fmatrix) (t s : nat)
    (xt : fvec) (w : F O) :
  softmax (fmasked_row T m t xt) !! s = Some w -> t < s -> w <> nan O -> w = zero O.
Proof.
  intros Hw Hts Hn.
  apply (fsoftmax_neg_inf HL (fmasked_row T m t xt) s w); [|done|done].
  apply fmasked_row_neg_inf; [done|].
  apply lookup_lt_Some in Hw. by rewrite flength_softmax in Hw.
Qed.

Lemma fwidth_keys (m : fmatrix) : m <> [] -> width (fkeys m) = head_size.
Proof. apply fwidth_dense. Qed.

Lemma fwidth_transpose_keys (m m' : fmatrix) :
  length m = length m' -> width (transpose (fkeys m)) = width (transpose (fkeys m')).
Proof.
  intros Hlen. destruct m as [|r m], m' as [|r' m']; try discriminate; [done|].
  destruct head_size as [|n] eqn:Hn.
  - unfold transpose, fkeys. rewrite !fwidth_dense by done. by rewrite Hn.
  - rewrite !fwidth_transpose by (rewrite fwidth_keys; [lia|done]).
    unfold fkeys. by rewrite !length_fmap.
Qed.

(** A row of the masked scores depends on the rows of the input up to its
    own position only. *)
Lemma fmasked_row_agree (T : nat) (m m' : fmatrix) (t : nat) (xt : fvec) :
  length m = length m' ->
  (forall j, j <= t -> m !! j = m' !! j) ->
  fmasked_row T m t xt = fmasked_row T m' t xt.
Proof.
  intros Hlen Hag. apply list_eq. intros i. unfold fmasked_row.
  rewrite !lookup_zip_with, !list_lookup_fmap.
  destruct (seq 0 T !! i) as [j|] eqn:Hj; [|done].
  apply lookup_seq in Hj as [-> _]. simpl.
  unfold fscore_row. rewrite !list_lookup_fmap.
  rewrite (fwidth_transpose_keys m m' Hlen).
  destruct (seq 0 (width (transpose (fkeys m'))) !! i) as [j|] eqn:Hj; [|done].
  apply lookup_seq in Hj as [-> _]. simpl.
  destruct (decide (i <= t)) as [Hi|Hi].
  - rewrite !bool_decide_eq_true_2 by done. simpl. do 3 f_equal.
    rewrite !fcol_transpose.
    assert (Hw : width (fkeys m) = width (fkeys m')).
    { destruct m as [|r m], m' as [|r' m']; try discriminate; [done|].
      by rewrite !fwidth_keys. }
    rewrite Hw. apply list_fmap_ext. intros _ i0 _. f_equal.
    unfold fkeys. rewrite !nth_lookup, !list_lookup_fmap. by rewrite (Hag i Hi).
  - by rewrite !bool_decide_eq_false_2 by done.
Qed.

(** The rows of the output up to position [t] depend on the rows of the
    input up to [t] only, when the weights of these rows are not NaN and the
    values at the later positions are finite. *)
Lemma fexample_out_agree (HL : Laws O) (T : nat) (m m' : fmatrix) (t t' : nat) :
  length m = T -> length m' = T ->
  (forall j, j <= t -> m !! j = m' !! j) ->
  t' <= t ->
  (forall row w, fexample_weights T m !! t' = Some row -> w ∈ row -> w <> nan O) ->
  (forall m0 s xs v, m0 = m \/ m0 = m' -> t < s -> m0 !! s = Some xs ->
                     v ∈ fdense_row head_size (value_kernel p) xs ->
                     is_finite O v = true) ->
  fexample_out T m !! t' = fexample_out T m' !! t'.
Proof.
  intros Hm Hm' Hag Ht' Hnan Hfin. unfold fexample_out, matmul.
  rewrite !list_lookup_fmap.
  destruct (decide (t' < T)) as [HtT|HtT].
  2:{ assert (H1 : fexample_weights T m !! t' = None).
      { apply lookup_ge_None. rewrite flength_example_weights by done. lia. }
      assert (H2 : fexample_weights T m' !! t' = None).
      { apply lookup_ge_None. rewrite flength_example_weights by done. lia. }
      by rewrite H1, H2. }
  destruct (lookup_lt_is_Some_2 m t') as [xt Hxt]; [lia|].
  assert (Hxt' : m' !! t' = Some xt) by (by rewrite <- Hag).
  pose proof (fun w => Hnan _ w (fexample_weights_lookup T m t' xt HtT Hxt)) as Hnan'.
  rewrite (fexample_weights_lookup T m t' xt HtT Hxt).
  rewrite (fexample_weights_lookup T m' t' xt HtT Hxt').
  rewrite <- (fmasked_row_agree T m m' t' xt).
  2:{ congruence. }
  2:{ intros j Hj. apply Hag. lia. }
  simpl. f_equal.
  assert (Hw : width (fdense_row head_size (value_kernel p) <$> m)
               = width (fdense_row head_size (value_kernel p) <$> m')).
  { destruct m as [|r m], m' as [|r' m']; simpl in *; try lia.
    unfold width. simpl. by rewrite !flength_dense_row. }
  rewrite Hw. apply list_fmap_ext. intros i j Hj.
  assert (Hjw : j < head_size).
  { apply lookup_seq in Hj as [-> Hj]. simpl in Hj.
    destruct m' as [|r' m']; simpl in *; [lia|].
    unfold width in Hj. simpl in Hj. by rewrite flength_dense_row in Hj. }
  assert (Hcol : forall m0 s xs a, m0 !! s = Some xs ->
            col j (fdense_row head_size (value_kernel p) <$> m0) !! s = Some a ->
            a ∈ fdense_row head_size (value_kernel p) xs).
  { intros m0 s xs a Hxs Ha. unfold col in Ha.
    rewrite !list_lookup_fmap, Hxs in Ha. simpl in Ha. injection Ha as <-.
    destruct (lookup_lt_is_Some_2 (fdense_row head_size (value_kernel p) xs) j)
      as [a Ha]; [by rewrite flength_dense_row|].
    rewrite (nth_lookup_Some _ _ _ _ Ha). by apply list_elem_of_lookup_2 in Ha. }
  apply (fdot_agree HL).
  - rewrite !flength_col, !length_fmap. congruence.
  - intros s ws a a' Hws Ha Ha'.
    destruct (decide (s <= t)) as [Hs|Hs].
    + right. unfold col in Ha, Ha'. rewrite !list_lookup_fmap in Ha, Ha'.
      rewrite <- (Hag s Hs) in Ha'. rewrite Ha in Ha'. by injection Ha'.
    + left.
      assert (HsT : s < T).
      { apply lookup_lt_Some in Ha. rewrite flength_col, length_fmap in Ha. lia. }
      destruct (lookup_lt_is_Some_2 m s) as [xs Hxs]; [lia|].
      destruct (lookup_lt_is_Some_2 m' s) as [xs' Hxs']; [lia|].
      split; [|split].
      * apply (fmasked_row_zero HL T m t' s xt ws Hws); [lia|].
        apply Hnan'. by apply list_elem_of_lookup_2 in Hws.
      * apply (Hfin m s xs a); [by left|lia|done|]. by apply (Hcol m s).
      * apply (Hfin m' s xs' a'); [by right|lia|done|]. by apply (Hcol m' s).
Qed.

End FloatHeadFacts.

Section FloatBatchFacts.
Import Float FloatHead.
Context {O : Ops}.

Abbreviation fvec := (list (F O)).
Abbreviation fmatrix := (list (list (F O))).
Abbreviation ftensor3 := (list (list (list (F O)))).

(** The scale of a head that is not empty. *)
Definition fscale (head_size : nat) : F O := of_pyfloat O (/ sqrt (INR head_size)).

Lemma fhead_params_length (C head_size : nat) (p : HeadParams O) :
  head_params_shape C head_size p ->
  length (key_kernel p) = C /\ length (query_kernel p) = C
  /\ length (value_kernel p) = C.
Proof. intros ([? _] & [? _] & [? _]). done. Qed.

Lemma fattention_weights_batch (C head_size : nat) (p : HeadParams O) (x : ftensor3) :
  head_params_shape C head_size p -> C <> 0 -> head_size <> 0 ->
  attention_weights head_size p x
  = Ok (fexample_weights head_size p (fscale head_size) (length (hd [] x)) <$> x).
Proof.
  intros Hp HC Hhs. destruct (fhead_params_length C head_size p Hp) as (Hk & Hq & _).
  unfold attention_weights.
  rewrite !fDense_nobias_ok by (done || congruence). cbn [res_bind].
  unfold pow_neg_half. destruct head_size as [|n] eqn:Hn; [done|]. rewrite <- Hn.
  cbn [res_bind]. f_equal.
  unfold Attention.masked_fill, bmm, transpose_last2.
  rewrite zip_with_fmap_l, !zip_with_fmap_r, zip_with_diag, zip_with_fmap_r.
  rewrite zip_with_replicate_l by done.
  rewrite <- !list_fmap_compose.
  apply list_fmap_ext. intros _ m _. simpl.
  unfold fexample_weights, matmul, fscore_row, fkeys, fscale.
  by rewrite <- !list_fmap_compose.
Qed.

Lemma fHead_call_batch (C head_size : nat) (p : HeadParams O) (x : ftensor3) :
  head_params_shape C head_size p -> C <> 0 -> head_size <> 0 ->
  Head_call head_size p x
  = Ok (fexample_out head_size p (fscale head_size) (length (hd [] x)) <$> x).
Proof.
  intros Hp HC Hhs. destruct (fhead_params_length C head_size p Hp) as (_ & _ & Hv).
  unfold Head_call. rewrite (fattention_weights_batch C) by done. cbn [res_bind].
  rewrite fDense_nobias_ok by (done || congruence). cbn [res_bind]. f_equal.
  unfold bmm. by rewrite zip_with_fmap_l, zip_with_fmap_r, zip_with_diag.
Qed.

Lemma fGpt2_Head_call_eq head_size drop_rate (p : HeadParams O) rngs (x : ftensor3) :
  Gpt2_Head_call head_size drop_rate p rngs x = Head_call head_size p x.
Proof.
  unfold Gpt2_Head_call, Head_call.
  by destruct (attention_weights head_size p x).
Qed.

Lemma fexample_weights_shape head_size (p : HeadParams O) scale (T : nat) (m : fmatrix) :
  head_size <> 0 -> length m = T ->
  Attention.shape2 T T (fexample_weights head_size p scale T m).
Proof.
  intros Hhs Hm. split; [by apply flength_example_weights|].
  apply Forall_lookup. intros t row Hrow.
  assert (Ht : t < T).
  { apply lookup_lt_Some in Hrow. by rewrite flength_example_weights in Hrow. }
  destruct (lookup_lt_is_Some_2 m t) as [xt Hxt]; [lia|].
  rewrite (fexample_weights_lookup _ _ _ T m t xt Ht Hxt) in Hrow.
  injection Hrow as <-. rewrite flength_softmax. unfold fmasked_row, fscore_row.
  rewrite length_zip_with, !length_fmap, !length_seq.
  rewrite fwidth_transpose.
  - unfold fkeys. rewrite length_fmap. lia.
  - rewrite fwidth_keys; [done|]. by destruct m.
Qed.

End FloatBatchFacts.

(** ** The reals with infinities and NaN as floats *)

Lemma xfloat_laws : Float.Laws XFloat.ops.
Proof.
  split.
  - intros [r| | |]; try discriminate. intros _. simpl. f_equal. lra.
  - intros [r| | |]; simpl; auto.
  - reflexivity.
  - reflexivity.
  - intros s. reflexivity.
  - intros [r| | |]; simpl; auto.
    destruct (Req_EM_T r 0) as [->|Hr].
    + right. by destruct (Req_EM_T 0 0).
    + left. f_equal. unfold Rdiv. lra.
Qed.

(** A head of size 1 on one channel, and three inputs of one example and
    two positions that agree at position 0. *)
Definition head_params_1 : FloatHead.HeadParams XFloat.ops :=
  @FloatHead.Build_HeadParams XFloat.ops [[XFloat.Fin 1]] [[XFloat.Fin 1]] [[XFloat.Fin 1]].

Definition x_one_two : list (list (list (Float.F XFloat.ops))) := [[[XFloat.Fin 1]; [XFloat.Fin 2]]].
Definition x_one_five : list (list (list (Float.F XFloat.ops))) := [[[XFloat.Fin 1]; [XFloat.Fin 5]]].
Definition x_one_inf : list (list (list (Float.F XFloat.ops))) := [[[XFloat.Fin 1]; [XFloat.PosInf]]].

(** The softmax of a row whose second entry is masked. *)
Lemma xsoftmax_masked (s : R) :
  FloatHead.softmax (O:=XFloat.ops) [XFloat.Fin s; XFloat.NegInf] = [XFloat.Fin 1; XFloat.Fin 0].
Proof.
  unfold FloatHead.softmax. cbn.
  replace (s + - s)%R with 0%R by lra. rewrite exp_0.
  destruct (Req_EM_T (1 + (0 + 0)) 0) as [E|E]; [lra|].
  f_equal; [f_equal; lra|]. f_equal. f_equal. lra.
Qed.

Ltac xf_decide :=
  repeat match goal with
         | |- context [Req_EM_T ?a ?b] => destruct (Req_EM_T a b); [try lra|try lra]
         | |- context [Rlt_dec ?a ?b] => destruct (Rlt_dec a b); [try lra|try lra]
         end.

Ltac xf_row0 :=
  cbn -[FloatHead.softmax];
  rewrite (bool_decide_eq_true_2 (0 <= 0)) by lia;
  rewrite (bool_decide_eq_false_2 (1 <= 0)) by lia;
  cbn [fsel]; rewrite xsoftmax_masked; cbn.

Lemma head_params_1_shape : FloatHead.head_params_shape 1 1 head_params_1.
Proof. repeat split; repeat constructor. Qed.

Lemma x_two_positions_shape (a b : XFloat.xfloat) :
  Attention.shape3 (A:=Float.F XFloat.ops) 1 2 1 [[[a]; [b]]].
Proof. split; [reflexivity|repeat constructor]. Qed.

(** ** C1: causal masking *)




(** ** C7: the dropout layers of the GPT-2 notebook *)

Section DropoutFacts.
Import Attention.

Lemma res_mapM_ext {A B} (f g : A -> res B) (l : list A) :
  (forall a, f a = g a) -> res_mapM f l = res_mapM g l.
Proof. intros Hfg. induction l as [|a l IH]; simpl; [done|]. by rewrite Hfg, IH. Qed.

Lemma foldl_ext_res {A B} (f g : A -> B -> A) (l : list B) (a : A) :
  (forall a b, f a b = g a b) -> foldl f a l = foldl g a l.
Proof. intros Hfg. revert a. induction l as [|b l IH]; intros a; simpl; [done|]. by rewrite Hfg, IH. Qed.

(** Without [deterministic=True] a dropout layer needs random bits: with
    a rate other than 0 and 1 and no rng it raises. *)
Lemma Dropout_training_needs_rng (rate : R) (x : tensor3) :
  rate <> 0%R -> rate <> 1%R -> Dropout rate false None x = Raise InvalidRngError.
Proof.
  intros H0 H1. unfold Dropout.
  destruct (Req_EM_T rate 0); [done|]. by destruct (Req_EM_T rate 1).
Qed.

Lemma Gpt2_FeedForward_call_eq n_embed drop_rate p rngs (x : tensor3) :
  Gpt2.FeedForward_call n_embed drop_rate p rngs x
  = Ok (Decoder.FeedForward_call n_embed p x).
Proof. reflexivity. Qed.

Lemma Gpt2_MultiHeadedAttention_call_eq num_heads head_size n_embed drop_rate p rngs
    (x : tensor3) :
  Gpt2.MultiHeadedAttention_call num_heads head_size n_embed drop_rate p rngs x
  = Decoder.MultiHeadedAttention_call num_heads head_size n_embed p x.
Proof.
  unfold Gpt2.MultiHeadedAttention_call, Decoder.MultiHeadedAttention_call.
  rewrite (res_mapM_ext _ (fun i => Head_call head_size (mha_heads p i) x)).
  2:{ intros i. apply Gpt2_Head_call_eq. }
  destruct (res_mapM _ _) as [heads_out|e]; [|done]. simpl.
  by destruct (concatenate_last heads_out).
Qed.

Lemma Gpt2_Block_call_eq Ls n_embed num_heads drop_rate (p : BlockParams Ls) rngs
    (x : tensor3) :
  Gpt2.Block_call Ls n_embed num_heads drop_rate p rngs x
  = Decoder.Block_call Ls n_embed num_heads p x.
Proof.
  unfold Gpt2.Block_call, Decoder.Block_call.
  destruct (floordiv n_embed num_heads) as [head_size|e]; [|done]. simpl.
  rewrite Gpt2_MultiHeadedAttention_call_eq.
  by destruct (Decoder.MultiHeadedAttention_call _ _ _ _ _).
Qed.

Lemma GPT2_call_eq Ls cfg (p : ModelParams Ls) rngs (index_seq : list (list nat)) :
  Gpt2.GPT2_call Ls cfg p rngs index_seq = Gpt2.GPT2_without_dropout Ls cfg p index_seq.
Proof.
  unfold Gpt2.GPT2_call, Gpt2.GPT2_without_dropout.
  rewrite (foldl_ext_res _
             (fun acc i => res_bind acc (fun x =>
                Decoder.Block_call Ls (Gpt2.n_embed cfg) (Gpt2.num_heads cfg)
                  (decoder_blocks p i) x))); [done|].
  intros [x|e] i; simpl; [apply Gpt2_Block_call_eq|done].
Qed.

End DropoutFacts.

(** C7: in the GPT-2 notebook every [nn.Dropout] is built with
    [deterministic=True] (in [FeedForward], in [Head] after the softmax, in
    [MultiHeadedAttention] after the projection).  Such a layer returns its
    input, whatever the rate and the random bits; so, for all parameters,
    inputs and random bits (none, as in the notebook's calls for training
    and for generation, or some), the forward pass of GPT2 is the forward
    pass of the same network without the dropout layers, and it does not
    depend on the random bits. *)
Theorem C7_dropout_is_identity (Ls : Attention.Layers) (cfg : Attention.Gpt2.Config)
    (p : Attention.ModelParams Ls) (rngs : Attention.Rngs)
    (index_seq : list (list nat)) :
  (forall rate rng (x : list (list (list R))), Attention.Dropout rate true rng x = Ok x)
  /\ Attention.Gpt2.GPT2_call Ls cfg p rngs index_seq
     = Attention.Gpt2.GPT2_without_dropout Ls cfg p index_seq
  /\ forall rngs',
      Attention.Gpt2.GPT2_call Ls cfg p rngs' index_seq
      = Attention.Gpt2.GPT2_call Ls cfg p rngs index_seq.
Proof.
  split; [apply Dropout_deterministic|]. split; [apply GPT2_call_eq|].
  intros rngs'. by rewrite !GPT2_call_eq.
Qed.

(** ** C8: the shape of the multi-headed block *)

Section ShapeFacts.
Import Attention.

Lemma example_out_shape head_size p scale (T : nat) (m : matrix) :
  length m = T -> shape2 T head_size (example_out head_size p scale T m).
Proof.
  intros Hm. unfold example_out, matmul. split.
  - rewrite length_fmap. by apply length_example_weights.
  - apply Forall_fmap, Forall_forall. intros row Hrow. simpl.
    rewrite length_fmap, length_seq.
    destruct m as [|r m].
    + subst T. by apply elem_of_nil in Hrow.
    + rewrite fmap_cons, width_cons. apply length_dense_row.
Qed.

Lemma Head_call_shape head_size p (B T C : nat) (x : tensor3) :
  head_size <> 0 -> shape3 B T C x ->
  exists out, Head_call head_size p x = Ok out /\ shape3 B T head_size out.
Proof.
  intros Hhs Hx. eexists. split; [by apply Head_call_batch|].
  split; [rewrite length_fmap; apply Hx|].
  apply Forall_fmap, Forall_lookup. intros i m Hm.
  destruct (shape3_lookup B T C x i m Hx Hm) as [Hlen _].
  assert (HT : length (hd [] x) = T).
  { apply (shape3_hd B T C x Hx). destruct Hx as [<- _].
    apply lookup_lt_Some in Hm. lia. }
  rewrite HT. by apply example_out_shape.
Qed.

Lemma res_mapM_ok {A B} (f : A -> res B) (P : B -> Prop) (l : list A) :
  (forall a, a ∈ l -> exists b, f a = Ok b /\ P b) ->
  exists bs, res_mapM f l = Ok bs /\ Forall P bs /\ length bs = length l.
Proof.
  induction l as [|a l IH]; intros Hf.
  - exists []. by repeat split.
  - destruct (Hf a) as (b & Hb & HP); [apply list_elem_of_here|].
    destruct IH as (bs & Hbs & HPs & Hlen).
    { intros a' Ha'. apply Hf. by apply list_elem_of_further. }
    exists (b :: bs). simpl. rewrite Hb, Hbs. simpl.
    split; [done|]. split; [by constructor|by rewrite Hlen].
Qed.

Lemma concat_last2_shape (B T c1 c2 : nat) (a b : tensor3) :
  shape3 B T c1 a -> shape3 B T c2 b -> shape3 B T (c1 + c2) (concat_last2 a b).
Proof.
  intros Ha Hb. unfold concat_last2. split.
  - rewrite length_zip_with. destruct Ha as [-> _], Hb as [-> _]. lia.
  - apply Forall_lookup. intros i m Hm.
    apply lookup_zip_with_Some in Hm as (ma & mb & -> & Hma & Hmb).
    destruct (shape3_lookup B T c1 a i ma Ha Hma) as [Hla Hra].
    destruct (shape3_lookup B T c2 b i mb Hb Hmb) as [Hlb Hrb].
    split; [rewrite length_zip_with; lia|].
    apply Forall_lookup. intros j r Hr.
    apply lookup_zip_with_Some in Hr as (ra & rb & -> & Hra' & Hrb').
    rewrite length_app.
    rewrite (Forall_lookup_1 _ _ _ _ Hra Hra'), (Forall_lookup_1 _ _ _ _ Hrb Hrb').
    done.
Qed.

Lemma foldl_concat_shape (B T c h : nat) (a : tensor3) (l : list tensor3) :
  shape3 B T c a -> Forall (shape3 B T h) l ->
  shape3 B T (c + h * length l) (foldl concat_last2 a l).
Proof.
  intros Ha Hl. revert c a Ha. induction Hl as [|b l Hb _ IH]; intros c a Ha; simpl.
  - by replace (c + h * 0) with c by lia.
  - replace (c + h * S (length l)) with ((c + h) + h * length l) by lia.
    apply IH. by apply concat_last2_shape.
Qed.

Lemma MultiHeadedAttention_call_shape (num_heads head_size B T C : nat)
    (p : nat -> HeadParams) (x : tensor3) :
  head_size <> 0 -> num_heads <> 0 -> shape3 B T C x ->
  exists out, MultiHeadedAttention_call num_heads head_size p x = Ok out
              /\ shape3 B T (head_size * num_heads) out.
Proof.
  intros Hhs Hn Hx. unfold MultiHeadedAttention_call.
  destruct (res_mapM_ok (fun i => Head_call head_size (p i) x)
              (shape3 B T head_size) (seq 0 num_heads)) as (hs & -> & Hall & Hlen).
  { intros i _. by apply (Head_call_shape head_size (p i) B T C). }
  rewrite length_seq in Hlen. simpl.
  destruct hs as [|h0 hs]; [simpl in Hlen; lia|].
  apply Forall_cons in Hall as [Hh0 Hall]. simpl in Hlen.
  eexists. split; [reflexivity|].
  replace (head_size * num_heads) with (head_size + head_size * length hs) by lia.
  by apply foldl_concat_shape.
Qed.

End ShapeFacts.

(** The parameters of a head of size 0 on inputs without channels. *)
Definition empty_head_params : Attention.HeadParams :=
  {| Attention.key_kernel := []; Attention.query_kernel := [];
     Attention.value_kernel := [] |}.

(** An input of shape (1, 1, 0). *)
Definition x_no_channels : list (list (list R)) := [[[]]].

(** C8, as stated, fails for n_embed = 0: one head (1 divides 0) of size
    0 // 1 = 0 on an input of shape (1, 1, 0) raises [ZeroDivisionError]
    at [self.head_size**-0.5] instead of returning an array. *)
Lemma C8_counterexample :
  Attention.shape3 1 1 0 x_no_channels
  /\ Nat.divide 1 0
  /\ 0 = 0 / 1
  /\ Attention.head_params_shape 0 0 empty_head_params
  /\ Attention.MultiHeadedAttention_call 1 0 (fun _ => empty_head_params)
       x_no_channels
     = Raise ZeroDivisionError.
Proof.
  split; [split; [reflexivity|repeat constructor]|].
  split; [exists 0; reflexivity|]. split; [reflexivity|].
  split; [repeat split; constructor|reflexivity].
Qed.

(** C8 (amended): let n_embed be at least 1, num_heads divide n_embed and
    head_size = n_embed // num_heads.  For every input x of shape
    (B, T, n_embed) and parameters of the right shapes,
    [MultiHeadedAttention.__call__] with num_heads heads of size head_size
    returns an array of shape (B, T, n_embed), the shape of the output of a
    single head of size n_embed. *)
Theorem C8_multi_head_shape (num_heads head_size n_embed B T : nat)
    (p : nat -> Attention.HeadParams) (p1 : Attention.HeadParams)
    (x : list (list (list R))) :
  Attention.shape3 B T n_embed x ->
  n_embed <> 0 ->
  Nat.divide num_heads n_embed ->
  head_size = n_embed / num_heads ->
  (forall i, i < num_heads -> Attention.head_params_shape n_embed head_size (p i)) ->
  Attention.head_params_shape n_embed n_embed p1 ->
  exists out out1,
    Attention.MultiHeadedAttention_call num_heads head_size p x = Ok out
    /\ Attention.shape3 B T n_embed out
    /\ Attention.Head_call n_embed p1 x = Ok out1
    /\ Attention.shape3 B T n_embed out1.
Proof.
  intros Hx Hn [z Hz] Hhs _ _.
  assert (Hnh : num_heads <> 0) by (intros ->; lia).
  assert (Hz' : head_size = z).
  { rewrite Hhs, Hz. by apply Nat.div_mul. }
  assert (Hhs0 : head_size <> 0) by (intros ->; lia).
  destruct (MultiHeadedAttention_call_shape num_heads head_size B T n_embed p x
              Hhs0 Hnh Hx) as (out & Hout & Hshape).
  destruct (Head_call_shape n_embed p1 B T n_embed x Hn Hx) as (out1 & Hout1 & Hshape1).
  exists out, out1. repeat split; try done; try apply Hshape1.
  - apply Hshape.
  - destruct Hshape as [_ Hall]. by rewrite Hz, <- Hz'.
Qed.

(** C8 at a concrete input: 2 heads of size 1 on an input of shape
    (1, 2, 2). *)
Definition head_params_2_1 : Attention.HeadParams :=
  {| Attention.key_kernel := [[1%R]; [0%R]];
     Attention.query_kernel := [[0%R]; [1%R]];
     Attention.value_kernel := [[1%R]; [1%R]] |}.

Definition head_params_2_2 : Attention.HeadParams :=
  {| Attention.key_kernel := [[1%R; 0%R]; [0%R; 1%R]];
     Attention.query_kernel := [[1%R; 0%R]; [0%R; 1%R]];
     Attention.value_kernel := [[1%R; 0%R]; [0%R; 1%R]] |}.

Definition x_1_2_2 : list (list (list R)) := [[[1%R; 2%R]; [3%R; 4%R]]].

Lemma C8_witness :
  Attention.shape3 1 2 2 x_1_2_2 /\ 2 <> 0 /\ Nat.divide 2 2 /\ 1 = 2 / 2
  /\ exists out,
      Attention.MultiHeadedAttention_call 2 1 (fun _ => head_params_2_1) x_1_2_2 = Ok out
      /\ Attention.shape3 1 2 2 out.
Proof.
  assert (Hx : Attention.shape3 1 2 2 x_1_2_2).
  { split; [reflexivity|repeat constructor]. }
  assert (Hd : Nat.divide 2 2) by (exists 1; reflexivity).
  split; [exact Hx|]. split; [lia|]. split; [exact Hd|]. split; [reflexivity|].
  destruct (C8_multi_head_shape 2 1 2 1 2 (fun _ => head_params_2_1) head_params_2_2
              x_1_2_2 Hx ltac:(lia) Hd eq_refl)
    as (out & _ & Hout & Hshape & _).
  - intros i _. repeat split; repeat constructor.
  - repeat split; repeat constructor.
  - exists out. split; [exact Hout|exact Hshape].
Defined.


(** ** More on the tokenizer *)

Section TokenizerMore.
Import Tokenizer.

Lemma stoi_lookup_Some (data : pystr) (c : N) (i : nat) :
  stoi data !! c = Some i <-> chars data !! i = Some c.
Proof.
  split; [|apply stoi_lookup_index].
  intros Hc. destruct (decide (c ∈ data)) as [Hin|Hout].
  - apply elem_of_chars, list_elem_of_lookup in Hin as [j Hj].
    rewrite (stoi_lookup_index _ _ _ Hj) in Hc. by injection Hc as <-.
  - by rewrite (stoi_lookup_None _ _ Hout) in Hc.
Qed.

Lemma encode_app (st : gmap N nat) (s1 s2 : pystr) :
  encode st (s1 ++ s2)
  = res_bind (encode st s1) (fun l1 => res_bind (encode st s2) (fun l2 => Ok (l1 ++ l2))).
Proof.
  induction s1 as [|c s1 IH]; simpl.
  - by destruct (encode st s2).
  - destruct (st !! c) as [i|]; [|done]. rewrite IH.
    destruct (encode st s1) as [l1|e]; simpl; [|done].
    by destruct (encode st s2).
Qed.

Lemma decode_app (it : gmap nat N) (l1 l2 : list nat) :
  decode it (l1 ++ l2)
  = res_bind (decode it l1) (fun s1 => res_bind (decode it l2) (fun s2 => Ok (s1 ++ s2))).
Proof.
  induction l1 as [|i l1 IH]; simpl.
  - by destruct (decode it l2).
  - destruct (it !! i) as [c|]; [|done]. rewrite IH.
    destruct (decode it l1) as [s1|e]; simpl; [|done].
    by destruct (decode it l2).
Qed.

Lemma encode_length (st : gmap N nat) (s : pystr) (l : list nat) :
  encode st s = Ok l -> length l = length s.
Proof.
  revert l. induction s as [|c s IH]; intros l; simpl.
  - by intros [= <-].
  - destruct (st !! c); [|done]. destruct (encode st s) as [l'|]; [|done].
    simpl. intros [= <-]. simpl. by rewrite (IH l').
Qed.

Lemma decode_length (it : gmap nat N) (l : list nat) (s : pystr) :
  decode it l = Ok s -> length s = length l.
Proof.
  revert s. induction l as [|i l IH]; intros s; simpl.
  - by intros [= <-].
  - destruct (it !! i); [|done]. destruct (decode it l) as [s'|]; [|done].
    simpl. intros [= <-]. simpl. by rewrite (IH s').
Qed.

End TokenizerMore.

(** X1: [encode] fails exactly on the strings with a character outside the
    dataset, and then with [KeyError] for the first such character;
    [decode] fails exactly on the lists with an id that is not below
    [vocab_size], and then with [KeyError] for the first such id. *)
Theorem X1_KeyError_first (data : Tokenizer.pystr) :
  (forall s : Tokenizer.pystr,
      match Tokenizer.encode (Tokenizer.stoi data) s with
      | Ok l => (forall c, c ∈ s -> c ∈ data)
      | Raise e =>
          exists s1 c s2, s = (s1 ++ c :: s2) /\ (forall c', c' ∈ s1 -> c' ∈ data)
                          /\ (c ∉ data) /\ e = KeyError_char c
      end)
  /\ (forall l : list nat,
        match Tokenizer.decode (Tokenizer.itos data) l with
        | Ok s => Forall (fun i => i < Tokenizer.vocab_size data) l
        | Raise e =>
            exists l1 i l2, l = (l1 ++ i :: l2)
                            /\ Forall (fun j => j < Tokenizer.vocab_size data) l1
                            /\ Tokenizer.vocab_size data <= i /\ e = KeyError_int i
        end).
Proof.
  split.
  - induction s as [|c s IH]; simpl.
    + intros c Hc. by apply elem_of_nil in Hc.
    + destruct (Tokenizer.stoi data !! c) as [i|] eqn:Hc.
      * assert (Hin : c ∈ data).
        { apply elem_of_chars. apply stoi_lookup_Some in Hc.
          by apply list_elem_of_lookup_2 in Hc. }
        destruct (Tokenizer.encode (Tokenizer.stoi data) s) as [l|e]; simpl.
        -- intros c' [->|Hc']%elem_of_cons; [done|by apply IH].
        -- destruct IH as (s1 & c' & s2 & -> & Hs1 & Hc' & ->).
           exists (c :: s1), c', s2. split; [done|]. split; [|done].
           intros c'' [->|?]%elem_of_cons; [done|by apply Hs1].
      * exists [], c, s. split; [done|]. split.
        { intros c' Hc'. by apply elem_of_nil in Hc'. }
        split; [|done]. intros Hin.
        apply elem_of_chars, list_elem_of_lookup in Hin as [j Hj].
        by rewrite (stoi_lookup_index _ _ _ Hj) in Hc.
  - induction l as [|i l IH]; simpl; [constructor|].
    rewrite itos_lookup.
    destruct (Tokenizer.chars data !! i) as [c|] eqn:Hi.
    + apply lookup_lt_Some in Hi.
      destruct (Tokenizer.decode (Tokenizer.itos data) l) as [s|e]; simpl.
      * by constructor.
      * destruct IH as (l1 & j & l2 & -> & Hl1 & Hj & ->).
        exists (i :: l1), j, l2. split; [done|]. split; [by constructor|done].
    + apply lookup_ge_None in Hi.
      exists [], i, l. split; [done|]. split; [constructor|done].
Qed.

(** X2: the other round trip.  A list of ids below [vocab_size] decodes
    to a string of the same length whose encoding is the list. *)
Theorem X2_decode_encode_roundtrip (data : Tokenizer.pystr) (l : list nat) :
  Forall (fun i => i < Tokenizer.vocab_size data) l ->
  exists s, Tokenizer.decode (Tokenizer.itos data) l = Ok s
            /\ length s = length l
            /\ (forall c, c ∈ s -> c ∈ data)
            /\ Tokenizer.encode (Tokenizer.stoi data) s = Ok l.
Proof.
  induction 1 as [|i l Hi _ (s & Hs & Hlen & Hin & Henc)].
  - exists []. repeat split; try done. intros c Hc. by apply elem_of_nil in Hc.
  - apply lookup_lt_is_Some in Hi as [c Hc].
    exists (c :: s). simpl. rewrite itos_lookup, Hc, Hs. simpl.
    rewrite (stoi_lookup_index _ _ _ Hc), Henc. simpl.
    split; [done|]. split; [by rewrite Hlen|]. split; [|done].
    intros c' [->|?]%elem_of_cons; [|by apply Hin].
    apply elem_of_chars. by apply list_elem_of_lookup_2 in Hc.
Qed.

Lemma X2_witness :
  Forall (fun i => i < Tokenizer.vocab_size (str "hello world")) [4; 5; 7]
  /\ exists s, Tokenizer.decode (Tokenizer.itos (str "hello world")) [4; 5; 7] = Ok s
               /\ Tokenizer.encode (Tokenizer.stoi (str "hello world")) s = Ok [4; 5; 7].
Proof.
  assert (H : Forall (fun i => i < Tokenizer.vocab_size (str "hello world")) [4; 5; 7]).
  { apply (bool_decide_unpack _). vm_compute. reflexivity. }
  split; [exact H|].
  destruct (X2_decode_encode_roundtrip (str "hello world") [4; 5; 7] H)
    as (s & Hs & _ & _ & Henc).
  exists s. split; [exact Hs|exact Henc].
Defined.


Section TokenizerOrder.
Import Tokenizer.

Lemma sorted_lookup_lt (l : list N) (i j : nat) (a b : N) :
  StronglySorted N.lt l -> l !! i = Some a -> l !! j = Some b -> i < j -> (a < b)%N.
Proof.
  intros Hs. revert i j. induction Hs as [|x l Hs IH Hall]; intros i j Hi Hj Hij; [done|].
  destruct j as [|j]; [lia|]. simpl in Hj. destruct i as [|i].
  - simpl in Hi. injection Hi as <-. rewrite Forall_forall in Hall.
    apply Hall. by apply list_elem_of_lookup_2 in Hj.
  - simpl in Hi. apply (IH i j); [done..|lia].
Qed.

Lemma chars_same_set (data data' : pystr) :
  (forall c, c ∈ data <-> c ∈ data') -> chars data = chars data'.
Proof.
  intros Hset. unfold chars.
  assert (H : (list_to_set data : gset N) = list_to_set data').
  { apply set_eq. intros c. rewrite !elem_of_list_to_set. apply Hset. }
  by rewrite H.
Qed.

End TokenizerOrder.

(** X3: [stoi] and [itos] are inverse to each other: [stoi[c] == i]
    exactly when [itos[i] == c].  The keys of [stoi] are the characters of
    the dataset, the keys of [itos] are the numbers below [vocab_size], and
    [stoi] keeps the order of the code points. *)
Theorem X3_stoi_itos_inverse (data : Tokenizer.pystr) :
  (forall c i, Tokenizer.stoi data !! c = Some i <-> Tokenizer.itos data !! i = Some c)
  /\ (forall c, is_Some (Tokenizer.stoi data !! c) <-> c ∈ data)
  /\ (forall i, is_Some (Tokenizer.itos data !! i) <-> i < Tokenizer.vocab_size data)
  /\ (forall c1 c2 i1 i2,
        Tokenizer.stoi data !! c1 = Some i1 -> Tokenizer.stoi data !! c2 = Some i2 ->
        ((c1 < c2)%N <-> i1 < i2)).
Proof.
  split; [intros c i; by rewrite itos_lookup, stoi_lookup_Some|].
  split.
  { intros c. split.
    - intros [i Hi]. apply stoi_lookup_Some, list_elem_of_lookup_2 in Hi.
      by apply elem_of_chars.
    - intros Hc. apply elem_of_chars, list_elem_of_lookup in Hc as [i Hi].
      exists i. by apply stoi_lookup_index. }
  split.
  { intros i. rewrite itos_lookup. apply lookup_lt_is_Some. }
  intros c1 c2 i1 i2 H1%stoi_lookup_Some H2%stoi_lookup_Some.
  pose proof (chars_sorted data) as Hs.
  split; intros Hlt.
  - destruct (Nat.lt_trichotomy i1 i2) as [?|[->|Hgt]]; [done| |].
    + rewrite H1 in H2. injection H2 as ->. lia.
    + pose proof (sorted_lookup_lt _ _ _ _ _ Hs H2 H1 Hgt). lia.
  - apply (sorted_lookup_lt _ _ _ _ _ Hs H1 H2 Hlt).
Qed.

(** X4: [encode] and [decode] go through concatenation, the left part
    first: [encode(s1 + s2)] is [encode(s1) + encode(s2)] (and raises what
    the first failing part raises), and the same for [decode]; the result
    has as many elements as the argument. *)
Theorem X4_encode_decode_concat (stoi : gmap N nat) (itos : gmap nat N) :
  (forall s1 s2,
      Tokenizer.encode stoi (s1 ++ s2)
      = res_bind (Tokenizer.encode stoi s1) (fun l1 =>
        res_bind (Tokenizer.encode stoi s2) (fun l2 => Ok (l1 ++ l2))))
  /\ (forall l1 l2,
        Tokenizer.decode itos (l1 ++ l2)
        = res_bind (Tokenizer.decode itos l1) (fun s1 =>
          res_bind (Tokenizer.decode itos l2) (fun s2 => Ok (s1 ++ s2))))
  /\ (forall s l, Tokenizer.encode stoi s = Ok l -> length l = length s)
  /\ (forall l s, Tokenizer.decode itos l = Ok s -> length s = length l).
Proof.
  split; [apply encode_app|]. split; [apply decode_app|].
  split; [apply encode_length|apply decode_length].
Qed.

(** X5: the tokenizer depends on the set of characters of the dataset
    only: two datasets with the same characters give the same [chars],
    [vocab_size], [stoi] and [itos].  [vocab_size] is at most the length of
    the dataset, and it is 0 exactly for the empty dataset. *)
Theorem X5_tokenizer_of_character_set (data data' : Tokenizer.pystr) :
  ((forall c, c ∈ data <-> c ∈ data') ->
     Tokenizer.chars data = Tokenizer.chars data'
     /\ Tokenizer.vocab_size data = Tokenizer.vocab_size data'
     /\ Tokenizer.stoi data = Tokenizer.stoi data'
     /\ Tokenizer.itos data = Tokenizer.itos data')
  /\ Tokenizer.vocab_size data <= length data
  /\ (Tokenizer.vocab_size data = 0 <-> data = []).
Proof.
  split.
  { intros Hset. unfold Tokenizer.vocab_size, Tokenizer.stoi, Tokenizer.itos.
    by rewrite (chars_same_set data data' Hset). }
  split.
  - unfold Tokenizer.vocab_size. apply submseteq_length, NoDup_submseteq.
    + apply chars_NoDup.
    + intros c. apply elem_of_chars.
  - unfold Tokenizer.vocab_size. split.
    + intros Hlen. destruct data as [|c data]; [done|].
      assert (Hc : c ∈ Tokenizer.chars (c :: data)).
      { apply elem_of_chars, list_elem_of_here. }
      apply length_zero_iff_nil in Hlen. rewrite Hlen in Hc.
      by apply elem_of_nil in Hc.
    + intros ->. reflexivity.
Qed.

Lemma X5_witness :
  (forall c, c ∈ str "hello world" <-> c ∈ str "world hello hello")
  /\ Tokenizer.stoi (str "hello world") = Tokenizer.stoi (str "world hello hello").
Proof.
  assert (H : forall c, c ∈ str "hello world" <-> c ∈ str "world hello hello").
  { intros c. split; revert c; apply Forall_forall;
      apply (bool_decide_unpack _); vm_compute; reflexivity. }
  split; [exact H|].
  destruct (X5_tokenizer_of_character_set (str "hello world") (str "world hello hello"))
    as (Hsame & _).
  destruct (Hsame H) as (_ & _ & Hstoi & _). exact Hstoi.
Defined.


(** ** More on the data cell *)

Section DataMore.
Import Notebook Tokenizer.
Context {L : Library}.

Lemma int_0_9_le (n : nat) : int_0_9 n <= n.
Proof.
  unfold int_0_9. apply Nat.Div0.div_le_upper_bound. lia.
Qed.

Lemma download_existing (env : Env) (w : World L) (s : pystr) :
  files w !! input_file_path = Some s ->
  open_r_error env input_file_path = None ->
  read_error env input_file_path = None ->
  download_and_read L env w
  = (Ok (universal_newlines s),
     extend w [L_dataset_length (length (universal_newlines s))]
       [EvExists input_file_path; EvOpenR input_file_path;
        EvRead input_file_path]).
Proof.
  intros Hf Hr Hrd.
  unfold download_and_read, os_path_exists, open_r, f_read, print, bind, emit, ret.
  simpl. rewrite Hf. simpl. rewrite Hf, Hr. simpl. rewrite Hrd, Hf.
  unfold extend. simpl. by rewrite <- !app_assoc.
Qed.

Lemma download_ok_file (env : Env) (w w1 : World L) (data : pystr) :
  download_and_read L env w = (Ok data, w1) ->
  exists raw, files w1 !! input_file_path = Some raw /\ universal_newlines raw = data.
Proof.
  unfold download_and_read, os_path_exists, open_w, requests_get_text, f_write,
    open_r, f_read, print, bind, emit, ret. simpl.
  destruct (files w !! input_file_path) as [s|] eqn:Hf; simpl.
  - rewrite Hf.
    destruct (open_r_error env input_file_path) as [e|]; simpl; [done|].
    destruct (read_error env input_file_path) as [e|]; simpl; [done|].
    rewrite Hf. simpl. intros [= <- <-]. by exists s.
  - destruct (open_w_error env input_file_path) as [e|]; simpl; [done|].
    destruct (http_text env data_url) as [t|e]; simpl; [|done].
    destruct (write_error env input_file_path) as [e|]; simpl; [done|].
    rewrite lookup_insert_eq.
    destruct (open_r_error env input_file_path) as [e|]; simpl; [done|].
    destruct (read_error env input_file_path) as [e|]; simpl; [done|].
    rewrite lookup_insert_eq. simpl. intros [= <- <-]. simpl.
    exists t. split; [apply lookup_insert_eq|done].
Qed.

Lemma download_http_fails (env : Env) (w : World L) (e : PyExn) :
  files w !! input_file_path = None ->
  open_w_error env input_file_path = None ->
  http_text env data_url = Raise e ->
  download_and_read L env w
  = (Raise e, {| files := <[input_file_path:=[]]> (files w);
                 stdout := stdout w;
                 events := events w ++ [EvExists input_file_path;
                                        EvOpenW input_file_path;
                                        EvHttpGet data_url] |}).
Proof.
  intros Hf Hw Hh.
  unfold download_and_read, os_path_exists, open_w, requests_get_text, bind, emit, ret.
  simpl. rewrite Hf. simpl. rewrite Hw. simpl. rewrite Hh. simpl.
  by rewrite <- !app_assoc.
Qed.

End DataMore.

(** X6: once the dataset is read, the rest of the data cells cannot
    raise when the dataset has at most 2^16 distinct characters (the empty
    dataset included): every character they encode is a key of [stoi], and
    every id fits uint16.  They print four lines, the last two with the
    sizes [int(n*0.9)] and [n - int(n*0.9)] for a dataset of n characters;
    [train_ids] and [val_ids] have these sizes, and every id is below
    [vocab_size]. *)
Theorem X6_tokenize_and_split_total (L : Library) (data : Tokenizer.pystr)
    (env : Env) (w : World L) :
  Tokenizer.vocab_size data <= 2 ^ 16 ->
  exists d,
    Notebook.tokenize_and_split L data env w
    = (Ok d,
       extend w [L_unique_chars (Tokenizer.chars data);
                 L_vocab_size (Tokenizer.vocab_size data);
                 L_train_tokens (Notebook.int_0_9 (length data));
                 L_val_tokens (length data - Notebook.int_0_9 (length data))] [])
    /\ Notebook.d_data d = data
    /\ Notebook.d_vocab_size d = Tokenizer.vocab_size data
    /\ length (Notebook.d_train_ids d) = Notebook.int_0_9 (length data)
    /\ length (Notebook.d_train_ids d) + length (Notebook.d_val_ids d) = length data
    /\ Forall (fun i => i < Tokenizer.vocab_size data /\ i < 2 ^ 16)
         (Notebook.d_train_ids d ++ Notebook.d_val_ids d).
Proof.
  intros Hv.
  destruct (tokenize_and_split_traced (L:=L) data Hv)
    as (ids & vids & Hids & Hvids & Hrun).
  pose proof (int_0_9_le (length data)) as Hle.
  assert (Hl1 : length ids = Notebook.int_0_9 (length data)).
  { rewrite (encode_length _ _ _ Hids), length_take. lia. }
  assert (Hl2 : length vids = length data - Notebook.int_0_9 (length data)).
  { by rewrite (encode_length _ _ _ Hvids), length_drop. }
  exists (dataset_of data ids vids). split; [rewrite <- Hl2, <- Hl1; apply Hrun|].
  cbn [dataset_of Notebook.d_data Notebook.d_vocab_size Notebook.d_train_ids
       Notebook.d_val_ids].
  split; [done|]. split; [done|].
  split; [lia|]. split; [lia|].
  assert (Hr : forall s l, Tokenizer.encode (Tokenizer.stoi data) s = Ok l ->
               Forall (fun i => i < Tokenizer.vocab_size data /\ i < 2 ^ 16) l).
  { intros s l Hl. eapply Forall_impl.
    - exact (encode_range data s l Hl).
    - intros i Hi. simpl in Hi. split; [exact Hi|].
      eapply Nat.lt_le_trans; [exact Hi|exact Hv]. }
  apply Forall_app. split; [exact (Hr _ _ Hids)|exact (Hr _ _ Hvids)].
Qed.

Lemma X6_witness :
  Tokenizer.vocab_size (str "hello world") <= 2 ^ 16
  /\ exists d,
      fst (Notebook.tokenize_and_split toy (str "hello world") env_ok world0) = Ok d
      /\ length (Notebook.d_train_ids d) = 9
      /\ length (Notebook.d_val_ids d) = 2.
Proof.
  assert (H : Tokenizer.vocab_size (str "hello world") <= 2 ^ 16).
  { assert (Hv : Tokenizer.vocab_size (str "hello world") = 8) by (vm_compute; reflexivity).
    rewrite Hv. apply (Nat.le_trans _ (2 ^ 3)); [simpl; lia|].
    apply Nat.pow_le_mono_r; lia. }
  split; [exact H|].
  destruct (X6_tokenize_and_split_total toy (str "hello world") env_ok world0 H)
    as (d & Hrun & _ & _ & Hl1 & Hl2 & _).
  exists d. split; [by rewrite Hrun|].
  assert (Hn : Notebook.int_0_9 (length (str "hello world")) = 9)
    by (vm_compute; reflexivity).
  rewrite Hn in Hl1. split; [exact Hl1|].
  rewrite Hl1 in Hl2. simpl in Hl2. lia.
Defined.

(** X7: when the dataset has at most 2^16 distinct characters, the
    conversion to uint16 loses nothing: decoding [train_ids] followed by
    [val_ids] gives back the dataset, and [print(decode(train_ids[:100]))]
    prints the first 100 characters of the training part (all of it when
    it is shorter). *)
Theorem X7_split_loses_nothing (L : Library) (data : Tokenizer.pystr)
    (env : Env) (w : World L) :
  Tokenizer.vocab_size data <= 2 ^ 16 ->
  exists d lines,
    Notebook.tokenize_and_split L data env w = (Ok d, extend w lines [])
    /\ Tokenizer.decode (Notebook.d_itos d)
         (Notebook.d_train_ids d ++ Notebook.d_val_ids d) = Ok data
    /\ Notebook.show_head_cell L d env (extend w lines [])
       = (Ok tt, extend (extend w lines [])
                   [L_text (take 100 (take (Notebook.int_0_9 (length data)) data))] []).
Proof.
  intros Hv.
  destruct (tokenize_and_split_traced (L:=L) data Hv)
    as (ids & vids & Hids & Hvids & Hrun).
  eexists _, _. split; [apply Hrun|].
  cbn [dataset_of Notebook.d_itos Notebook.d_train_ids Notebook.d_val_ids].
  assert (Hidx : forall s l, Tokenizer.encode (Tokenizer.stoi data) s = Ok l ->
                             (forall c, c ∈ s -> c ∈ data) ->
                             Tokenizer.decode (Tokenizer.itos data) l = Ok s).
  { intros s l Hl Hs. destruct (encode_in_vocab data s Hs) as (l' & Hl' & Hall).
    rewrite Hl in Hl'. injection Hl' as <-. by apply decode_indices. }
  assert (Htrain : Tokenizer.decode (Tokenizer.itos data) ids
                   = Ok (take (Notebook.int_0_9 (length data)) data)).
  { apply Hidx; [done|]. intros c Hc.
    by apply (subseteq_take (Notebook.int_0_9 (length data)) data). }
  assert (Hval : Tokenizer.decode (Tokenizer.itos data) vids
                 = Ok (drop (Notebook.int_0_9 (length data)) data)).
  { apply Hidx; [done|]. intros c Hc.
    by apply (subseteq_drop (Notebook.int_0_9 (length data)) data). }
  split.
  - rewrite decode_app, Htrain, Hval. simpl. by rewrite take_drop.
  - apply show_head_cell_run.
    cbn [dataset_of Notebook.d_itos Notebook.d_train_ids].
    rewrite <- (take_drop 100 ids) in Htrain. rewrite decode_app in Htrain.
    destruct (Tokenizer.decode (Tokenizer.itos data) (take 100 ids)) as [s1|e] eqn:H1;
      [|done].
    destruct (Tokenizer.decode (Tokenizer.itos data) (drop 100 ids)) as [s2|e] eqn:H2;
      [|done].
    simpl in Htrain. injection Htrain as Htrain.
    f_equal. rewrite <- Htrain.
    apply decode_length in H1. rewrite length_take in H1.
    symmetry. destruct (decide (100 <= length ids)) as [Hge|Hlt].
    + apply take_app_length'. lia.
    + rewrite drop_ge in H2 by lia. injection H2 as <-.
      rewrite app_nil_r. apply take_ge. lia.
Qed.

Lemma X7_witness :
  Tokenizer.vocab_size (str "hello world") <= 2 ^ 16
  /\ exists d lines,
      Notebook.tokenize_and_split toy (str "hello world") env_ok world0
      = (Ok d, extend world0 lines [])
      /\ Tokenizer.decode (Notebook.d_itos d)
           (Notebook.d_train_ids d ++ Notebook.d_val_ids d) = Ok (str "hello world").
Proof.
  assert (H : Tokenizer.vocab_size (str "hello world") <= 2 ^ 16).
  { assert (Hv : Tokenizer.vocab_size (str "hello world") = 8) by (vm_compute; reflexivity).
    rewrite Hv. apply (Nat.le_trans _ (2 ^ 3)); [simpl; lia|].
    apply Nat.pow_le_mono_r; lia. }
  split; [exact H|].
  destruct (X7_split_loses_nothing toy (str "hello world") env_ok world0 H)
    as (d & lines & Hrun & Hdec & _).
  exists d, lines. split; [exact Hrun|exact Hdec].
Defined.

(** X8: the download is cached.  After a run of the data cell that
    returned the dataset, the file holds a text of which the dataset is the
    reading (with [\r\n] and [\r] turned into [\n], as [read] returns it in
    text mode), and a further run, whatever its network does, asks
    [os.path.exists], opens and reads the file and does nothing else: no
    request, no write, the same dataset. *)
Theorem X8_download_cached (L : Library) (env env' : Env) (w w1 : World L)
    (data : Tokenizer.pystr) :
  Notebook.download_and_read L env w = (Ok data, w1) ->
  open_r_error env' Notebook.input_file_path = None ->
  read_error env' Notebook.input_file_path = None ->
  exists raw,
    files w1 !! Notebook.input_file_path = Some raw
    /\ Notebook.universal_newlines raw = data
    /\ Notebook.download_and_read L env' w1
       = (Ok data,
          {| files := files w1;
             stdout := stdout w1 ++ [L_dataset_length (length data)];
             events := events w1 ++ [EvExists Notebook.input_file_path;
                                     EvOpenR Notebook.input_file_path;
                                     EvRead Notebook.input_file_path] |}).
Proof.
  intros Hrun Hr Hrd.
  destruct (download_ok_file env w w1 data Hrun) as (raw & Hf & Hraw).
  exists raw. split; [exact Hf|]. split; [exact Hraw|].
  rewrite (download_existing env' w1 raw Hf Hr Hrd), Hraw. reflexivity.
Qed.

(** X9: a download that fails leaves an empty file behind.  When the
    file is missing and [requests.get] raises, the cell raises the same
    exception after [open(input_file_path, 'w')] has created the file; the
    next run finds the file, makes no request, and reads a dataset of
    length 0, whose vocabulary is empty. *)
Theorem X9_failed_download_leaves_empty_file (L : Library) (env env' : Env)
    (w : World L) (e : PyExn) :
  files w !! Notebook.input_file_path = None ->
  open_w_error env Notebook.input_file_path = None ->
  http_text env Notebook.data_url = Raise e ->
  open_r_error env' Notebook.input_file_path = None ->
  read_error env' Notebook.input_file_path = None ->
  exists w1,
    Notebook.download_and_read L env w = (Raise e, w1)
    /\ files w1 !! Notebook.input_file_path = Some []
    /\ stdout w1 = stdout w
    /\ Notebook.download_and_read L env' w1
       = (Ok [],
          {| files := files w1;
             stdout := stdout w ++ [L_dataset_length 0];
             events := events w1 ++ [EvExists Notebook.input_file_path;
                                     EvOpenR Notebook.input_file_path;
                                     EvRead Notebook.input_file_path] |})
    /\ Tokenizer.vocab_size [] = 0.
Proof.
  intros Hf Hw Hh Hr Hrd. eexists. split; [by apply download_http_fails|].
  cbn [files stdout events]. split; [apply lookup_insert_eq|]. split; [done|].
  split; [|done].
  rewrite (download_existing env' _ []); [done| |done|done].
  apply lookup_insert_eq.
Qed.

Lemma X8_witness :
  let raw := [97; 13; 10; 98]%N in
  let w := {| files := <[Notebook.input_file_path := raw]> ∅;
              stdout := []; events := [] |} : World toy in
  exists w1,
    Notebook.download_and_read toy env_offline w = (Ok [97; 10; 98]%N, w1)
    /\ files w1 !! Notebook.input_file_path = Some raw
    /\ fst (Notebook.download_and_read toy env_offline w1) = Ok [97; 10; 98]%N.
Proof.
  intros raw w.
  pose proof (download_existing (L:=toy) env_offline w raw
                (lookup_insert_eq _ _ _) eq_refl eq_refl) as Hrun.
  eexists. split; [exact Hrun|].
  destruct (X8_download_cached toy env_offline env_offline w _ _ Hrun eq_refl eq_refl)
    as (raw' & Hf & _ & Hagain).
  split; [|rewrite Hagain; reflexivity].
  apply lookup_insert_eq.
Defined.

Lemma X9_witness :
  exists w1,
    Notebook.download_and_read toy env_offline world0
    = (Raise (RequestException "ConnectionError"), w1)
    /\ files w1 !! Notebook.input_file_path = Some []
    /\ fst (Notebook.download_and_read toy env_ok w1) = Ok [].
Proof.
  destruct (X9_failed_download_leaves_empty_file toy env_offline env_ok world0
              (RequestException "ConnectionError") eq_refl eq_refl eq_refl eq_refl eq_refl)
    as (w1 & Hrun & Hf & _ & Hagain & _).
  exists w1. split; [exact Hrun|]. split; [exact Hf|]. rewrite Hagain. reflexivity.
Defined.

Section GenerateMore.
Import Notebook Tokenizer.

Lemma decode_first_bad (data : pystr) (l1 : list nat) (i : nat) (l2 : list nat) :
  Forall (fun j => j < vocab_size data) l1 -> vocab_size data <= i ->
  decode (itos data) (l1 ++ i :: l2) = Raise (KeyError_int i).
Proof.
  intros Hl1 Hi. rewrite decode_app.
  destruct (decode_in_range (chars data) l1 Hl1) as [s Hs].
  unfold itos. rewrite Hs. simpl.
  rewrite itos_of_lookup. by rewrite (lookup_ge_None_2 (chars data) i Hi).
Qed.

End GenerateMore.

(** A library whose [generate] returns the id [vocab_size], which no
    vocabulary has. *)
Definition toy_out_of_vocab : Library :=
  {| Key := nat; Array := list (list nat); Params := nat; OptState := nat;
     Grads := nat; Updates := nat; Loss := nat;
     PRNGKey := fun seed => seed;
     random_split := fun k => (S k, k);
     get_batch := fun ids k bs bl => ([], []);
     zeros := fun a b => repeat (repeat 0 b) a;
     model_init := fun _ _ _ _ => 0;
     model_apply := fun _ _ _ x => x;
     value_and_grad_loss := fun _ _ p _ _ => (p, 1);
     optimizer_init := fun _ => 0;
     optimizer_update := fun g o _ => (g, S o);
     apply_updates := fun p u => p + u;
     generate := fun _ _ _ v _ _ n => [0; v; 0];
     toy_abc := fun _ => ([], [], []) |}.

(** X10: the generation cell on ids outside the vocabulary.  When the
    list [generate] returns has an id that is not below [vocab_size], the
    cell has called [generate] and printed the line [Generated text: ] and
    then raises [KeyError] for the first such id; the sample is not
    printed. *)
Theorem X10_generate_cell_KeyError (L : Library) (s : stage) (data : Tokenizer.pystr)
    (ids vids : list nat) (variables : Params L) (rng_key : Key L)
    (l1 : list nat) (i : nat) (l2 : list nat) (env : Env) (w : World L) :
  generate L s variables rng_key (Tokenizer.vocab_size data) 1
    (Notebook.h_block_size (Notebook.hyper s))
    (Notebook.h_max_new_tokens (Notebook.hyper s)) = l1 ++ i :: l2 ->
  Forall (fun j => j < Tokenizer.vocab_size data) l1 ->
  Tokenizer.vocab_size data <= i ->
  Notebook.generate_cell L s (dataset_of data ids vids) variables rng_key env w
  = (Raise (KeyError_int i),
     {| files := files w;
        stdout := stdout w ++ [L_text (str "Generated text: ")];
        events := events w ++ [EvGenerate] |}).
Proof.
  intros Hgen Hl1 Hi.
  unfold Notebook.generate_cell, Notebook.call, Notebook.bind, Notebook.emit,
    Notebook.print, Notebook.lift_res, Notebook.ret.
  cbn [dataset_of Notebook.d_vocab_size Notebook.d_itos files stdout events].
  rewrite Hgen, (decode_first_bad data l1 i l2 Hl1 Hi). reflexivity.
Qed.

Lemma X10_witness :
  Notebook.generate_cell toy_out_of_vocab GPT2 (dataset_of (str "abab") [] []) 0 0
    env_ok {| files := ∅; stdout := []; events := [] |}
  = (Raise (KeyError_int 2),
     {| files := ∅; stdout := [L_text (str "Generated text: ")];
        events := [EvGenerate] |}).
Proof.
  apply (X10_generate_cell_KeyError toy_out_of_vocab GPT2 (str "abab") [] [] 0 0
           [0] 2 [0]).
  - vm_compute. reflexivity.
  - apply (bool_decide_unpack _). vm_compute. reflexivity.
  - vm_compute. apply le_n.
Defined.


(** ** Sums of reals *)

Section SoftmaxFacts.
Import Attention.

(** The sum of a list of reals, as [jnp.sum] computes it. *)
Definition rsum (l : vec) : R := foldr Rplus 0%R l.

Lemma softmax_rsum (row : list xreal) :
  softmax row = (fun v => (v / rsum (exp_x <$> row))%R) <$> (exp_x <$> row).
Proof. unfold softmax, rsum. by rewrite <- list_fmap_compose. Qed.

End SoftmaxFacts.

(** ** The models over exact reals

    The shapes of what the models return, together with the positions of
    the input that a position of the output depends on when the arithmetic
    is exact (no rounding, no overflow, no NaN). *)

Section ModelFacts.
Import Attention.
Local Open Scope res_scope.

(** What is used of the flax layers [nn.Embed] and [nn.LayerNorm]:
    [Embed] looks every id up on its own, and [LayerNorm] normalises every
    row (the last axis) on its own. *)
Record rowwise (Ls : Layers) : Prop := {
  Embed_ids : forall n f p ids,
    Embed Ls n f p ids = (fun i => hd [] (Embed Ls n f p [i])) <$> ids;
  LayerNorm_rows : forall p (x : tensor3),
    LayerNorm Ls p x
    = (fun m : matrix => (fun r : vec => hd [] (hd [] (LayerNorm Ls p [[r]]))) <$> m) <$> x
}.

(** The shapes of the parameters flax creates.  A [Dense] layer from
    [c_in] to [c_out] features has a kernel of shape (c_in, c_out) and a
    bias of length c_out; an embedding table with [features] columns gives
    rows of that length; the parameters of a [LayerNorm] made for rows of
    [C] entries keep that length. *)
Definition dense_params_shape (c_in c_out : nat) (p : DenseParams) : Prop :=
  shape2 c_in c_out (kernel p) /\ length (bias p) = c_out.

Definition embed_params_shape {Ls} (n features : nat) (p : EmbedParams Ls) : Prop :=
  forall i, length (hd [] (Embed Ls n features p [i])) = features.

Definition ln_params_shape {Ls} (C : nat) (p : LNParams Ls) : Prop :=
  forall r : vec, length r = C -> length (hd [] (hd [] (LayerNorm Ls p [[r]]))) = C.

Definition block_params_shape {Ls} (n_embed num_heads : nat) (p : BlockParams Ls) : Prop :=
  ln_params_shape n_embed (blk_ln_0 p)
  /\ (forall i, i < num_heads ->
       head_params_shape n_embed (n_embed / num_heads) (mha_heads (blk_mha p) i))
  /\ dense_params_shape (num_heads * (n_embed / num_heads)) n_embed (mha_proj (blk_mha p))
  /\ ln_params_shape n_embed (blk_ln_1 p)
  /\ dense_params_shape n_embed (4 * n_embed) (ff_dense_0 (blk_ffwd p))
  /\ dense_params_shape (4 * n_embed) n_embed (ff_dense_1 (blk_ffwd p)).

Definition model_params_shape {Ls} (vocab_size n_embed block_size num_heads num_layers : nat)
    (p : ModelParams Ls) : Prop :=
  embed_params_shape vocab_size n_embed (token_embedding_table p)
  /\ embed_params_shape block_size n_embed (position_embedding_table p)
  /\ (forall i, i < num_layers -> block_params_shape n_embed num_heads (decoder_blocks p i))
  /\ ln_params_shape n_embed (ln_f p)
  /\ dense_params_shape n_embed vocab_size (lm_head p).

(** Two sequences that agree at the positions 0..t. *)
Definition agree_upto {A} (t : nat) (m m' : list A) : Prop :=
  forall j, j <= t -> m !! j = m' !! j.

(** Two arrays of shape (B, T, C) whose examples number [b] agree at the
    positions 0..t. *)
Definition causal3 (B T C b t : nat) (x x' : tensor3) : Prop :=
  shape3 B T C x /\ shape3 B T C x'
  /\ forall m m', x !! b = Some m -> x' !! b = Some m' -> agree_upto t m m'.

Lemma shape3_rows (B T C C' : nat) (f : vec -> vec) (x : tensor3) :
  (forall r, length r = C -> length (f r) = C') ->
  shape3 B T C x -> shape3 B T C' ((fun m : matrix => f <$> m) <$> x).
Proof.
  intros Hf [Hlen Hall]. split; [by rewrite length_fmap|].
  apply Forall_fmap. eapply Forall_impl; [exact Hall|].
  intros m [Hm Hrows]. simpl. split; [by rewrite length_fmap|].
  apply Forall_fmap. eapply Forall_impl; [exact Hrows|]. intros r Hr. by apply Hf.
Qed.

(** A layer that works row by row. *)
Lemma causal3_rows (B T C C' b t : nat) (f : vec -> vec) (x x' : tensor3) :
  (forall r, length r = C -> length (f r) = C') ->
  causal3 B T C b t x x' ->
  causal3 B T C' b t ((fun m : matrix => f <$> m) <$> x)
    ((fun m : matrix => f <$> m) <$> x').
Proof.
  intros Hf (Hx & Hx' & Hag).
  split; [by apply (shape3_rows B T C C')|]. split; [by apply (shape3_rows B T C C')|].
  intros m m' Hm Hm' j Hj. rewrite list_lookup_fmap in Hm, Hm'.
  destruct (x !! b) as [m0|]; [|done]. destruct (x' !! b) as [m0'|]; [|done].
  simpl in Hm, Hm'. injection Hm as <-. injection Hm' as <-.
  rewrite !list_lookup_fmap. by rewrite (Hag m0 m0' eq_refl eq_refl j Hj).
Qed.

Lemma shape3_zip (B T C1 C2 C3 : nat) (g : vec -> vec -> vec) (x y : tensor3) :
  (forall r1 r2, length r1 = C1 -> length r2 = C2 -> length (g r1 r2) = C3) ->
  shape3 B T C1 x -> shape3 B T C2 y ->
  shape3 B T C3 (zip_with (zip_with g) x y).
Proof.
  intros Hg Hx Hy. split.
  - rewrite length_zip_with. destruct Hx as [-> _], Hy as [-> _]. lia.
  - apply Forall_lookup. intros i m Hm.
    apply lookup_zip_with_Some in Hm as (mx & my & -> & Hmx & Hmy).
    destruct (shape3_lookup B T C1 x i mx Hx Hmx) as [Hlx Hrx].
    destruct (shape3_lookup B T C2 y i my Hy Hmy) as [Hly Hry].
    split; [rewrite length_zip_with; lia|].
    apply Forall_lookup. intros j r Hr.
    apply lookup_zip_with_Some in Hr as (rx & ry & -> & Hrx' & Hry').
    apply Hg.
    + exact (Forall_lookup_1 _ _ _ _ Hrx Hrx').
    + exact (Forall_lookup_1 _ _ _ _ Hry Hry').
Qed.

(** Two arrays combined row by row. *)
Lemma causal3_zip (B T C1 C2 C3 b t : nat) (g : vec -> vec -> vec)
    (x x' y y' : tensor3) :
  (forall r1 r2, length r1 = C1 -> length r2 = C2 -> length (g r1 r2) = C3) ->
  causal3 B T C1 b t x x' -> causal3 B T C2 b t y y' ->
  causal3 B T C3 b t (zip_with (zip_with g) x y) (zip_with (zip_with g) x' y').
Proof.
  intros Hg (Hx & Hx' & Hagx) (Hy & Hy' & Hagy).
  split; [by apply (shape3_zip B T C1 C2 C3)|].
  split; [by apply (shape3_zip B T C1 C2 C3)|].
  intros m m' Hm Hm' j Hj.
  apply lookup_zip_with_Some in Hm as (mx & my & -> & Hmx & Hmy).
  apply lookup_zip_with_Some in Hm' as (mx' & my' & -> & Hmx' & Hmy').
  rewrite !lookup_zip_with.
  by rewrite (Hagx mx mx' Hmx Hmx' j Hj), (Hagy my my' Hmy Hmy' j Hj).
Qed.

Lemma causal3_Dense (B T C b t features : nat) (p : DenseParams) (x x' : tensor3) :
  length (bias p) = features ->
  causal3 B T C b t x x' ->
  causal3 B T features b t (Dense features p x) (Dense features p x').
Proof.
  intros Hb. apply causal3_rows. intros r _.
  rewrite length_zip_with, length_fmap, length_seq. lia.
Qed.

Lemma causal3_relu (B T C b t : nat) (x x' : tensor3) :
  causal3 B T C b t x x' -> causal3 B T C b t (relu x) (relu x').
Proof. apply causal3_rows. intros r Hr. by rewrite length_fmap. Qed.

Lemma causal3_add3 (B T C b t : nat) (x x' y y' : tensor3) :
  causal3 B T C b t x x' -> causal3 B T C b t y y' ->
  causal3 B T C b t (add3 x y) (add3 x' y').
Proof.
  apply causal3_zip. intros r1 r2 H1 H2. rewrite length_zip_with. lia.
Qed.

Lemma causal3_concat_last2 (B T C1 C2 b t : nat) (x x' y y' : tensor3) :
  causal3 B T C1 b t x x' -> causal3 B T C2 b t y y' ->
  causal3 B T (C1 + C2) b t (concat_last2 x y) (concat_last2 x' y').
Proof.
  apply causal3_zip. intros r1 r2 H1 H2. rewrite length_app. lia.
Qed.

Lemma causal3_LayerNorm Ls (Hrow : rowwise Ls) (B T C b t : nat) (p : LNParams Ls)
    (x x' : tensor3) :
  ln_params_shape C p ->
  causal3 B T C b t x x' ->
  causal3 B T C b t (LayerNorm Ls p x) (LayerNorm Ls p x').
Proof.
  intros Hp H. rewrite (LayerNorm_rows Ls Hrow p x), (LayerNorm_rows Ls Hrow p x').
  by apply (causal3_rows B T C C).
Qed.

(** A head. *)
Lemma causal3_Head_call (B T C b t head_size : nat) (p : HeadParams) (x x' : tensor3) :
  head_size <> 0 ->
  causal3 B T C b t x x' ->
  exists out out',
    Head_call head_size p x = Ok out /\ Head_call head_size p x' = Ok out'
    /\ causal3 B T head_size b t out out'.
Proof.
  intros Hhs (Hx & Hx' & Hag).
  destruct (Head_call_shape head_size p B T C x Hhs Hx) as (out & Hout & Hso).
  destruct (Head_call_shape head_size p B T C x' Hhs Hx') as (out' & Hout' & Hso').
  exists out, out'. split; [done|]. split; [done|]. split; [done|]. split; [done|].
  intros ob ob' Hob Hob' j Hj.
  apply Head_call_inv in Hout as [_ ->]. apply Head_call_inv in Hout' as [_ ->].
  rewrite list_lookup_fmap in Hob, Hob'.
  destruct (x !! b) as [m|] eqn:Hm; [|done].
  destruct (x' !! b) as [m'|] eqn:Hm'; [|done].
  injection Hob as <-. injection Hob' as <-.
  assert (HB : 0 < B).
  { apply lookup_lt_Some in Hm. destruct Hx as [<- _]. lia. }
  rewrite (shape3_hd B T C x Hx HB), (shape3_hd B T C x' Hx' HB).
  destruct (shape3_lookup B T C x b m Hx Hm) as [Hlen _].
  destruct (shape3_lookup B T C x' b m' Hx' Hm') as [Hlen' _].
  apply (example_out_agree _ _ _ T m m' t j Hlen Hlen'); [|done].
  by apply Hag.
Qed.

(** The heads of a multi-headed attention, run one after the other on the
    same input. *)
Lemma causal3_heads (B T C b t head_size : nat) (p : nat -> HeadParams)
    (x x' : tensor3) (l : list nat) :
  head_size <> 0 ->
  causal3 B T C b t x x' ->
  exists outs outs',
    res_mapM (fun i => Head_call head_size (p i) x) l = Ok outs
    /\ res_mapM (fun i => Head_call head_size (p i) x') l = Ok outs'
    /\ Forall2 (causal3 B T head_size b t) outs outs'
    /\ length outs = length l.
Proof.
  intros Hhs Hc. induction l as [|i l (outs & outs' & Ho & Ho' & Hall & Hlen)].
  - exists [], []. repeat split; constructor.
  - destruct (causal3_Head_call B T C b t head_size (p i) x x' Hhs Hc)
      as (o & o' & Hi & Hi' & Hoo).
    exists (o :: outs), (o' :: outs'). simpl. rewrite Hi, Hi', Ho, Ho'. simpl.
    repeat split; [by constructor|by rewrite Hlen].
Qed.

Lemma causal3_foldl_concat (B T c h b t : nat) (a a' : tensor3) (l l' : list tensor3) :
  causal3 B T c b t a a' ->
  Forall2 (causal3 B T h b t) l l' ->
  causal3 B T (c + h * length l) b t (foldl concat_last2 a l) (foldl concat_last2 a' l').
Proof.
  intros Ha Hl. revert c a a' Ha.
  induction Hl as [|o o' l l' Ho _ IH]; intros c a a' Ha; simpl.
  - by replace (c + h * 0) with c by lia.
  - replace (c + h * S (length l)) with ((c + h) + h * length l) by lia.
    apply IH. by apply causal3_concat_last2.
Qed.

(** [jnp.concatenate] of the outputs of at least one head. *)
Lemma causal3_concatenate_last (B T h b t : nat) (l l' : list tensor3) :
  l <> [] ->
  Forall2 (causal3 B T h b t) l l' ->
  exists c c',
    concatenate_last l = Ok c /\ concatenate_last l' = Ok c'
    /\ causal3 B T (h * length l) b t c c'.
Proof.
  intros Hne Hl. destruct Hl as [|o o' l l' Ho Hl]; [done|].
  eexists _, _. split; [reflexivity|]. split; [reflexivity|].
  replace (h * length (o :: l)) with (h + h * length l) by (simpl; lia).
  by apply causal3_foldl_concat.
Qed.

(** [MultiHeadedAttention.__call__] of the multi-headed self-attention
    notebook. *)
Lemma causal3_MultiHeadedAttention_call (B T C b t num_heads head_size : nat)
    (p : nat -> HeadParams) (x x' : tensor3) :
  num_heads <> 0 -> head_size <> 0 ->
  causal3 B T C b t x x' ->
  exists out out',
    MultiHeadedAttention_call num_heads head_size p x = Ok out
    /\ MultiHeadedAttention_call num_heads head_size p x' = Ok out'
    /\ causal3 B T (head_size * num_heads) b t out out'.
Proof.
  intros Hnh Hhs Hc. unfold MultiHeadedAttention_call.
  destruct (causal3_heads B T C b t head_size p x x' (seq 0 num_heads) Hhs Hc)
    as (outs & outs' & -> & -> & Hall & Hlen).
  rewrite length_seq in Hlen. simpl.
  destruct (causal3_concatenate_last B T head_size b t outs outs') as (c & c' & Hc1 & Hc2 & Hcc).
  { intros ->. simpl in Hlen. lia. }
  { exact Hall. }
  exists c, c'. split; [done|]. split; [done|]. by rewrite <- Hlen.
Qed.

(** [MultiHeadedAttention.__call__] of the transformer decoder notebook:
    the projection brings the output back to [n_embed] channels. *)
Lemma causal3_Decoder_MultiHeadedAttention_call (B T C b t num_heads head_size n_embed : nat)
    (p : MHAParams) (x x' : tensor3) :
  num_heads <> 0 -> head_size <> 0 ->
  length (bias (mha_proj p)) = n_embed ->
  causal3 B T C b t x x' ->
  exists out out',
    Decoder.MultiHeadedAttention_call num_heads head_size n_embed p x = Ok out
    /\ Decoder.MultiHeadedAttention_call num_heads head_size n_embed p x' = Ok out'
    /\ causal3 B T n_embed b t out out'.
Proof.
  intros Hnh Hhs Hb Hc. unfold Decoder.MultiHeadedAttention_call.
  destruct (causal3_heads B T C b t head_size (mha_heads p) x x' (seq 0 num_heads) Hhs Hc)
    as (outs & outs' & -> & -> & Hall & Hlen).
  rewrite length_seq in Hlen. simpl.
  destruct (causal3_concatenate_last B T head_size b t outs outs') as (c & c' & -> & -> & Hcc).
  { intros ->. simpl in Hlen. lia. }
  { exact Hall. }
  simpl. eexists _, _. split; [reflexivity|]. split; [reflexivity|].
  by apply (causal3_Dense B T (head_size * length outs)).
Qed.

Lemma causal3_FeedForward_call (B T C b t n_embed : nat) (p : FeedForwardParams)
    (x x' : tensor3) :
  length (bias (ff_dense_0 p)) = 4 * n_embed ->
  length (bias (ff_dense_1 p)) = n_embed ->
  causal3 B T C b t x x' ->
  causal3 B T n_embed b t (Decoder.FeedForward_call n_embed p x)
    (Decoder.FeedForward_call n_embed p x').
Proof.
  intros H0 H1 Hc. unfold Decoder.FeedForward_call.
  apply (causal3_Dense B T (4 * n_embed)); [done|].
  apply causal3_relu. by apply (causal3_Dense B T C).
Qed.

(** The configurations under which a block can run: [n_embed // num_heads]
    is defined and is not 0. *)
Definition heads_fit (n_embed num_heads : nat) : Prop :=
  1 <= num_heads <= n_embed.

Lemma heads_fit_head_size (n_embed num_heads : nat) :
  heads_fit n_embed num_heads -> n_embed / num_heads <> 0.
Proof.
  intros [H1 H2] H0. apply Nat.div_small_iff in H0; lia.
Qed.

(** [Block.__call__] of the transformer decoder notebook. *)
Lemma causal3_Block_call Ls (Hrow : rowwise Ls) (B T b t n_embed num_heads : nat)
    (p : BlockParams Ls) (x x' : tensor3) :
  heads_fit n_embed num_heads ->
  block_params_shape n_embed num_heads p ->
  causal3 B T n_embed b t x x' ->
  exists out out',
    Decoder.Block_call Ls n_embed num_heads p x = Ok out
    /\ Decoder.Block_call Ls n_embed num_heads p x' = Ok out'
    /\ causal3 B T n_embed b t out out'.
Proof.
  intros Hfit (Hln0 & _ & [_ Hproj] & Hln1 & [_ Hb0] & [_ Hb1]) Hc.
  pose proof (heads_fit_head_size _ _ Hfit) as Hhs.
  assert (Hfd : floordiv n_embed num_heads = Ok (n_embed / num_heads)).
  { destruct num_heads; [destruct Hfit; lia|reflexivity]. }
  assert (Hnh : num_heads <> 0) by (destruct Hfit; lia).
  unfold Decoder.Block_call. rewrite Hfd. cbn [res_bind].
  destruct (causal3_Decoder_MultiHeadedAttention_call B T n_embed b t num_heads
              (n_embed / num_heads) n_embed (blk_mha p)
              (LayerNorm Ls (blk_ln_0 p) x) (LayerNorm Ls (blk_ln_0 p) x'))
    as (a & a' & Ha & Ha' & Haa); [done|done|done|by apply causal3_LayerNorm|].
  rewrite Ha, Ha'. cbn [res_bind].
  eexists _, _. split; [reflexivity|]. split; [reflexivity|].
  assert (Hx1 : causal3 B T n_embed b t (add3 x a) (add3 x' a'))
    by (by apply causal3_add3).
  apply causal3_add3; [done|].
  apply (causal3_FeedForward_call B T n_embed); [done|done|].
  by apply causal3_LayerNorm.
Qed.

(** The blocks of a model, one after the other. *)
Lemma causal3_blocks Ls (Hrow : rowwise Ls) (B T b t n_embed num_heads : nat)
    (blocks : nat -> BlockParams Ls) (l : list nat) (x x' : tensor3) :
  heads_fit n_embed num_heads ->
  (forall i, i ∈ l -> block_params_shape n_embed num_heads (blocks i)) ->
  causal3 B T n_embed b t x x' ->
  exists out out',
    foldl (fun acc i => x <- acc ;; Decoder.Block_call Ls n_embed num_heads (blocks i) x)
      (Ok x) l = Ok out
    /\ foldl (fun acc i => x <- acc ;; Decoder.Block_call Ls n_embed num_heads (blocks i) x)
         (Ok x') l = Ok out'
    /\ causal3 B T n_embed b t out out'.
Proof.
  intros Hfit. revert x x'. induction l as [|i l IH]; intros x x' Hp Hc.
  - by exists x, x'.
  - destruct (causal3_Block_call Ls Hrow B T b t n_embed num_heads (blocks i) x x')
      as (y & y' & Hy & Hy' & Hyy); [done|apply Hp, list_elem_of_here|done|].
    simpl. rewrite Hy, Hy'. apply IH; [|done].
    intros j Hj. by apply Hp, list_elem_of_further.
Qed.

Lemma shape2_hd {A} (n m : nat) (M : list (list A)) :
  shape2 n m M -> 0 < n -> length (hd [] M) = m.
Proof.
  intros [Hlen Hall] Hn. destruct M as [|r M]; simpl in *; [lia|].
  by apply Forall_cons in Hall as [? _].
Qed.

(** The sum of the token and position embeddings. *)
Lemma causal3_embeddings Ls (Hrow : rowwise Ls) (B T b t vocab_size n_embed block_size : nat)
    (tok pos : EmbedParams Ls) (idx idx' : list (list nat)) :
  embed_params_shape vocab_size n_embed tok ->
  embed_params_shape block_size n_embed pos ->
  shape2 B T idx -> shape2 B T idx' ->
  (forall r r', idx !! b = Some r -> idx' !! b = Some r' -> agree_upto t r r') ->
  causal3 B T n_embed b t
    (Models.embeddings Ls vocab_size n_embed block_size tok pos idx)
    (Models.embeddings Ls vocab_size n_embed block_size tok pos idx').
Proof.
  intros Htok Hpos Hi Hi' Hag. unfold Models.embeddings.
  destruct (decide (B = 0)) as [->|HB].
  { destruct Hi as [Hl _], Hi' as [Hl' _].
    destruct idx; [|done]. destruct idx'; [|done].
    repeat split; try constructor. intros m m' Hm. done. }
  rewrite (shape2_hd B T idx Hi), (shape2_hd B T idx' Hi') by lia.
  set (P := Embed Ls block_size n_embed pos (seq 0 T)).
  assert (HP : length P = T /\ Forall (fun r => length r = n_embed) P).
  { unfold P. rewrite (Embed_ids Ls Hrow). split; [by rewrite length_fmap, length_seq|].
    apply Forall_fmap, Forall_forall. intros i _. apply Hpos. }
  clearbody P. destruct HP as [HPl HPr].
  assert (Hsh : forall ix, shape2 B T ix ->
            shape3 B T n_embed
              ((fun m : matrix => zip_with (zip_with Rplus) m P)
                 <$> (Embed Ls vocab_size n_embed tok <$> ix))).
  { intros ix [Hl Hall]. split; [by rewrite !length_fmap|].
    apply Forall_fmap, Forall_fmap. eapply Forall_impl; [exact Hall|].
    intros r Hr. simpl in Hr. simpl. rewrite (Embed_ids Ls Hrow). split.
    - rewrite length_zip_with, length_fmap. lia.
    - apply Forall_lookup. intros j row Hrow'.
      apply lookup_zip_with_Some in Hrow' as (e & q & -> & He & Hq).
      rewrite length_zip_with.
      rewrite list_lookup_fmap in He. destruct (r !! j) as [i|]; [|done].
      injection He as <-. rewrite (Htok i).
      rewrite (Forall_lookup_1 _ _ _ _ HPr Hq). lia. }
  split; [by apply Hsh|]. split; [by apply Hsh|].
  intros m m' Hm Hm' j Hj. rewrite !list_lookup_fmap in Hm, Hm'.
  destruct (idx !! b) as [r|] eqn:Hr; [|done].
  destruct (idx' !! b) as [r'|] eqn:Hr'; [|done].
  simpl in Hm, Hm'. injection Hm as <-. injection Hm' as <-.
  rewrite !lookup_zip_with, !(Embed_ids Ls Hrow), !list_lookup_fmap.
  by rewrite (Hag r r' eq_refl eq_refl j Hj).
Qed.

(** A model made of the embeddings, some blocks, a last [LayerNorm] and
    the dense layer [lm_head]. *)
Lemma causal3_GPT2_without_dropout Ls (Hrow : rowwise Ls) (cfg : Gpt2.Config)
    (p : ModelParams Ls) (B T b t : nat) (idx idx' : list (list nat)) :
  model_params_shape (Gpt2.vocab_size cfg) (Gpt2.n_embed cfg) (Gpt2.block_size cfg)
    (Gpt2.num_heads cfg) (Gpt2.num_layers cfg) p ->
  (Gpt2.num_layers cfg <> 0 -> heads_fit (Gpt2.n_embed cfg) (Gpt2.num_heads cfg)) ->
  shape2 B T idx -> shape2 B T idx' ->
  (forall r r', idx !! b = Some r -> idx' !! b = Some r' -> agree_upto t r r') ->
  exists logits logits',
    Gpt2.GPT2_without_dropout Ls cfg p idx = Ok logits
    /\ Gpt2.GPT2_without_dropout Ls cfg p idx' = Ok logits'
    /\ causal3 B T (Gpt2.vocab_size cfg) b t logits logits'.
Proof.
  intros (Htok & Hpos & Hblocks & Hln & [_ Hlm]) Hfit Hi Hi' Hag.
  pose proof (causal3_embeddings Ls Hrow B T b t _ _ _ _ _ idx idx' Htok Hpos Hi Hi' Hag)
    as Hemb.
  unfold Gpt2.GPT2_without_dropout.
  change (Gpt2.embed Ls cfg p idx)
    with (Models.embeddings Ls (Gpt2.vocab_size cfg) (Gpt2.n_embed cfg) (Gpt2.block_size cfg)
            (token_embedding_table p) (position_embedding_table p) idx).
  change (Gpt2.embed Ls cfg p idx')
    with (Models.embeddings Ls (Gpt2.vocab_size cfg) (Gpt2.n_embed cfg) (Gpt2.block_size cfg)
            (token_embedding_table p) (position_embedding_table p) idx').
  assert (Hx : exists out out',
    foldl (fun acc i => x <- acc ;;
             Decoder.Block_call Ls (Gpt2.n_embed cfg) (Gpt2.num_heads cfg)
               (decoder_blocks p i) x)
      (Ok (Models.embeddings Ls (Gpt2.vocab_size cfg) (Gpt2.n_embed cfg)
             (Gpt2.block_size cfg) (token_embedding_table p)
             (position_embedding_table p) idx)) (seq 0 (Gpt2.num_layers cfg)) = Ok out
    /\ foldl (fun acc i => x <- acc ;;
             Decoder.Block_call Ls (Gpt2.n_embed cfg) (Gpt2.num_heads cfg)
               (decoder_blocks p i) x)
      (Ok (Models.embeddings Ls (Gpt2.vocab_size cfg) (Gpt2.n_embed cfg)
             (Gpt2.block_size cfg) (token_embedding_table p)
             (position_embedding_table p) idx')) (seq 0 (Gpt2.num_layers cfg)) = Ok out'
    /\ causal3 B T (Gpt2.n_embed cfg) b t out out').
  { destruct (decide (Gpt2.num_layers cfg = 0)) as [->|Hn].
    - eexists _, _. split; [reflexivity|]. split; [reflexivity|]. exact Hemb.
    - apply (causal3_blocks Ls Hrow); [by apply Hfit| |exact Hemb].
      intros i Hi0. apply Hblocks. apply elem_of_seq in Hi0. lia. }
  destruct Hx as (out & out' & -> & -> & Hout). cbn [res_bind].
  eexists _, _. split; [reflexivity|]. split; [reflexivity|].
  apply (causal3_Dense B T (Gpt2.n_embed cfg)); [done|].
  by apply causal3_LayerNorm.
Qed.

(** The two other attention models. *)
Lemma causal3_SingleHead Ls (Hrow : rowwise Ls) (B T b t : nat)
    (vocab_size n_embed block_size head_size : nat) (p : Models.SingleHead.Params Ls)
    (idx idx' : list (list nat)) :
  head_size <> 0 ->
  embed_params_shape vocab_size n_embed (Models.SingleHead.token_embedding_table p) ->
  embed_params_shape block_size n_embed (Models.SingleHead.position_embedding_table p) ->
  length (bias (Models.SingleHead.lm_head p)) = vocab_size ->
  shape2 B T idx -> shape2 B T idx' ->
  (forall r r', idx !! b = Some r -> idx' !! b = Some r' -> agree_upto t r r') ->
  exists logits logits',
    Models.SingleHead.AttentionLanguageModel_call Ls vocab_size n_embed block_size
      head_size p idx = Ok logits
    /\ Models.SingleHead.AttentionLanguageModel_call Ls vocab_size n_embed block_size
         head_size p idx' = Ok logits'
    /\ causal3 B T vocab_size b t logits logits'.
Proof.
  intros Hhs Htok Hpos Hlm Hi Hi' Hag.
  pose proof (causal3_embeddings Ls Hrow B T b t _ _ _ _ _ idx idx' Htok Hpos Hi Hi' Hag)
    as Hemb.
  unfold Models.SingleHead.AttentionLanguageModel_call.
  destruct (causal3_Head_call B T n_embed b t head_size (Models.SingleHead.sa_head p)
              _ _ Hhs Hemb) as (o & o' & -> & -> & Hoo).
  cbn [res_bind]. eexists _, _. split; [reflexivity|]. split; [reflexivity|].
  by apply (causal3_Dense B T head_size).
Qed.

Lemma causal3_MultiHead Ls (Hrow : rowwise Ls) (B T b t : nat)
    (vocab_size n_embed block_size num_heads : nat) (p : Models.MultiHead.Params Ls)
    (idx idx' : list (list nat)) :
  heads_fit n_embed num_heads ->
  embed_params_shape vocab_size n_embed (Models.MultiHead.token_embedding_table p) ->
  embed_params_shape block_size n_embed (Models.MultiHead.position_embedding_table p) ->
  length (bias (Models.MultiHead.lm_head p)) = vocab_size ->
  shape2 B T idx -> shape2 B T idx' ->
  (forall r r', idx !! b = Some r -> idx' !! b = Some r' -> agree_upto t r r') ->
  exists logits logits',
    Models.MultiHead.AttentionLanguageModel_call Ls vocab_size n_embed block_size
      num_heads p idx = Ok logits
    /\ Models.MultiHead.AttentionLanguageModel_call Ls vocab_size n_embed block_size
         num_heads p idx' = Ok logits'
    /\ causal3 B T vocab_size b t logits logits'.
Proof.
  intros Hfit Htok Hpos Hlm Hi Hi' Hag.
  pose proof (causal3_embeddings Ls Hrow B T b t _ _ _ _ _ idx idx' Htok Hpos Hi Hi' Hag)
    as Hemb.
  pose proof (heads_fit_head_size _ _ Hfit) as Hhs.
  assert (Hfd : floordiv n_embed num_heads = Ok (n_embed / num_heads)).
  { destruct num_heads; [destruct Hfit; lia|reflexivity]. }
  assert (Hnh : num_heads <> 0) by (destruct Hfit; lia).
  unfold Models.MultiHead.AttentionLanguageModel_call. rewrite Hfd. cbn [res_bind].
  destruct (causal3_MultiHeadedAttention_call B T n_embed b t num_heads
              (n_embed / num_heads) (Models.MultiHead.sa_heads p) _ _ Hnh Hhs Hemb)
    as (o & o' & -> & -> & Hoo).
  cbn [res_bind]. eexists _, _. split; [reflexivity|]. split; [reflexivity|].
  by apply (causal3_Dense B T (n_embed / num_heads * num_heads)).
Qed.

(** The model of the transformer decoder notebook is the GPT-2 model
    with three layers. *)
Lemma TransformerDecoder_model_eq Ls (v n bs h : nat) (d : R) (p : ModelParams Ls)
    (idx : list (list nat)) :
  Gpt2.GPT2_without_dropout Ls
    {| Gpt2.vocab_size := v; Gpt2.n_embed := n; Gpt2.block_size := bs;
       Gpt2.num_heads := h; Gpt2.num_layers := 3; Gpt2.drop_rate := d |} p idx
  = Models.TransformerDecoder.AttentionLanguageModel_call Ls v n bs h p idx.
Proof.
  unfold Gpt2.GPT2_without_dropout, Models.TransformerDecoder.AttentionLanguageModel_call.
  cbn [Gpt2.num_layers Gpt2.n_embed Gpt2.num_heads Gpt2.vocab_size seq foldl res_bind].
  change (Gpt2.embed Ls _ p idx)
    with (Models.embeddings Ls v n bs (token_embedding_table p)
            (position_embedding_table p) idx).
  destruct (Decoder.Block_call Ls n h (decoder_blocks p 0) _) as [x1|e]; [|done].
  cbn [res_bind].
  destruct (Decoder.Block_call Ls n h (decoder_blocks p 1) _) as [x2|e]; [|done].
  cbn [res_bind].
  by destruct (Decoder.Block_call Ls n h (decoder_blocks p 2) _) as [x3|e].
Qed.

(** *** Configurations in which the heads do not fit *)

End ModelFacts.


(** *** An instance of the layers, for the examples

    [LayerNorm] with a scale and a bias, normalising each row by its mean
    and variance; [Embed] indexing the rows of a table. *)
Definition mean (r : Attention.vec) : R := (rsum r / INR (length r))%R.

Definition layer_norm_row (p : Attention.vec * Attention.vec) (r : Attention.vec)
    : Attention.vec :=
  let mu := mean r in
  let var := mean ((fun v => ((v - mu) * (v - mu))%R) <$> r) in
  zip_with Rplus
    (zip_with Rmult ((fun v => ((v - mu) / sqrt (var + / 1000000))%R) <$> r) p.1) p.2.

Definition list_layers : Attention.Layers :=
  {| Attention.LNParams := (Attention.vec * Attention.vec)%type;
     Attention.LayerNorm := fun p x =>
       (fun m : Attention.matrix => layer_norm_row p <$> m) <$> x;
     Attention.EmbedParams := Attention.matrix;
     Attention.Embed := fun n f table ids =>
       (fun i => nth i table (replicate f 0%R)) <$> ids |}.

Lemma list_layers_rowwise : rowwise list_layers.
Proof. split; reflexivity. Qed.

(** Parameters for 2 tokens, 2 channels, 2 positions and 2 heads of size 1. *)
Definition eye2 : Attention.matrix := [[1%R; 0%R]; [0%R; 1%R]].
Definition ln2 : Attention.vec * Attention.vec := ([1%R; 1%R], [0%R; 0%R]).
Definition dense_2_2 : Attention.DenseParams :=
  {| Attention.kernel := eye2; Attention.bias := [0%R; 0%R] |}.
Definition dense_2_8 : Attention.DenseParams :=
  {| Attention.kernel := [[1; 0; 1; 0; 1; 0; 1; 0]; [0; 1; 0; 1; 0; 1; 0; 1]]%R;
     Attention.bias := [0; 0; 0; 0; 0; 0; 0; 0]%R |}.
Definition dense_8_2 : Attention.DenseParams :=
  {| Attention.kernel := [[1; 0]; [0; 1]; [1; 0]; [0; 1]; [1; 0]; [0; 1]; [1; 0]; [0; 1]]%R;
     Attention.bias := [0%R; 0%R] |}.

(** A head of size 1 on 2 channels. *)
Definition head_params_2x1 : Attention.HeadParams :=
  {| Attention.key_kernel := [[1%R]; [1%R]];
     Attention.query_kernel := [[1%R]; [1%R]];
     Attention.value_kernel := [[1%R]; [2%R]] |}.

Definition block_2_2 : Attention.BlockParams list_layers :=
  {| Attention.blk_ln_0 := ln2 : Attention.LNParams list_layers;
     Attention.blk_mha :=
       {| Attention.mha_heads := fun _ => head_params_2x1;
          Attention.mha_proj := dense_2_2 |};
     Attention.blk_ln_1 := ln2 : Attention.LNParams list_layers;
     Attention.blk_ffwd :=
       {| Attention.ff_dense_0 := dense_2_8; Attention.ff_dense_1 := dense_8_2 |} |}.

Definition model_2_2 : Attention.ModelParams list_layers :=
  {| Attention.token_embedding_table := eye2 : Attention.EmbedParams list_layers;
     Attention.position_embedding_table := eye2 : Attention.EmbedParams list_layers;
     Attention.decoder_blocks := fun _ => block_2_2;
     Attention.ln_f := ln2 : Attention.LNParams list_layers;
     Attention.lm_head := dense_2_2 |}.

Definition gpt2_config_2_2 (num_heads num_layers : nat) : Attention.Gpt2.Config :=
  {| Attention.Gpt2.vocab_size := 2; Attention.Gpt2.n_embed := 2;
     Attention.Gpt2.block_size := 2; Attention.Gpt2.num_heads := num_heads;
     Attention.Gpt2.num_layers := num_layers; Attention.Gpt2.drop_rate := (/ 10)%R |}.

Lemma eye2_embed_shape (n : nat) :
  embed_params_shape (Ls:=list_layers) n 2 (eye2 : Attention.EmbedParams list_layers).
Proof. intros [|[|[|i]]]; reflexivity. Qed.

Lemma ln2_shape : ln_params_shape (Ls:=list_layers) 2 (ln2 : Attention.LNParams list_layers).
Proof.
  intros r Hr. simpl. unfold layer_norm_row.
  rewrite !length_zip_with, length_fmap, Hr. reflexivity.
Qed.

Lemma block_2_2_shape : block_params_shape 2 2 block_2_2.
Proof.
  split; [apply ln2_shape|]. split.
  { intros i _. repeat split; repeat constructor. }
  split; [repeat split; repeat constructor|].
  split; [apply ln2_shape|].
  split; repeat split; repeat constructor.
Qed.

Lemma model_2_2_shape (num_layers : nat) : model_params_shape 2 2 2 2 num_layers model_2_2.
Proof.
  split; [apply eye2_embed_shape|]. split; [apply eye2_embed_shape|].
  split; [intros i _; apply block_2_2_shape|].
  split; [apply ln2_shape|]. repeat split; repeat constructor.
Qed.

(** X13: the logits of GPT-2.  With layers that work row by row,
    parameters of the shapes flax creates, no axis of size zero (vocab_size,
    n_embed, block_size, B and T at least 1) and either no block or
    1 <= num_heads <= n_embed, [GPT2.__call__] returns, on every batch of
    token ids of shape (B, T), logits of shape (B, T, vocab_size), also
    when num_heads does not divide n_embed; they are the logits of the same
    network without its dropout layers. *)
Theorem X13_GPT2_logits_shape (Ls : Attention.Layers) (cfg : Attention.Gpt2.Config)
    (p : Attention.ModelParams Ls) (rngs : Attention.Rngs) (B T : nat)
    (idx : list (list nat)) :
  rowwise Ls ->
  model_params_shape (Attention.Gpt2.vocab_size cfg) (Attention.Gpt2.n_embed cfg)
    (Attention.Gpt2.block_size cfg) (Attention.Gpt2.num_heads cfg)
    (Attention.Gpt2.num_layers cfg) p ->
  1 <= Attention.Gpt2.vocab_size cfg -> 1 <= Attention.Gpt2.n_embed cfg ->
  1 <= Attention.Gpt2.block_size cfg -> 1 <= B -> 1 <= T ->
  (Attention.Gpt2.num_layers cfg <> 0 ->
   heads_fit (Attention.Gpt2.n_embed cfg) (Attention.Gpt2.num_heads cfg)) ->
  Attention.shape2 B T idx ->
  exists logits,
    Attention.Gpt2.GPT2_call Ls cfg p rngs idx = Ok logits
    /\ Attention.Gpt2.GPT2_without_dropout Ls cfg p idx = Ok logits
    /\ Attention.shape3 B T (Attention.Gpt2.vocab_size cfg) logits.
Proof.
  intros Hrow Hp _ _ _ _ _ Hfit Hi. rewrite !GPT2_call_eq.
  destruct (causal3_GPT2_without_dropout Ls Hrow cfg p B T 0 0 idx idx Hp Hfit Hi Hi)
    as (logits & logits' & Hl & _ & Hs & _).
  - intros r r' Hr Hr' j _. congruence.
  - exists logits. split; [exact Hl|]. split; [exact Hl|exact Hs].
Qed.

Lemma X13_witness :
  exists logits,
    Attention.Gpt2.GPT2_call list_layers (gpt2_config_2_2 2 1) model_2_2 None [[0; 1]]
    = Ok logits
    /\ Attention.shape3 1 2 2 logits.
Proof.
  destruct (X13_GPT2_logits_shape list_layers (gpt2_config_2_2 2 1) model_2_2 None 1 2
              [[0; 1]] list_layers_rowwise (model_2_2_shape 1))
    as (logits & Hl & _ & Hs).
  - simpl. lia.
  - simpl. lia.
  - simpl. lia.
  - lia.
  - lia.
  - intros _. unfold heads_fit. simpl. lia.
  - split; [reflexivity|repeat constructor].
  - exists logits. split; [exact Hl|exact Hs].
Defined.

(** X15: the GPT-2 notebook's model with num_layers = 3 is the model of
    the transformer decoder notebook.  For the same parameters and input,
    and whatever the dropout rate and the random bits, [GPT2.__call__]
    returns what [AttentionLanguageModel.__call__] of the transformer
    decoder notebook returns, or raises the same exception. *)
Theorem X15_GPT2_three_layers_is_the_decoder (Ls : Attention.Layers)
    (vocab_size n_embed block_size num_heads : nat) (drop_rate : R)
    (p : Attention.ModelParams Ls) (rngs : Attention.Rngs) (index_seq : list (list nat)) :
  Attention.Gpt2.GPT2_call Ls
    {| Attention.Gpt2.vocab_size := vocab_size; Attention.Gpt2.n_embed := n_embed;
       Attention.Gpt2.block_size := block_size; Attention.Gpt2.num_heads := num_heads;
       Attention.Gpt2.num_layers := 3; Attention.Gpt2.drop_rate := drop_rate |}
    p rngs index_seq
  = Models.TransformerDecoder.AttentionLanguageModel_call Ls vocab_size n_embed
      block_size num_heads p index_seq.
Proof. rewrite GPT2_call_eq. apply TransformerDecoder_model_eq. Qed.

(** Parameters of the two other attention models, for 2 tokens, 2
    channels and 2 positions. *)
Definition multi_head_2_2 : Models.MultiHead.Params list_layers :=
  {| Models.MultiHead.token_embedding_table := eye2 : Attention.EmbedParams list_layers;
     Models.MultiHead.position_embedding_table := eye2 : Attention.EmbedParams list_layers;
     Models.MultiHead.sa_heads := fun _ => head_params_2x1;
     Models.MultiHead.lm_head := dense_2_2 |}.

Definition single_head_2_1 : Models.SingleHead.Params list_layers :=
  {| Models.SingleHead.token_embedding_table := eye2 : Attention.EmbedParams list_layers;
     Models.SingleHead.position_embedding_table := eye2 : Attention.EmbedParams list_layers;
     Models.SingleHead.sa_head := head_params_2x1;
     Models.SingleHead.lm_head :=
       {| Attention.kernel := [[1%R; 0%R]]; Attention.bias := [0%R; 0%R] |} |}.

(** X16: the logits of the model of the multi-headed self-attention
    notebook.  With layers that work row by row, parameters of the shapes
    flax creates, no axis of size zero (vocab_size, block_size, B and T at
    least 1) and 1 <= num_heads <= n_embed,
    [AttentionLanguageModel.__call__] returns, on every batch of token ids of
    shape (B, T), logits of shape (B, T, vocab_size), also when num_heads
    does not divide n_embed: [lm_head] takes the
    num_heads * (n_embed // num_heads) channels of the concatenated heads. *)
Theorem X16_multi_head_model_logits_shape (Ls : Attention.Layers)
    (vocab_size n_embed block_size num_heads : nat) (p : Models.MultiHead.Params Ls)
    (B T : nat) (idx : list (list nat)) :
  rowwise Ls ->
  heads_fit n_embed num_heads ->
  1 <= vocab_size -> 1 <= block_size -> 1 <= B -> 1 <= T ->
  embed_params_shape vocab_size n_embed (Models.MultiHead.token_embedding_table p) ->
  embed_params_shape block_size n_embed (Models.MultiHead.position_embedding_table p) ->
  (forall i, i < num_heads ->
     Attention.head_params_shape n_embed (n_embed / num_heads)
       (Models.MultiHead.sa_heads p i)) ->
  dense_params_shape (n_embed / num_heads * num_heads) vocab_size
    (Models.MultiHead.lm_head p) ->
  Attention.shape2 B T idx ->
  exists logits,
    Models.MultiHead.AttentionLanguageModel_call Ls vocab_size n_embed block_size
      num_heads p idx = Ok logits
    /\ Attention.shape3 B T vocab_size logits.
Proof.
  intros Hrow Hfit _ _ _ _ Htok Hpos _ [_ Hlm] Hi.
  destruct (causal3_MultiHead Ls Hrow B T 0 0 vocab_size n_embed block_size num_heads p
              idx idx Hfit Htok Hpos Hlm Hi Hi)
    as (logits & logits' & Hl & _ & Hs & _).
  - intros r r' Hr Hr' j _. congruence.
  - exists logits. by split.
Qed.

Lemma X16_witness :
  exists logits,
    Models.MultiHead.AttentionLanguageModel_call list_layers 2 2 2 2 multi_head_2_2
      [[0; 1]] = Ok logits
    /\ Attention.shape3 1 2 2 logits.
Proof.
  destruct (X16_multi_head_model_logits_shape list_layers 2 2 2 2 multi_head_2_2 1 2
              [[0; 1]] list_layers_rowwise)
    as (logits & Hl & Hs).
  - unfold heads_fit. lia.
  - lia.
  - lia.
  - lia.
  - lia.
  - apply eye2_embed_shape.
  - apply eye2_embed_shape.
  - intros i _. repeat split; repeat constructor.
  - repeat split; repeat constructor.
  - split; [reflexivity|repeat constructor].
  - exists logits. split; [exact Hl|exact Hs].
Defined.

(** X17: the logits of the model of the scaled self-attention notebook.
    With layers that work row by row, parameters of the shapes flax creates
    and no axis of size zero (vocab_size, n_embed, block_size, head_size, B
    and T at least 1), [AttentionLanguageModel.__call__] returns, on every
    batch of token ids of shape (B, T), logits of shape (B, T, vocab_size),
    whatever head_size is: [lm_head] takes the head_size channels of the
    head. *)
Theorem X17_single_head_model_logits_shape (Ls : Attention.Layers)
    (vocab_size n_embed block_size head_size : nat) (p : Models.SingleHead.Params Ls)
    (B T : nat) (idx : list (list nat)) :
  rowwise Ls ->
  1 <= head_size -> 1 <= vocab_size -> 1 <= n_embed -> 1 <= block_size ->
  1 <= B -> 1 <= T ->
  embed_params_shape vocab_size n_embed (Models.SingleHead.token_embedding_table p) ->
  embed_params_shape block_size n_embed (Models.SingleHead.position_embedding_table p) ->
  Attention.head_params_shape n_embed head_size (Models.SingleHead.sa_head p) ->
  dense_params_shape head_size vocab_size (Models.SingleHead.lm_head p) ->
  Attention.shape2 B T idx ->
  exists logits,
    Models.SingleHead.AttentionLanguageModel_call Ls vocab_size n_embed block_size
      head_size p idx = Ok logits
    /\ Attention.shape3 B T vocab_size logits.
Proof.
  intros Hrow Hhs _ _ _ _ _ Htok Hpos _ [_ Hlm] Hi.
  destruct (causal3_SingleHead Ls Hrow B T 0 0 vocab_size n_embed block_size head_size p
              idx idx ltac:(lia) Htok Hpos Hlm Hi Hi)
    as (logits & logits' & Hl & _ & Hs & _).
  - intros r r' Hr Hr' j _. congruence.
  - exists logits. by split.
Qed.

Lemma X17_witness :
  exists logits,
    Models.SingleHead.AttentionLanguageModel_call list_layers 2 2 2 1 single_head_2_1
      [[0; 1]] = Ok logits
    /\ Attention.shape3 1 2 2 logits.
Proof.
  destruct (X17_single_head_model_logits_shape list_layers 2 2 2 1 single_head_2_1 1 2
              [[0; 1]] list_layers_rowwise)
    as (logits & Hl & Hs).
  - lia.
  - lia.
  - lia.
  - lia.
  - lia.
  - lia.
  - apply eye2_embed_shape.
  - apply eye2_embed_shape.
  - repeat split; repeat constructor.
  - repeat split; repeat constructor.
  - split; [reflexivity|repeat constructor].
  - exists logits. split; [exact Hl|exact Hs].
Defined.


(** ** What a notebook asks of the outside *)

(** The calls that leave the process: the file system and the network. *)
Definition is_outside_event (e : Event) : bool :=
  match e with
  | EvExists _ | EvOpenW _ | EvWrite _ | EvOpenR _ | EvRead _ | EvHttpGet _ => true
  | _ => false
  end.

Section Outside.
Import Notebook.
Context {L : Library}.

(** [inside m]: whatever its outcome, [m] only prints and calls the
    libraries. *)
Definition inside {A} (m : M L A) : Prop :=
  forall env w, exists r lines evs,
    m env w = (r, extend w lines evs) /\ List.filter is_outside_event evs = [].

Lemma traced_inside {A} (m : M L A) r lines evs :
  traced m r lines evs -> List.filter is_outside_event evs = [] -> inside m.
Proof. intros Hm Hevs env w. exists r, lines, evs. by rewrite Hm. Qed.

Lemma inside_bind {A B} (m : M L A) (k : A -> M L B) :
  inside m -> (forall a, inside (k a)) -> inside (bind m k).
Proof.
  intros Hm Hk env w. unfold bind.
  destruct (Hm env w) as (r & l1 & e1 & -> & Hq1). destruct r as [a|e].
  - destruct (Hk a env (extend w l1 e1)) as (r & l2 & e2 & -> & Hq2).
    exists r, (l1 ++ l2), (e1 ++ e2). rewrite extend_extend.
    split; [done|]. by rewrite List.filter_app, Hq1, Hq2.
  - by exists (Raise e), l1, e1.
Qed.

Lemma inside_ret {A} (a : A) : inside (ret (L:=L) a).
Proof. by apply (traced_inside _ _ _ _ (traced_ret a)). Qed.

Lemma inside_print (l : Line L) : inside (print L l).
Proof. by apply (traced_inside _ _ _ _ (traced_print l)). Qed.

Lemma inside_lift_res {A} (r : res A) : inside (lift_res (L:=L) r).
Proof. by apply (traced_inside _ _ _ _ (traced_lift_res r)). Qed.

Lemma inside_call {A} (e : Event) (v : A) :
  is_outside_event e = false -> inside (call L e v).
Proof.
  intros He. apply (traced_inside _ _ _ _ (traced_call e v)). simpl. by rewrite He.
Qed.

Lemma inside_for_each {S} (body : nat -> S -> M L S) idxs s :
  (forall i s, inside (body i s)) -> inside (for_each L body idxs s).
Proof.
  intros Hb. revert s. induction idxs as [|i idxs IH]; intros s; simpl.
  - apply inside_ret.
  - apply inside_bind; [apply Hb|apply IH].
Qed.

Lemma inside_for_each_ (body : nat -> M L unit) idxs :
  (forall i, inside (body i)) -> inside (for_each_ L body idxs).
Proof.
  intros Hb. induction idxs as [|i idxs IH]; simpl.
  - apply inside_ret.
  - apply inside_bind; [apply Hb|intros _; apply IH].
Qed.

Local Ltac inside_cell :=
  repeat first [ apply inside_bind; [|intros ?]
               | apply inside_for_each; intros ? ?
               | apply inside_for_each_; intros ?
               | apply inside_print | apply inside_lift_res | apply inside_ret
               | by apply inside_call ].

Lemma inside_tokenize_and_split data : inside (tokenize_and_split L data).
Proof. unfold tokenize_and_split. inside_cell. Qed.

Lemma inside_show_head_cell d : inside (show_head_cell L d).
Proof. unfold show_head_cell. inside_cell. Qed.

Lemma inside_generate_cell s d v k : inside (generate_cell L s d v k).
Proof. unfold generate_cell. inside_cell. Qed.

Lemma inside_model_cells s d : inside (model_cells L s d).
Proof.
  unfold model_cells, bigram_cells, attention_cells, single_head_toy_cells.
  destruct s; inside_cell.
Qed.

Lemma inside_optimizer_cell s d p : inside (optimizer_cell L s d p).
Proof. unfold optimizer_cell. inside_cell. Qed.

Lemma inside_train_cell s g : inside (train_cell L s g).
Proof.
  unfold train_cell, train_loop. apply inside_for_each. intros i g'.
  by apply (traced_inside _ _ _ _ (train_body_traced s i g')).
Qed.

(** The calls to the outside of a run: [os.path.exists]; when the file is
    missing, [open(.., 'w')], [requests.get(data_url)] and [write]; then
    [open(.., 'r')] and [read]. *)
Definition outside_calls (existed : bool) : list Event :=
  EvExists input_file_path
  :: (if existed then []
      else [EvOpenW input_file_path; EvHttpGet data_url; EvWrite input_file_path])
  ++ [EvOpenR input_file_path; EvRead input_file_path].

(** What a run asks of the outside, [w] being the world before, [w'] the
    world after and [r] the outcome. *)
Definition outside_spec {A} (w : World L) (r : res A) (w' : World L) : Prop :=
  exists evs,
    events w' = events w ++ evs
    /\ (exists rest, evs = EvExists input_file_path :: rest)
    /\ List.filter is_outside_event evs `prefix_of` outside_calls (existed w)
    /\ (is_ok r -> List.filter is_outside_event evs = outside_calls (existed w)).

Local Ltac outside_case :=
  eexists; split; [by rewrite <- !app_assoc|]; simpl;
  split; [by eexists|];
  split; [first [by exists [] | by eexists]|];
  first [done | by intros [? ?]].

Lemma download_and_read_outside (env : Env) (w : World L) :
  outside_spec w (download_and_read L env w).1 (download_and_read L env w).2.
Proof.
  unfold outside_spec, existed, outside_calls.
  unfold download_and_read, os_path_exists, open_w, requests_get_text, f_write,
    open_r, f_read, print, bind, emit, ret. simpl.
  destruct (files w !! input_file_path) as [s|] eqn:Hf; simpl.
  - rewrite Hf.
    destruct (open_r_error env input_file_path) as [e|]; simpl; [outside_case|].
    destruct (read_error env input_file_path) as [e|]; simpl; [outside_case|].
    rewrite Hf. simpl. outside_case.
  - destruct (open_w_error env input_file_path) as [e|]; simpl; [outside_case|].
    destruct (http_text env data_url) as [t|e]; simpl; [|outside_case].
    destruct (write_error env input_file_path) as [e|]; simpl; [outside_case|].
    rewrite lookup_insert_eq.
    destruct (open_r_error env input_file_path) as [e|]; simpl; [outside_case|].
    destruct (read_error env input_file_path) as [e|]; simpl; [outside_case|].
    rewrite lookup_insert_eq. simpl. outside_case.
Qed.

Lemma outside_bind {A B} (m : M L A) (k : A -> M L B) env w :
  outside_spec w (m env w).1 (m env w).2 ->
  (forall a, inside (k a)) ->
  outside_spec w (bind m k env w).1 (bind m k env w).2.
Proof.
  unfold bind. destruct (m env w) as [r w1]. simpl.
  intros (evs & Hev & [rest ->] & Hpre & Hfull) Hk.
  destruct r as [a|e]; simpl.
  2:{ exists (EvExists input_file_path :: rest). split; [done|]. split; [by eexists|].
      split; [done|]. by intros [? ?]. }
  destruct (Hk a env w1) as (r2 & l2 & e2 & -> & Hq). simpl.
  exists ((EvExists input_file_path :: rest) ++ e2). unfold extend; simpl.
  rewrite Hev. split; [by rewrite <- app_assoc|]. split; [by eexists|].
  change (EvExists input_file_path :: rest ++ e2)
    with ((EvExists input_file_path :: rest) ++ e2).
  rewrite List.filter_app, Hq, app_nil_r.
  split; [done|]. intros _. apply Hfull. by eexists.
Qed.

Lemma notebook_outside (s : stage) (env : Env) (w : World L) :
  outside_spec w (notebook L s env w).1 (notebook L s env w).2.
Proof.
  unfold notebook, data_cell.
  apply outside_bind.
  - apply outside_bind; [apply download_and_read_outside|].
    apply inside_tokenize_and_split.
  - intros d. apply inside_bind; [apply inside_show_head_cell|intros _].
    apply inside_bind; [apply inside_model_cells|intros p].
    apply inside_bind; [apply inside_generate_cell|intros _].
    apply inside_bind; [apply inside_optimizer_cell|intros g0].
    apply inside_bind; [apply inside_train_cell|intros g].
    apply inside_bind; [apply inside_generate_cell|intros _].
    apply inside_ret.
Qed.

End Outside.

(** X18: what a notebook asks of the outside.  For every notebook,
    environment and initial world, a run starts by calling
    [os.path.exists(input_file_path)], and its calls to the file system and
    the network are, in order: that call; when the file is missing,
    [open(input_file_path, 'w')], [requests.get(data_url)] and one [write];
    then [open(input_file_path, 'r')] and one [read] (a run stopped by an
    exception makes a prefix of these calls).  So the network is used at
    most once, for [data_url] only, and never when the file exists. *)
Theorem X18_outside_calls (L : Library) (s : stage) (env : Env) (w : World L) :
  exists r w' evs,
    Notebook.notebook L s env w = (r, w')
    /\ events w' = events w ++ evs
    /\ (exists rest, evs = EvExists Notebook.input_file_path :: rest)
    /\ List.filter is_outside_event evs `prefix_of` outside_calls (existed w)
    /\ (is_ok r -> List.filter is_outside_event evs = outside_calls (existed w))
    /\ (forall url, EvHttpGet url ∈ evs ->
          url = Notebook.data_url /\ files w !! Notebook.input_file_path = None).
Proof.
  destruct (notebook_outside s env w) as (evs & Hev & Hfirst & Hpre & Hfull).
  destruct (Notebook.notebook L s env w) as [r w'] eqn:Hrun. simpl in *.
  exists r, w', evs. repeat (split; [done|]).
  intros url Hin.
  assert (Hin' : EvHttpGet url ∈ outside_calls (existed w)).
  { destruct Hpre as [k ->]. apply elem_of_app. left.
    apply list_elem_of_In, List.filter_In. split; [by apply list_elem_of_In|done]. }
  unfold outside_calls, existed in Hin'.
  destruct (files w !! Notebook.input_file_path) as [t|] eqn:Hf.
  - rewrite bool_decide_eq_true_2 in Hin' by (by eexists). simpl in Hin'.
    repeat (apply elem_of_cons in Hin' as [Hin'|Hin']; [discriminate Hin'|]).
    by apply elem_of_nil in Hin'.
  - rewrite bool_decide_eq_false_2 in Hin' by (by intros [? ?]). simpl in Hin'.
    apply elem_of_cons in Hin' as [Hin'|Hin']; [discriminate Hin'|].
    apply elem_of_cons in Hin' as [Hin'|Hin']; [discriminate Hin'|].
    apply elem_of_cons in Hin' as [Hin'|Hin']; [by injection Hin' as ->|].
    repeat (apply elem_of_cons in Hin' as [Hin'|Hin']; [discriminate Hin'|]).
    by apply elem_of_nil in Hin'.
Qed.


(** ** The averaging weights of the toy cells *)

Section TrickFacts.
Import Attention Trick.

(** A row of ones up to position [t], zeros after. *)
Definition ones_upto (t T : nat) : vec :=
  (fun j => if bool_decide (j <= t) then 1%R else 0%R) <$> seq 0 T.

Lemma rsum_indicator (t a n : nat) :
  rsum ((fun j => if bool_decide (j <= t) then 1%R else 0%R) <$> seq a n)
  = INR (Nat.min (a + n) (S t) - a).
Proof.
  revert a. induction n as [|n IH]; intros a.
  - simpl. replace (Nat.min (a + 0) (S t) - a) with 0 by lia. reflexivity.
  - cbn [seq]. rewrite fmap_cons. unfold rsum in *. cbn [foldr]. rewrite IH.
    destruct (decide (a <= t)) as [Ha|Ha].
    + rewrite bool_decide_eq_true_2 by done.
      replace (Nat.min (a + S n) (S t) - a) with (S (Nat.min (S a + n) (S t) - S a)) by lia.
      rewrite S_INR. lra.
    + rewrite bool_decide_eq_false_2 by done.
      replace (Nat.min (a + S n) (S t) - a) with 0 by lia.
      replace (Nat.min (S a + n) (S t) - S a) with 0 by lia. simpl. lra.
Qed.

Lemma rsum_ones_upto (t T : nat) : t < T -> rsum (ones_upto t T) = INR (S t).
Proof.
  intros Ht. unfold ones_upto. rewrite rsum_indicator. f_equal. lia.
Qed.

Lemma tril_ones_lookup (T t : nat) : t < T -> tril_ones T !! t = Some (ones_upto t T).
Proof. intros Ht. unfold tril_ones. by rewrite list_lookup_fmap, lookup_seq_lt. Qed.

(** The masked zeros of version 3, row [t], after [exp]. *)
Lemma exp_masked_zeros (t T : nat) :
  exp_x <$> zip_with (fun (m : bool) v => if m then v else NegInf)
              ((fun j => bool_decide (j <= t)) <$> seq 0 T) (replicate T (Fin 0%R))
  = ones_upto t T.
Proof.
  apply list_eq. intros j. unfold ones_upto.
  rewrite !list_lookup_fmap, lookup_zip_with, list_lookup_fmap.
  destruct (decide (j < T)) as [Hj|Hj].
  - rewrite lookup_seq_lt, lookup_replicate_2 by done. simpl.
    destruct (bool_decide (j <= t)); simpl; [apply f_equal, exp_0|done].
  - by rewrite lookup_seq_ge by lia.
Qed.

Lemma weights_version_2_lookup (T t : nat) :
  t < T ->
  weights_version_2 T !! t = Some ((fun v => (v / INR (S t))%R) <$> ones_upto t T).
Proof.
  intros Ht. unfold weights_version_2, normalize_rows.
  rewrite list_lookup_fmap, (tril_ones_lookup T t Ht). simpl.
  fold (rsum (ones_upto t T)). by rewrite rsum_ones_upto.
Qed.

Lemma weights_version_3_lookup (T t : nat) :
  t < T ->
  weights_version_3 T !! t = Some ((fun v => (v / INR (S t))%R) <$> ones_upto t T).
Proof.
  intros Ht. unfold weights_version_3, masked_fill_2d.
  rewrite list_lookup_fmap, lookup_zip_with, (lookup_tril T t Ht).
  rewrite lookup_replicate_2 by done. simpl. f_equal.
  rewrite softmax_rsum, exp_masked_zeros. by rewrite rsum_ones_upto.
Qed.

End TrickFacts.

(** X19: the softmax trick of the toy cells.  For every T, the weights of
    "version 3" (zeros, [masked_fill] with the lower-triangular mask and
    [-inf], softmax) are the weights of "version 2" (the lower-triangular
    matrix of ones divided by its row sums): a T x T matrix whose row t
    holds 1/(t+1) at the positions 0..t and 0 after.  So [weights @ x]
    is the same array in both versions. *)
Theorem X19_softmax_of_masked_zeros_averages (T : nat) :
  Trick.weights_version_3 T = Trick.weights_version_2 T
  /\ length (Trick.weights_version_2 T) = T
  /\ (forall t s, t < T -> s < T ->
        exists row, Trick.weights_version_2 T !! t = Some row
                    /\ length row = T
                    /\ row !! s = Some (if bool_decide (s <= t)
                                        then (1 / INR (S t))%R else 0%R))
  /\ forall x, Trick.aggregate (Trick.weights_version_3 T) x
               = Trick.aggregate (Trick.weights_version_2 T) x.
Proof.
  assert (Heq : Trick.weights_version_3 T = Trick.weights_version_2 T).
  { apply list_eq. intros t. destruct (decide (t < T)) as [Ht|Ht].
    - by rewrite weights_version_2_lookup, weights_version_3_lookup.
    - rewrite !(proj2 (lookup_ge_None _ _)); [done| |].
      + unfold Trick.weights_version_2, Trick.normalize_rows, Trick.tril_ones.
        rewrite !length_fmap, length_seq. lia.
      + unfold Trick.weights_version_3, Trick.masked_fill_2d.
        rewrite length_fmap, length_zip_with, length_tril, length_replicate. lia. }
  split; [exact Heq|]. split.
  { unfold Trick.weights_version_2, Trick.normalize_rows, Trick.tril_ones.
    by rewrite !length_fmap, length_seq. }
  split; [|intros x; by rewrite Heq].
  intros t s Ht Hs. eexists. split; [by apply weights_version_2_lookup|].
  split; [unfold ones_upto; by rewrite !length_fmap, length_seq|].
  unfold ones_upto. rewrite !list_lookup_fmap, lookup_seq_lt by done. simpl.
  f_equal. destruct (bool_decide (s <= t)); unfold Rdiv; [done|apply Rmult_0_l].
Qed.

(** ** Concatenating the heads without a projection *)

Section ConcatFacts.
Import Attention.

(** Two shapes of one array with at least one row. *)
Lemma shape3_channels (B T C C' : nat) (x : tensor3) :
  0 < B -> 0 < T -> shape3 B T C x -> shape3 B T C' x -> C = C'.
Proof.
  intros HB HT Hx Hx'.
  destruct (lookup_lt_is_Some_2 x 0) as [m Hm]; [destruct Hx as [-> _]; lia|].
  destruct (shape3_lookup B T C x 0 m Hx Hm) as [Hlen Hrows].
  destruct (shape3_lookup B T C' x 0 m Hx' Hm) as [_ Hrows'].
  destruct (lookup_lt_is_Some_2 m 0) as [r Hr]; [lia|].
  rewrite <- (Forall_lookup_1 _ _ _ _ Hrows Hr).
  exact (Forall_lookup_1 _ _ _ _ Hrows' Hr).
Qed.

End ConcatFacts.

(** An input of shape (1, 1, 3) and a head of size 1 on 3 channels. *)
Definition x_1_1_3 : list (list (list R)) := [[[1%R; 0%R; 0%R]]].

Definition head_params_3x1 : Attention.HeadParams :=
  {| Attention.key_kernel := [[1%R]; [1%R]; [1%R]];
     Attention.query_kernel := [[1%R]; [1%R]; [1%R]];
     Attention.value_kernel := [[1%R]; [2%R]; [3%R]] |}.

(** X21: the concatenation of the heads restores the embedding dimension
    exactly when num_heads divides n_embed.  In the multi-headed
    self-attention notebook, for 1 <= num_heads <= n_embed and an input of
    shape (B, T, n_embed) with B, T >= 1, [MultiHeadedAttention.__call__]
    with head_size = n_embed // num_heads returns an array of shape
    (B, T, num_heads * head_size); this is at most n_embed channels, and it
    is the shape (B, T, n_embed) if and only if num_heads divides n_embed. *)
Theorem X21_concatenation_restores_n_embed_iff_divides (num_heads n_embed B T : nat)
    (p : nat -> Attention.HeadParams) (x : list (list (list R))) :
  Attention.shape3 B T n_embed x ->
  heads_fit n_embed num_heads ->
  0 < B -> 0 < T ->
  (forall i, i < num_heads ->
     Attention.head_params_shape n_embed (n_embed / num_heads) (p i)) ->
  exists out,
    Attention.MultiHeadedAttention_call num_heads (n_embed / num_heads) p x = Ok out
    /\ Attention.shape3 B T (num_heads * (n_embed / num_heads)) out
    /\ num_heads * (n_embed / num_heads) <= n_embed
    /\ (Attention.shape3 B T n_embed out <-> Nat.divide num_heads n_embed).
Proof.
  intros Hx Hfit HB HT _.
  pose proof (heads_fit_head_size _ _ Hfit) as Hhs.
  assert (Hnh : num_heads <> 0) by (destruct Hfit; lia).
  destruct (MultiHeadedAttention_call_shape num_heads (n_embed / num_heads) B T n_embed
              p x Hhs Hnh Hx) as (out & Hout & Hshape).
  rewrite Nat.mul_comm in Hshape.
  exists out. split; [exact Hout|]. split; [exact Hshape|].
  split; [by apply Nat.Div0.mul_div_le|].
  split.
  - intros Hn. pose proof (shape3_channels B T _ _ out HB HT Hshape Hn) as Heq.
    exists (n_embed / num_heads). lia.
  - intros Hdiv. apply Nat.Lcm0.mod_divide in Hdiv.
    apply Nat.Div0.div_exact in Hdiv. by rewrite <- Hdiv in Hshape.
Qed.

Lemma X21_witness :
  Attention.shape3 1 1 3 x_1_1_3 /\ heads_fit 3 2
  /\ exists out,
      Attention.MultiHeadedAttention_call 2 (3 / 2) (fun _ => head_params_3x1) x_1_1_3
      = Ok out
      /\ Attention.shape3 1 1 2 out /\ ~ Attention.shape3 1 1 3 out.
Proof.
  assert (Hx : Attention.shape3 1 1 3 x_1_1_3).
  { split; [reflexivity|repeat constructor]. }
  assert (Hfit : heads_fit 3 2) by (unfold heads_fit; lia).
  split; [exact Hx|]. split; [exact Hfit|].
  destruct (X21_concatenation_restores_n_embed_iff_divides 2 3 1 1
              (fun _ => head_params_3x1) x_1_1_3 Hx Hfit ltac:(lia) ltac:(lia))
    as (out & Hout & Hshape & _ & Hiff).
  { intros i _. repeat split; repeat constructor. }
  exists out. split; [exact Hout|]. split; [exact Hshape|].
  intros Hn. apply Hiff in Hn. destruct Hn as [k Hk]. lia.
Defined.

(** ** A block on its own *)

(** Parameters of a block for 3 channels and 2 heads (of size 1). *)
Definition ln3 : Attention.vec * Attention.vec := ([1; 1; 1]%R, [0; 0; 0]%R).
Definition row12 (a : R) : Attention.vec := [a; a; a; a; a; a; a; a; a; a; a; a].
Definition block_3_2 : Attention.BlockParams list_layers :=
  {| Attention.blk_ln_0 := ln3 : Attention.LNParams list_layers;
     Attention.blk_mha :=
       {| Attention.mha_heads := fun _ => head_params_3x1;
          Attention.mha_proj :=
            {| Attention.kernel := [[1; 0; 1]; [0; 1; 0]]%R;
               Attention.bias := [0; 0; 0]%R |} |};
     Attention.blk_ln_1 := ln3 : Attention.LNParams list_layers;
     Attention.blk_ffwd :=
       {| Attention.ff_dense_0 :=
            {| Attention.kernel := [row12 1; row12 0; row12 1]%R;
               Attention.bias := row12 0 |};
          Attention.ff_dense_1 :=
            {| Attention.kernel :=
                 [[1; 0; 0]; [0; 1; 0]; [0; 0; 1]; [1; 0; 0]; [0; 1; 0]; [0; 0; 1];
                  [1; 0; 0]; [0; 1; 0]; [0; 0; 1]; [1; 0; 0]; [0; 1; 0]; [0; 0; 1]]%R;
               Attention.bias := [0; 0; 0]%R |} |} |}.

Lemma block_3_2_shape : block_params_shape 3 2 block_3_2.
Proof.
  assert (Hln : ln_params_shape (Ls:=list_layers) 3 (ln3 : Attention.LNParams list_layers)).
  { intros r Hr. simpl. unfold layer_norm_row.
    rewrite !length_zip_with, length_fmap, Hr. reflexivity. }
  split; [exact Hln|]. split.
  { intros i _. repeat split; repeat constructor. }
  split; [repeat split; repeat constructor|].
  split; [exact Hln|].
  split; repeat split; repeat constructor.
Qed.

(** X22: a block keeps the shape of its input.  In the transformer
    decoder and GPT-2 notebooks, with layers that work row by row,
    parameters of the shapes flax creates, B and T at least 1 and
    1 <= num_heads <= n_embed, [Block.__call__] maps every input of shape
    (B, T, n_embed) to an output of the same shape, also when num_heads
    does not divide n_embed (the projection of [MultiHeadedAttention]
    brings the concatenated heads back to n_embed channels, so both
    residual additions are on equal shapes); and the two notebooks' blocks
    return the same array. *)
Theorem X22_block_keeps_shape (Ls : Attention.Layers)
    (n_embed num_heads : nat) (drop_rate : R) (p : Attention.BlockParams Ls)
    (rngs : Attention.Rngs) (B T : nat) (x : list (list (list R))) :
  rowwise Ls ->
  heads_fit n_embed num_heads ->
  1 <= B -> 1 <= T ->
  block_params_shape n_embed num_heads p ->
  Attention.shape3 B T n_embed x ->
  exists out,
    Attention.Decoder.Block_call Ls n_embed num_heads p x = Ok out
    /\ Attention.Gpt2.Block_call Ls n_embed num_heads drop_rate p rngs x = Ok out
    /\ Attention.shape3 B T n_embed out.
Proof.
  intros Hrow Hfit _ _ Hp Hx.
  destruct (causal3_Block_call Ls Hrow B T 0 0 n_embed num_heads p x x Hfit Hp)
    as (out & out' & Hout & _ & Hso & _).
  - split; [exact Hx|]. split; [exact Hx|]. intros m m' Hm Hm' j _. congruence.
  - exists out. rewrite Gpt2_Block_call_eq. split; [exact Hout|]. split; [exact Hout|exact Hso].
Qed.

Lemma X22_witness :
  heads_fit 3 2 /\ ~ Nat.divide 2 3
  /\ exists out,
      Attention.Decoder.Block_call list_layers 3 2 block_3_2 x_1_1_3 = Ok out
      /\ Attention.shape3 1 1 3 out.
Proof.
  assert (Hfit : heads_fit 3 2) by (unfold heads_fit; lia).
  split; [exact Hfit|]. split; [intros [k Hk]; lia|].
  assert (Hx : Attention.shape3 1 1 3 x_1_1_3).
  { split; [reflexivity|repeat constructor]. }
  destruct (X22_block_keeps_shape list_layers 3 2 0%R block_3_2 None
              1 1 x_1_1_3 list_layers_rowwise Hfit ltac:(lia) ltac:(lia)
              block_3_2_shape Hx)
    as (out & Hout & _ & Hshape).
  exists out. split; [exact Hout|exact Hshape].
Defined.
